(** * ShowSnap backend: a shallow embedding of the movie handlers, the TMDB
      search handler and the seed script, with the properties of the
      specification stated over it.

    Sources embedded here:
    - [backend/controllers/movieController.js]  (public movie handlers)
    - the admin controller that follows it in the same file
    - [backend/controllers/tmdbController.js]
    - [backend/seedMovies.js]
    - the global error handler of the server's entry file

    Conventions.  JavaScript numbers are modelled by [num]: a rational, NaN
    or a signed infinity; differences and products are rounded to the
    nearest double.  Strings are the bytes of their UTF-8 encoding.  Instants
    ([Date]) are integers, milliseconds since the epoch.  Calls that leave the program (axios, the database
    driver, [Math.random]) take their outcome from an explicit oracle, so that
    every theorem quantifies over all outcomes. *)

From Stdlib Require Import ZArith QArith Qround Qabs Qpower Lqa List String Ascii Bool Lia DecimalString
  Permutation Arith Sorted.
Import ListNotations.

Local Open Scope string_scope.
Local Open Scope Z_scope.

(* ===================================================================== *)
(** ** The seed script's HTTP client: [fetchWithRetry]                    *)
(* ===================================================================== *)

Module Retry.

(** What [await axios.get(url, ...)] can do: resolve with a response body, or
    reject with an error that carries a message and, when the server
    answered, the HTTP status of [err.response]. *)
Inductive AxiosResult (D : Type) : Type :=
| Resolved (data : D)
| Rejected (message : string) (responseStatus : option Z).
Arguments Resolved {D} data.
Arguments Rejected {D} message responseStatus.

(** The three things the function can evaluate to: the response data, [null],
    or [undefined] when the loop ends without a [return]. *)
Inductive Fetched (D : Type) : Type :=
| FData (data : D)
| FNull
| FUndefined.
Arguments FData {D} data.
Arguments FNull {D}.
Arguments FUndefined {D}.

(** Observable steps of one call, in order. *)
Inductive Event : Type :=
| EGet (url : string) (attempt : nat)
| ELogError (url : string) (message : string)
| ESleep (ms : Z).

Definition is404 (st : option Z) : bool :=
  match st with
  | Some s => s =? 404
  | None => false
  end.

Section FetchWithRetry.
Context {D : Type}.
(** [axios_get url i]: the outcome of the [i]-th attempt (from 0) on [url]. *)
Variable axios_get : string -> nat -> AxiosResult D.

(** The body of [for (let i = 0; i < retries; i++)], by recursion on the
    number of iterations that remain ([retries - i]). *)
Fixpoint attemptsFrom (url : string) (retries : nat) (delay : Z)
         (remaining : nat) (i : nat) : list Event * Fetched D :=
  match remaining with
  | O => ([], FUndefined)
  | S remaining' =>
      match axios_get url i with
      | Resolved data => ([EGet url i], FData data)
      | Rejected msg st =>
          if is404 st then ([EGet url i; ELogError url msg], FNull)
          else if Z.of_nat i =? Z.of_nat retries - 1
               then ([EGet url i; ELogError url msg], FNull)
               else
                 let '(tr, r) :=
                   attemptsFrom url retries delay remaining' (S i) in
                 (EGet url i :: ELogError url msg
                    :: ESleep (delay * (Z.of_nat i + 1)) :: tr, r)
      end
  end.

Definition fetchWithRetry (url : string) (retries : nat) (delay : Z)
  : list Event * Fetched D :=
  attemptsFrom url retries delay retries 0.

(** The call as the script makes it: [retries = 5], [delay = 2000]. *)
Definition fetchWithRetry_default (url : string) : list Event * Fetched D :=
  fetchWithRetry url 5 2000.

(** Number of HTTP attempts in a trace. *)
Fixpoint attempts (tr : list Event) : nat :=
  match tr with
  | [] => O
  | EGet _ _ :: tr' => S (attempts tr')
  | _ :: tr' => attempts tr'
  end.

(** An attempt that fails and is not an HTTP 404. *)
Definition failsNot404 (r : AxiosResult D) : Prop :=
  match r with
  | Resolved _ => False
  | Rejected _ st => is404 st = false
  end.

Definition succeedsWith (r : AxiosResult D) (d : D) : Prop :=
  match r with
  | Resolved d' => d' = d
  | Rejected _ _ => False
  end.

Definition fails404 (r : AxiosResult D) : Prop :=
  match r with
  | Resolved _ => False
  | Rejected _ st => is404 st = true
  end.

(** What makes attempt [j] the last one: it succeeds, it is a 404, or it
    is attempt [retries - 1]. *)
Definition lastAttempt (url : string) (retries : nat) (j : nat) : Prop :=
  (exists d, succeedsWith (axios_get url j) d) \/
  fails404 (axios_get url j) \/
  (failsNot404 (axios_get url j) /\ S j = retries).

(** What the function returns when attempt [j] is the last one. *)
Definition resultOf (url : string) (j : nat) : Fetched D :=
  match axios_get url j with
  | Resolved d => FData d
  | Rejected _ _ => FNull
  end.

End FetchWithRetry.

(** A trace without its [console.error] lines. *)
Definition noLogs (tr : list Event) : list Event :=
  filter (fun e => match e with ELogError _ _ => false | _ => true end) tr.

(** The trace of [k] failed attempts, numbered from [from], each followed by
    its wait of [delay * (index + 1)] ms, and then one last attempt. *)
Definition retryTrace (url : string) (delay : Z) (from k : nat) : list Event :=
  flat_map (fun j => [EGet url j; ESleep (delay * (Z.of_nat j + 1))])
           (seq from k)
  ++ [EGet url (from + k)].

End Retry.

(** A run with the script's arguments: two network errors, then a success. *)
Definition flakyThenOk (url : string) (i : nat) : Retry.AxiosResult string :=
  match i with
  | 0%nat | 1%nat => Retry.Rejected "timeout of 7000ms exceeded" None
  | _ => Retry.Resolved "body"
  end.

(* ===================================================================== *)
(** ** [Math.random] and [Array.prototype.sort]                           *)
(* ===================================================================== *)

Module Js.

(** Template-literal conversion of an integer, [`${n}`]. *)
Definition numberToString (z : Z) : string :=
  DecimalString.NilZero.string_of_int (Z.to_int z).

(** The source of randomness: [draw n] is the value of the [n]-th call of
    [Math.random()], [used] the number of calls so far. *)
Record Rng : Type := mkRng { draw : nat -> Q; used : nat }.

Definition Rand (A : Type) : Type := Rng -> A * Rng.

Definition Math_random : Rand Q :=
  fun g => (draw g (used g), mkRng (draw g) (S (used g))).


(** [Array.prototype.sort(comparefn)].  Which comparisons are made, and in
    which order, is left to the engine; what every engine guarantees is that
    the elements are rearranged, none lost and none added, also when the
    comparator is inconsistent.  The comparator may consume randomness. *)
Class SortEngine : Type := {
  arraySort : forall {A : Type}, (A -> A -> Rand Q) -> list A -> Rand (list A);
  arraySort_perm : forall {A : Type} (cmp : A -> A -> Rand Q) (l : list A) g,
      Permutation (fst (arraySort cmp l g)) l
}.

(** One engine: insertion sort.  [x] goes before [y] when
    [comparefn(x, y) < 0]. *)
Fixpoint insertBy {A : Type} (cmp : A -> A -> Rand Q) (x : A) (l : list A)
  : Rand (list A) :=
  fun g =>
    match l with
    | [] => ([x], g)
    | y :: l' =>
        let '(c, g1) := cmp x y g in
        if Qlt_le_dec c 0 then (x :: y :: l', g1)
        else let '(r, g2) := insertBy cmp x l' g1 in (y :: r, g2)
    end.

Fixpoint insertionSort {A : Type} (cmp : A -> A -> Rand Q) (l : list A)
  : Rand (list A) :=
  fun g =>
    match l with
    | [] => ([], g)
    | x :: l' =>
        let '(sorted, g1) := insertionSort cmp l' g in
        insertBy cmp x sorted g1
    end.

Lemma insertBy_perm {A : Type} (cmp : A -> A -> Rand Q) x l :
  forall g, Permutation (fst (insertBy cmp x l g)) (x :: l).
Proof.
  induction l as [|y l IH]; intros g; simpl; [apply Permutation_refl|].
  destruct (cmp x y g) as [c g1].
  destruct (Qlt_le_dec c 0); simpl; [apply Permutation_refl|].
  specialize (IH g1). destruct (insertBy cmp x l g1) as [r g2]; simpl in *.
  eapply Permutation_trans; [apply perm_skip, IH|apply perm_swap].
Qed.

Lemma insertionSort_perm {A : Type} (cmp : A -> A -> Rand Q) l :
  forall g, Permutation (fst (insertionSort cmp l g)) l.
Proof.
  induction l as [|x l IH]; intros g; simpl; [apply perm_nil|].
  specialize (IH g). destruct (insertionSort cmp l g) as [sorted g1].
  simpl in IH.
  eapply Permutation_trans; [apply insertBy_perm|apply perm_skip, IH].
Qed.

#[export] Instance insertionEngine : SortEngine :=
  {| arraySort := @insertionSort; arraySort_perm := @insertionSort_perm |}.

End Js.

(* ===================================================================== *)
(** ** Seat maps: [generateBlockedSeats]                                  *)
(* ===================================================================== *)

Module Seats.
Import Js.

Definition seatRows : list string := ["A"; "B"; "C"; "D"].
Definition seatCols : list Z := [1; 2; 3; 4; 5; 6].

(** [seatRows.flatMap(row => seatCols.map(col => `${row}${col}`))] *)
Definition allSeats : list string :=
  flat_map (fun row => map (fun col => row ++ numberToString col) seatCols)
           seatRows.

(** [const total = Math.floor(Math.random() * 10);
     const shuffled = [...allSeats].sort(() => 0.5 - Math.random());
     return shuffled.slice(0, total);] *)
Definition generateBlockedSeats {E : SortEngine} : Rand (list string) :=
  fun g =>
    let '(r, g1) := Math_random g in
    let total := Qfloor (r * 10) in
    let '(shuffled, g2) :=
      arraySort (fun _ _ : string =>
                   fun h => let '(x, h') := Math_random h in ((1 # 2) - x, h')%Q)
                allSeats g1 in
    (firstn (Z.to_nat total) shuffled, g2).

End Seats.

(** A random source for examples: the draws cycle through 0.7, 0.2, 0.9. *)
Definition cyclingRng : Js.Rng :=
  Js.mkRng (fun n => match Nat.modulo n 3 with
                     | 0%nat => 7 # 10
                     | 1%nat => 2 # 10
                     | _ => 9 # 10
                     end) 0.

(* ===================================================================== *)
(** ** JavaScript values used by the handlers                             *)
(* ===================================================================== *)

Module JsNum.

(** A JavaScript number: a finite value, NaN, or an infinity.  A finite
    value is kept as the rational it is; the results of [-] and [*] are
    rounded to the nearest double as JavaScript rounds them. *)
Inductive num : Type :=
| Fin (q : Q)
| NaN
| PosInf
| NegInf.

Definition ofZ (z : Z) : num := Fin (inject_Z z).
Definition ofNat (n : nat) : num := ofZ (Z.of_nat n).

Definition isNaN (x : num) : bool :=
  match x with NaN => true | _ => false end.

(** [x <= y] as JavaScript evaluates it: false when either side is NaN. *)
Definition leb (x y : num) : bool :=
  match x, y with
  | NaN, _ | _, NaN => false
  | NegInf, _ => true
  | _, PosInf => true
  | Fin a, Fin b => Qle_bool a b
  | _, _ => false
  end.

Definition ltb (x y : num) : bool :=
  match x, y with
  | NaN, _ | _, NaN => false
  | PosInf, _ => false
  | _, NegInf => false
  | Fin a, Fin b => negb (Qle_bool b a)
  | _, _ => true
  end.

(** [Math.min(x, y)] and [Math.max(x, y)]: NaN if either argument is NaN. *)
Definition Math_min (x y : num) : num :=
  match x, y with
  | NaN, _ | _, NaN => NaN
  | _, _ => if leb x y then x else y
  end.

Definition Math_max (x y : num) : num :=
  match x, y with
  | NaN, _ | _, NaN => NaN
  | _, _ => if leb x y then y else x
  end.

Definition sign (q : Q) : comparison := (Qnum q ?= 0)%Z.

(** [2^e], also for a negative [e]. *)
Definition pow2 (e : Z) : Q := (2 ^ e)%Q.

(** The integer nearest to a non-negative [q]; of two equally near, the even
    one. *)
Definition nearestEven (q : Q) : Z :=
  let f := Qfloor q in
  match (q - inject_Z f ?= 1 # 2)%Q with
  | Lt => f
  | Gt => f + 1
  | Eq => if Z.even f then f else f + 1
  end.

(** [floor(log2(a))] for a positive [a]. *)
Definition log2floor (a : Q) : Z :=
  let l := Z.log2 (Qnum a) - Z.log2 (Zpos (Qden a)) in
  if Qle_bool (pow2 l) a then l else l - 1.

(** The number a real result is rounded to: the nearest double (IEEE 754
    binary64: 53 significant bits, a smallest spacing of [2^-1074], ties to
    the even significand), an infinity from [2^1024] on. *)
Definition roundToDouble (q : Q) : num :=
  match sign q with
  | Eq => Fin 0
  | s =>
      let a := Qabs q in
      let u := Z.max (log2floor a - 52) (-1074) in
      let r := Qred (inject_Z (nearestEven (a / pow2 u)) * pow2 u) in
      if Qle_bool (pow2 1024) r
      then match s with Lt => NegInf | _ => PosInf end
      else Fin (match s with Lt => - r | _ => r end)
  end.

(** [x - y] *)
Definition sub (x y : num) : num :=
  match x, y with
  | NaN, _ | _, NaN => NaN
  | Fin a, Fin b => roundToDouble (a - b)
  | PosInf, PosInf | NegInf, NegInf => NaN
  | PosInf, _ => PosInf
  | NegInf, _ => NegInf
  | Fin _, PosInf => NegInf
  | Fin _, NegInf => PosInf
  end.

Definition neg (x : num) : num :=
  match x with
  | Fin a => Fin (- a)
  | NaN => NaN
  | PosInf => NegInf
  | NegInf => PosInf
  end.

Definition infBySign (c : comparison) : num :=
  match c with
  | Gt => PosInf
  | Lt => NegInf
  | Eq => NaN
  end.

(** [x * y]; an infinity times zero is NaN. *)
Definition mul (x y : num) : num :=
  match x, y with
  | NaN, _ | _, NaN => NaN
  | Fin a, Fin b => roundToDouble (a * b)
  | PosInf, Fin b | Fin b, PosInf => infBySign (sign b)
  | NegInf, Fin b | Fin b, NegInf => neg (infBySign (sign b))
  | PosInf, PosInf | NegInf, NegInf => PosInf
  | PosInf, NegInf | NegInf, PosInf => NegInf
  end.

(** [x / y]; a non-zero value over zero is an infinity, [0 / 0] is NaN, a
    finite value over an infinity is zero.  The sign of a zero divisor is
    not tracked: the model has one zero, the positive one.  The quotient is
    kept exact: the handlers divide a count by a page size and use the
    ceiling only, and for a count below [2^53] and a whole page size the
    rounded quotient lies between the same two integers as the exact one
    (the rounding error is below half a unit in the last place, which is
    below the reciprocal of the page size; [ceil_of_rounded_quotient]
    below proves it). *)
Definition div (x y : num) : num :=
  match x, y with
  | NaN, _ | _, NaN => NaN
  | Fin a, Fin b =>
      match sign b with
      | Eq => infBySign (sign a)
      | _ => Fin (a / b)
      end
  | Fin _, _ => Fin 0
  | PosInf, Fin b =>
      match sign b with Lt => NegInf | _ => PosInf end
  | NegInf, Fin b =>
      match sign b with Lt => PosInf | _ => NegInf end
  | _, _ => NaN
  end.

(** [Math.ceil(x)] *)
Definition Math_ceil (x : num) : num :=
  match x with
  | Fin a => ofZ (Qceiling a)
  | _ => x
  end.

(** The integer a number denotes, when it denotes one. *)
Definition toInteger (x : num) : option Z :=
  match x with
  | Fin a => if Qeq_bool a (inject_Z (Qfloor a)) then Some (Qfloor a) else None
  | _ => None
  end.

(** Equality of numbers as values ([Fin (2 # 2)] and [Fin 1] are the same
    number); NaN is identified with itself here, unlike [===]. *)
Definition same (x y : num) : Prop :=
  match x, y with
  | Fin a, Fin b => (a == b)%Q
  | NaN, NaN | PosInf, PosInf | NegInf, NegInf => True
  | _, _ => False
  end.

End JsNum.

Module JsStr.

(** A string is kept as the bytes of its UTF-8 encoding.  The characters
    that [String.prototype.trim] removes are the WhiteSpace and
    LineTerminator code points of ECMAScript: TAB, LF, VT, FF, CR, SP,
    U+00A0, U+1680, U+2000 to U+200A, U+2028, U+2029, U+202F, U+205F, U+3000
    and U+FEFF. *)
Definition byte (c : ascii) : nat := nat_of_ascii c.

(** The single bytes: TAB, LF, VT, FF, CR, SP. *)
Definition isSpace (c : ascii) : bool :=
  let n := nat_of_ascii c in
  ((9 <=? n)%nat && (n <=? 13)%nat) || (n =? 32)%nat.

(** [C2 A0], the encoding of U+00A0. *)
Definition isSpace2 (b1 b2 : ascii) : bool :=
  ((byte b1 =? 194) && (byte b2 =? 160))%nat.

(** The encodings of three bytes: [E1 9A 80] (U+1680), [E2 80 80] to
    [E2 80 8A] (U+2000 to U+200A), [E2 80 A8], [E2 80 A9] (U+2028, U+2029),
    [E2 80 AF] (U+202F), [E2 81 9F] (U+205F), [E3 80 80] (U+3000) and
    [EF BB BF] (U+FEFF). *)
Definition isSpace3 (b1 b2 b3 : ascii) : bool :=
  let '(x, y, z) := (byte b1, byte b2, byte b3) in
  ((x =? 225) && (y =? 154) && (z =? 128)
   || (x =? 226) && (y =? 128)
      && ((128 <=? z) && (z <=? 138) || (z =? 168) || (z =? 169) || (z =? 175))
   || (x =? 226) && (y =? 129) && (z =? 159)
   || (x =? 227) && (y =? 128) && (z =? 128)
   || (x =? 239) && (y =? 187) && (z =? 191))%nat.

(** [s.trimStart()] *)
Fixpoint trimStart (s : string) : string :=
  match s with
  | EmptyString => EmptyString
  | String c1 s1 =>
      if isSpace c1 then trimStart s1
      else
        match s1 with
        | String c2 s2 =>
            if isSpace2 c1 c2 then trimStart s2
            else
              match s2 with
              | String c3 s3 => if isSpace3 c1 c2 c3 then trimStart s3 else s
              | EmptyString => s
              end
        | EmptyString => s
        end
  end.

(** The same on the bytes in reverse order: a character's last byte comes
    first. *)
Fixpoint dropSpacesReversed (l : list ascii) : list ascii :=
  match l with
  | [] => []
  | c1 :: l1 =>
      if isSpace c1 then dropSpacesReversed l1
      else
        match l1 with
        | c2 :: l2 =>
            if isSpace2 c2 c1 then dropSpacesReversed l2
            else
              match l2 with
              | c3 :: l3 =>
                  if isSpace3 c3 c2 c1 then dropSpacesReversed l3 else l
              | [] => l
              end
        | [] => l
        end
  end.

(** [s.trimEnd()] *)
Definition trimEnd (s : string) : string :=
  string_of_list_ascii
    (rev (dropSpacesReversed (rev (list_ascii_of_string s)))).

(** [s.trim()] *)
Definition trim (s : string) : string := trimEnd (trimStart s).

(** Truthiness of a string that may be [undefined]. *)
Definition truthy (s : option string) : bool :=
  match s with
  | Some (String _ _) => true
  | _ => false
  end.

(** [s?.trim()] *)
Definition optTrim (s : option string) : option string := option_map trim s.

(** [s.split(sep)[0]] for a one-character separator. *)
Fixpoint beforeChar (sep : ascii) (s : string) : string :=
  match s with
  | EmptyString => EmptyString
  | String c s' => if Ascii.eqb c sep then EmptyString
                   else String c (beforeChar sep s')
  end.

(** [arr.includes(x)] on an array of strings. *)
Definition includes (arr : list string) (x : string) : bool :=
  existsb (String.eqb x) arr.
Arguments includes : simpl never.

End JsStr.

(* ===================================================================== *)
(** ** Documents, the database and the effect monad                       *)
(* ===================================================================== *)

Module Model.
Import JsNum.

(** An [ObjectId] is a 96-bit value; request parameters carry it as text. *)
Definition ObjectId : Type := N.

(** A [Date] object: an instant in milliseconds since the epoch, or the
    Invalid Date that [new Date(s)] yields for text it cannot parse. *)
Inductive JsDate : Type :=
| ValidDate (ms : Z)
| InvalidDate.

Record Showtime : Type := mkShowtime {
  startTime : JsDate;
  screen : string;
  availableSeats : Z;
  blockedSeats : list string;
  showMovie : option ObjectId          (* the [movie] reference, if any *)
}.

Record EmbeddedTheater : Type := mkEmbedded {
  etName : string;
  etLocation : string;
  etShowtimes : list Showtime
}.

Record CastMember : Type := mkCast {
  castName : string;
  castRole : string;
  castPhotoUrl : string
}.

(** The [theaters] field of a movie holds embedded copies when the admin
    handler writes it and theater ids when the seed script does. *)
Inductive TheaterRef : Type :=
| RefEmbedded (e : EmbeddedTheater)
| RefId (id : ObjectId).

(** A Movie document, with the fields the handlers and the script read or
    write. *)
Record Movie : Type := mkMovie {
  movieId : ObjectId;
  title : string;
  description : option string;
  genre : string;
  rating : option Q;
  duration : option string;
  posterUrl : string;
  trailerUrl : option string;
  releaseDate : option JsDate;
  language : string;
  cast : list CastMember;
  theaters : list TheaterRef;
  embeddedTheaters : list EmbeddedTheater
}.

(** The body of a [PUT]: the fields to overwrite. *)
Record MovieUpdate : Type := mkUpdate {
  uTitle : option string;
  uDescription : option string;
  uGenre : option string;
  uRating : option Q;
  uDuration : option string;
  uPosterUrl : option string;
  uTrailerUrl : option string;
  uReleaseDate : option JsDate;
  uLanguage : option string;
  uCast : option (list CastMember);
  uTheaters : option (list TheaterRef);
  uEmbeddedTheaters : option (list EmbeddedTheater)
}.

Record Theater : Type := mkTheater {
  theaterId : ObjectId;
  theaterName : string;
  theaterLocation : string;
  showtimes : list Showtime;
  movieTitles : list string;
  theaterStatus : option string
}.

(** Bookings and users: only what the admin listings filter on. *)
Record Booking : Type := mkBooking {
  bookingUser : string;
  bookingMovie : string
}.

Record User : Type := mkUser {
  userName : string;
  userEmail : string;
  userRole : string
}.

Record Db : Type := mkDb {
  movies : list Movie;
  theaterDocs : list Theater;
  bookings : list Booking;
  users : list User
}.

(** An entry of a TMDB search result. *)
Record TmdbMovie : Type := mkTmdbMovie {
  tmdbId : Z;
  tmdbTitle : string
}.

(** The body of a TMDB search response: absent, without a [results] array,
    or with one. *)
Inductive SearchData : Type :=
| NoData
| NoResults
| Results (l : list TmdbMovie).

(** The argument of a [findById]: text from the request, or the
    [toString()] of a stored [_id], whose cast gives that [_id] back. *)
Inductive IdArg : Type :=
| IdText (s : string)
| IdValue (id : ObjectId).

(** An exception: its [name] and its [message]. *)
Record Exn : Type := mkExn { exnName : string; exnMessage : string }.

(** Conditions of a [$match] / [find] filter, as the handlers build them. *)
Inductive Filter : Type :=
| ReleaseDateGt (d : Z)              (* [{ releaseDate: { $gt: d } }] *)
| ReleaseDateLte (d : Z)             (* [{ releaseDate: { $lte: d } }] *)
| ReleaseDateGte (d : Z)             (* [{ releaseDate: { $gte: d } }] *)
| EmbeddedLocationRegex (pat : string)
| GenreRegex (pat : string)
| RatingGte (x : num)
| LanguageRegex (pat : string).

Inductive SortKey : Type := SortRating | SortReleaseDate.

Inductive Stage : Type :=
| Search (query : string)
| Match (filters : list Filter)
| Sort (key : SortKey)
| Skip (n : num)
| Limit (n : num).

(** Calls made on the database driver, as they appear in the call log. *)
Inductive DbCall : Type :=
| CMovieAggregate (pipeline : list Stage)
| CMovieCountDocuments (filters : list Filter)
| CMovieFindById (id : string)
| CMovieDistinct (field : string)
| CMovieSave
| CMovieFind (filters : list Filter)
| CMovieInsertMany (n : nat)
| CMovieDeleteMany
| CMovieFindByIdAndUpdate (id : string)
| CMovieSetEmbedded (id : ObjectId) (theaterIds : option (list ObjectId))
                    (embedded : list EmbeddedTheater)
| CMovieFindByIdAndDelete (id : string)
| CTheaterFind
| CTheaterFindById (id : IdArg)
| CTheaterFindOne (name location : string)
| CTheaterUpdateOne (id : ObjectId) (push : list Showtime) (addToSet : string)
| CTheaterUpdateMany
| CTheaterFindOneAndUpdate (name : string)
| CBookingFind
| CBookingCountDocuments
| CUserFind
| CUserCountDocuments.

(** The world a handler runs in: the database; the failures the driver will
    report ([faults], one entry per call to come, [Some e] making that call
    throw [e]; calls beyond the list succeed); the log of calls made; the
    random source; and the clock. *)
Record World : Type := mkWorld {
  db : Db;
  faults : list (option Exn);
  calls : list DbCall;
  rng : Js.Rng;
  now : Z
}.

Inductive Result (A : Type) : Type :=
| Ok (a : A)
| Throw (e : Exn).
Arguments Ok {A} a.
Arguments Throw {A} e.

(** Computations that read and change the world and may throw. A change made
    before a throw stays made. *)
Definition M (A : Type) : Type := World -> Result A * World.

Definition ret {A} (a : A) : M A := fun w => (Ok a, w).

Definition bind {A B} (m : M A) (k : A -> M B) : M B :=
  fun w =>
    match m w with
    | (Ok a, w') => k a w'
    | (Throw e, w') => (Throw e, w')
    end.

Definition throw {A} (e : Exn) : M A := fun w => (Throw e, w).

(** [try { body } catch (err) { handler(err) }] *)
Definition tryCatch {A} (body : M A) (handler : Exn -> M A) : M A :=
  fun w =>
    match body w with
    | (Ok a, w') => (Ok a, w')
    | (Throw e, w') => handler e w'
    end.

Declare Scope m_scope.
Delimit Scope m_scope with M.
Notation "x <- c1 ;; c2" := (bind c1 (fun x => c2))
  (at level 100, c1 at next level, right associativity) : m_scope.
Notation "c1 ;;; c2" := (bind c1 (fun _ => c2))
  (at level 100, right associativity) : m_scope.

(** Draw from the world's random source. *)
Definition liftRand {A} (r : Js.Rand A) : M A :=
  fun w =>
    let '(a, g) := r (rng w) in
    (Ok a, mkWorld (db w) (faults w) (calls w) g (now w)).

(** [new Date()] *)
Definition newDateNow : M Z := fun w => (Ok (now w), w).

(** One call on the driver: it is logged, it consumes one fault entry, and it
    either throws that fault or runs [op] on the database.  [op] itself may
    throw (a cast or validation error, a rejected pipeline). *)
Definition dbCall {A} (c : DbCall) (op : Db -> Result A * Db) : M A :=
  fun w =>
    let log := (calls w ++ [c])%list in
    match faults w with
    | Some e :: rest => (Throw e, mkWorld (db w) rest log (rng w) (now w))
    | rest0 =>
        let '(r, d) := op (db w) in
        (r, mkWorld d (List.tl rest0) log (rng w) (now w))
    end.

(** [for (const x of xs) { body(x) }] *)
Fixpoint forEach {A} (xs : list A) (body : A -> M unit) : M unit :=
  match xs with
  | [] => ret tt
  | x :: xs' => bind (body x) (fun _ => forEach xs' body)
  end.

(** Sequential [map] with effects (also used for [Promise.all] over an
    [async] map, whose callbacks are started in order). *)
Fixpoint mapM {A B} (f : A -> M B) (xs : list A) : M (list B) :=
  match xs with
  | [] => ret []
  | x :: xs' => bind (f x) (fun y => bind (mapM f xs') (fun ys => ret (y :: ys)))
  end.

End Model.

(* ===================================================================== *)
(** ** What the program takes from its runtime and its libraries          *)
(* ===================================================================== *)

Module Env.
Import JsNum Model.

(** Built-ins and library functions whose code is not part of the
    repository.  Theorems quantify over every [JsEnv]. *)
Record JsEnv : Type := mkEnv {
  toNumber : string -> num;            (* [Number(s)] *)
  parseFloat : string -> num;          (* [parseFloat(s)] *)
  dateOfString : string -> JsDate;     (* [new Date(s)]; [Date.parse(s)] is
                                          its time, NaN when invalid *)
  toISOString : Z -> string;           (* [d.toISOString()] of a valid date *)
  startOfLocalDay : Z -> Z;            (* [d.setHours(0, 0, 0, 0)] *)
  regexCompile : string -> option (string -> bool);
                                       (* [$regex] with [$options: 'i'];
                                          [None] for a malformed pattern *)
  atlasSearch : string -> list Movie -> list Movie;
                                       (* the [$search] stage on index
                                          [movieSearch], fuzzy text query *)
  objectIdIsValid : string -> bool;    (* [mongoose.Types.ObjectId.isValid] *)
  castObjectId : string -> option ObjectId;
                                       (* the cast a query applies to an id *)
  movieSchemaError : Movie -> option string;
                                       (* validation of the Movie schema *)
  updateSchemaError : MovieUpdate -> option string
                                       (* the schema's validators on the
                                          paths of an update, as
                                          [runValidators: true] runs them *)
}.

End Env.

(* ===================================================================== *)
(** ** The Mongoose operations the program calls                          *)
(* ===================================================================== *)

Module Mongoose.
Import JsNum JsStr Model Env.
Local Open Scope m_scope.

Definition castError (what : string) : Exn :=
  mkExn "CastError" ("Cast failed for value " ++ what).

Definition mongoError (msg : string) : Exn := mkExn "MongoServerError" msg.

Definition validationError (msg : string) : Exn := mkExn "ValidationError" msg.

(** Comparison of a stored date with a query date: a missing or non-date
    field matches neither [$gt], [$gte] nor [$lte]. *)
Definition dateHolds (test : Z -> bool) (d : option JsDate) : bool :=
  match d with
  | Some (ValidDate ms) => test ms
  | _ => false
  end.

Section WithEnv.
Variable env : JsEnv.

(** Does movie [m] satisfy [f]?  [None]: the pattern does not compile. *)
Definition matchFilter (f : Filter) (m : Movie) : option bool :=
  match f with
  | ReleaseDateGt d => Some (dateHolds (fun ms => d <? ms) (releaseDate m))
  | ReleaseDateLte d => Some (dateHolds (fun ms => ms <=? d) (releaseDate m))
  | ReleaseDateGte d => Some (dateHolds (fun ms => d <=? ms) (releaseDate m))
  | EmbeddedLocationRegex pat =>
      option_map (fun re => existsb (fun e => re (etLocation e))
                                    (embeddedTheaters m))
                 (regexCompile env pat)
  | GenreRegex pat => option_map (fun re => re (genre m)) (regexCompile env pat)
  | RatingGte x =>
      Some match rating m with
           | Some r => leb x (Fin r)
           | None => false
           end
  | LanguageRegex pat =>
      option_map (fun re => re (language m)) (regexCompile env pat)
  end.

Definition filterCompiles (f : Filter) : bool :=
  match f with
  | EmbeddedLocationRegex pat | GenreRegex pat | LanguageRegex pat =>
      match regexCompile env pat with Some _ => true | None => false end
  | _ => true
  end.

(** [{ $and: filters }] on one movie (a filter that does not compile counts
    as not matching; queries holding one are rejected before). *)
Definition matchAll (filters : list Filter) (m : Movie) : bool :=
  forallb (fun f => match matchFilter f m with
                    | Some b => b
                    | None => false
                    end) filters.

(** The documents a filter selects, or the error of a malformed pattern. *)
Definition selectMovies (filters : list Filter) (docs : list Movie)
  : Result (list Movie) :=
  if forallb filterCompiles filters
  then Ok (filter (matchAll filters) docs)
  else Throw (mongoError "Regular expression is invalid").

Definition sortKeyOf (k : SortKey) (m : Movie) : option Q :=
  match k with
  | SortRating => rating m
  | SortReleaseDate =>
      match releaseDate m with
      | Some (ValidDate ms) => Some (inject_Z ms)
      | _ => None
      end
  end.

(** [a] sorts strictly before [b] in descending order; a missing key is the
    lowest. *)
Definition keyAbove (a b : option Q) : bool :=
  match a, b with
  | Some x, Some y => negb (Qle_bool x y)
  | Some _, None => true
  | None, _ => false
  end.

Fixpoint insertDesc (k : SortKey) (x : Movie) (l : list Movie) : list Movie :=
  match l with
  | [] => [x]
  | y :: l' =>
      if keyAbove (sortKeyOf k x) (sortKeyOf k y) then x :: y :: l'
      else y :: insertDesc k x l'
  end.

(** [{ $sort: { key: -1 } }].  The order among equal keys is the engine's
    choice; the model keeps the relative order of the later documents. *)
Definition sortDesc (k : SortKey) (docs : list Movie) : list Movie :=
  fold_right (insertDesc k) [] docs.

Definition maxInt64 : Z := 9223372036854775807.

(** One stage of an aggregation.  [$skip] wants a non-negative integer and
    [$limit] a positive one, both within 64 bits: the server rejects the
    pipeline otherwise. *)
Definition runStage (s : Stage) (docs : list Movie) : Result (list Movie) :=
  match s with
  | Search query => Ok (atlasSearch env query docs)
  | Match filters => selectMovies filters docs
  | Sort k => Ok (sortDesc k docs)
  | Skip n =>
      match toInteger n with
      | Some z => if (0 <=? z) && (z <=? maxInt64)
                  then Ok (skipn (Z.to_nat z) docs)
                  else Throw (mongoError "invalid argument to $skip stage")
      | None => Throw (mongoError "invalid argument to $skip stage")
      end
  | Limit n =>
      match toInteger n with
      | Some z => if (1 <=? z) && (z <=? maxInt64)
                  then Ok (firstn (Z.to_nat z) docs)
                  else Throw (mongoError "invalid argument to $limit stage")
      | None => Throw (mongoError "invalid argument to $limit stage")
      end
  end.

Fixpoint runPipeline (p : list Stage) (docs : list Movie)
  : Result (list Movie) :=
  match p with
  | [] => Ok docs
  | s :: p' =>
      match runStage s docs with
      | Ok docs' => runPipeline p' docs'
      | Throw e => Throw e
      end
  end.

(** [Movie.aggregate(pipeline)] *)
Definition Movie_aggregate (p : list Stage) : M (list Movie) :=
  dbCall (CMovieAggregate p) (fun d => (runPipeline p (movies d), d)).

(** [Movie.countDocuments(filters.length ? { $and: filters } : {})] *)
Definition Movie_countDocuments (filters : list Filter) : M nat :=
  dbCall (CMovieCountDocuments filters)
    (fun d => (match selectMovies filters (movies d) with
               | Ok l => Ok (List.length l)
               | Throw e => Throw e
               end, d)).

Definition findMovie (id : ObjectId) (docs : list Movie) : option Movie :=
  find (fun m => N.eqb (movieId m) id) docs.

Definition findTheater (id : ObjectId) (docs : list Theater) : option Theater :=
  find (fun t => N.eqb (theaterId t) id) docs.

(** [Movie.findById(id)]: the text must cast to an ObjectId. *)
Definition Movie_findById (id : string) : M (option Movie) :=
  dbCall (CMovieFindById id)
    (fun d => (match castObjectId env id with
               | Some oid => Ok (findMovie oid (movies d))
               | None => Throw (castError id)
               end, d)).

Fixpoint distinct (l : list string) : list string :=
  match l with
  | [] => []
  | x :: l' => x :: filter (fun y => negb (String.eqb x y)) (distinct l')
  end.

(** [Movie.distinct('genre')] *)
Definition Movie_distinct_genre : M (list string) :=
  dbCall (CMovieDistinct "genre")
    (fun d => (Ok (distinct (map genre (movies d))), d)).

(** A new [_id]: one that no document of the collection carries. *)
Definition freshId (ids : list ObjectId) : ObjectId :=
  N.succ (fold_right N.max 0%N ids).

Definition showtimesValid (sts : list Showtime) : bool :=
  forallb (fun s => match startTime s with
                    | ValidDate _ => true
                    | InvalidDate => false
                    end) sts.

Definition embeddedValid (es : list EmbeddedTheater) : bool :=
  forallb (fun e => showtimesValid (etShowtimes e)) es.

Definition refsValid (rs : list TheaterRef) : bool :=
  forallb (fun r => match r with
                    | RefEmbedded e => showtimesValid (etShowtimes e)
                    | RefId _ => true
                    end) rs.

(** What validation reports for a movie about to be written: an Invalid Date
    cannot be stored, and the schema has its own rules. *)
Definition movieError (m : Movie) : option Exn :=
  match releaseDate m with
  | Some InvalidDate => Some (castError "releaseDate")
  | _ =>
      if embeddedValid (embeddedTheaters m) && refsValid (theaters m)
      then option_map validationError (movieSchemaError env m)
      else Some (castError "startTime")
  end.

Definition withId (id : ObjectId) (m : Movie) : Movie :=
  mkMovie id (title m) (description m) (genre m) (rating m) (duration m)
          (posterUrl m) (trailerUrl m) (releaseDate m) (language m) (cast m)
          (theaters m) (embeddedTheaters m).

Definition setMovies (d : Db) (ms : list Movie) : Db :=
  mkDb ms (theaterDocs d) (bookings d) (users d).

Definition setTheaters (d : Db) (ts : list Theater) : Db :=
  mkDb (movies d) ts (bookings d) (users d).

(** [new Movie(fields)] followed by [save()]: the document gets its [_id],
    is validated and inserted. *)
Definition Movie_create_save (fields : Movie) : M Movie :=
  dbCall CMovieSave
    (fun d =>
       let m := withId (freshId (map movieId (movies d))) fields in
       match movieError m with
       | Some e => (Throw e, d)
       | None => (Ok m, setMovies d (movies d ++ [m]))
       end).

(** [Theater.find().limit(n)] *)
Definition Theater_find_limit (n : nat) : M (list Theater) :=
  dbCall CTheaterFind (fun d => (Ok (firstn n (theaterDocs d)), d)).

(** [Theater.findById(id)] *)
Definition Theater_findById (a : IdArg) : M (option Theater) :=
  dbCall (CTheaterFindById a)
    (fun d => (match a with
               | IdValue oid => Ok (findTheater oid (theaterDocs d))
               | IdText s =>
                   match castObjectId env s with
                   | Some oid => Ok (findTheater oid (theaterDocs d))
                   | None => Throw (castError s)
                   end
               end, d)).

(** [Theater.findOne({ name, location })] *)
Definition Theater_findOne (name location : string) : M (option Theater) :=
  dbCall (CTheaterFindOne name location)
    (fun d => (Ok (find (fun t => String.eqb (theaterName t) name
                                  && String.eqb (theaterLocation t) location)
                        (theaterDocs d)), d)).

(** [$addToSet]: append the value unless the array holds it. *)
Definition addToSet (x : string) (l : list string) : list string :=
  if existsb (String.eqb x) l then l else (l ++ [x])%list.

(** Change the first document that [test] selects. *)
Fixpoint updateFirst {A} (test : A -> bool) (f : A -> A) (l : list A)
  : list A :=
  match l with
  | [] => []
  | x :: l' => if test x then f x :: l' else x :: updateFirst test f l'
  end.

Definition pushShowtimes (push : list Showtime) (titleToAdd : string)
           (t : Theater) : Theater :=
  mkTheater (theaterId t) (theaterName t) (theaterLocation t)
            (showtimes t ++ push) (addToSet titleToAdd (movieTitles t))
            (theaterStatus t).

(** [Theater.updateOne({ _id: id },
      { $push: { showtimes: { $each: push } },
        $addToSet: { movieTitles: titleToAdd } })] *)
Definition Theater_updateOne (id : ObjectId) (push : list Showtime)
           (titleToAdd : string) : M unit :=
  dbCall (CTheaterUpdateOne id push titleToAdd)
    (fun d =>
       if showtimesValid push
       then (Ok tt,
             setTheaters d
               (updateFirst (fun t => N.eqb (theaterId t) id)
                            (pushShowtimes push titleToAdd) (theaterDocs d)))
       else (Throw (castError "startTime"), d)).

Definition resetTheater (location : string) (t : Theater) : Theater :=
  mkTheater (theaterId t) (theaterName t) location [] [] (Some "Active").

(** [Theater.findOneAndUpdate({ name },
      { $set: { location, showtimes: [], movieTitles: [], status: 'Active' } },
      { upsert: true, new: true })]: the first theater of that name is reset
    and returned; without one, a new document is inserted and returned. *)
Definition Theater_findOneAndUpdate_upsert (name location : string)
  : M Theater :=
  dbCall (CTheaterFindOneAndUpdate name)
    (fun d =>
       match find (fun t => String.eqb (theaterName t) name) (theaterDocs d) with
       | Some t =>
           (Ok (resetTheater location t),
            setTheaters d
              (updateFirst (fun t => String.eqb (theaterName t) name)
                           (resetTheater location) (theaterDocs d)))
       | None =>
           let t := mkTheater (freshId (map theaterId (theaterDocs d)))
                              name location [] [] (Some "Active") in
           (Ok t, setTheaters d (theaterDocs d ++ [t]))
       end).

Definition setEmbedded (theaterIds : option (list ObjectId))
           (embedded : list EmbeddedTheater) (m : Movie) : Movie :=
  mkMovie (movieId m) (title m) (description m) (genre m) (rating m)
          (duration m) (posterUrl m) (trailerUrl m) (releaseDate m)
          (language m) (cast m)
          (match theaterIds with
           | Some ids => map RefId ids
           | None => theaters m
           end)
          embedded.

(** [Movie.findByIdAndUpdate(id, { $set: { theaters, embeddedTheaters } })],
    [theaters] being part of the update only in the seed script. *)
Definition Movie_setEmbedded (id : ObjectId)
           (theaterIds : option (list ObjectId))
           (embedded : list EmbeddedTheater) : M unit :=
  dbCall (CMovieSetEmbedded id theaterIds embedded)
    (fun d =>
       if embeddedValid embedded
       then (Ok tt,
             setMovies d
               (updateFirst (fun m => N.eqb (movieId m) id)
                            (setEmbedded theaterIds embedded) (movies d)))
       else (Throw (castError "startTime"), d)).

Definition isSome {A} (o : option A) : bool :=
  match o with Some _ => true | None => false end.

(** [Object.keys(updates).length] *)
Definition updateKeys (u : MovieUpdate) : nat :=
  List.length
    (filter (fun b : bool => b)
       [isSome (uTitle u); isSome (uDescription u); isSome (uGenre u);
        isSome (uRating u); isSome (uDuration u); isSome (uPosterUrl u);
        isSome (uTrailerUrl u); isSome (uReleaseDate u); isSome (uLanguage u);
        isSome (uCast u); isSome (uTheaters u);
        isSome (uEmbeddedTheaters u)]).

Definition orElse {A} (o : option A) (d : A) : A :=
  match o with Some x => x | None => d end.

Definition orKeep {A} (o : option A) (d : option A) : option A :=
  match o with Some x => Some x | None => d end.

Definition applyUpdate (u : MovieUpdate) (m : Movie) : Movie :=
  mkMovie (movieId m)
          (orElse (uTitle u) (title m))
          (orKeep (uDescription u) (description m))
          (orElse (uGenre u) (genre m))
          (orKeep (uRating u) (rating m))
          (orKeep (uDuration u) (duration m))
          (orElse (uPosterUrl u) (posterUrl m))
          (orKeep (uTrailerUrl u) (trailerUrl m))
          (orKeep (uReleaseDate u) (releaseDate m))
          (orElse (uLanguage u) (language m))
          (orElse (uCast u) (cast m))
          (orElse (uTheaters u) (theaters m))
          (orElse (uEmbeddedTheaters u) (embeddedTheaters m)).

(** What casting and validating an update reports.  Mongoose does both
    before it sends the query: a date that is none cannot be cast, and with
    [runValidators] the schema's rules are applied to the paths of the
    update. *)
Definition updateError (u : MovieUpdate) : option Exn :=
  match uReleaseDate u with
  | Some InvalidDate => Some (castError "releaseDate")
  | _ =>
      if embeddedValid (orElse (uEmbeddedTheaters u) [])
         && refsValid (orElse (uTheaters u) [])
      then option_map validationError (updateSchemaError env u)
      else Some (castError "startTime")
  end.

(** [Movie.findByIdAndUpdate(id, updates, { new: true, runValidators: true })]:
    the id and the update are cast and the update is validated; then the
    updated document is returned, or [null] when no movie has that id. *)
Definition Movie_findByIdAndUpdate (id : string) (u : MovieUpdate)
  : M (option Movie) :=
  dbCall (CMovieFindByIdAndUpdate id)
    (fun d =>
       match castObjectId env id with
       | None => (Throw (castError id), d)
       | Some oid =>
           match updateError u with
           | Some e => (Throw e, d)
           | None =>
               match findMovie oid (movies d) with
               | None => (Ok None, d)
               | Some m =>
                   (Ok (Some (applyUpdate u m)),
                    setMovies d
                      (updateFirst (fun x => N.eqb (movieId x) oid)
                                   (applyUpdate u) (movies d)))
               end
           end
       end).

(** Remove the first document that [test] selects. *)
Fixpoint removeFirst {A} (test : A -> bool) (l : list A) : list A :=
  match l with
  | [] => []
  | x :: l' => if test x then l' else x :: removeFirst test l'
  end.

(** [Movie.findByIdAndDelete(id)]: the deleted document, or [null]. *)
Definition Movie_findByIdAndDelete (id : string) : M (option Movie) :=
  dbCall (CMovieFindByIdAndDelete id)
    (fun d =>
       match castObjectId env id with
       | None => (Throw (castError id), d)
       | Some oid =>
           (Ok (findMovie oid (movies d)),
            setMovies d (removeFirst (fun x => N.eqb (movieId x) oid)
                                     (movies d)))
       end).

(** Give the documents of a batch their [_id]s, one after the other. *)
Fixpoint assignIds (existing : list ObjectId) (docs : list Movie)
  : list Movie :=
  match docs with
  | [] => []
  | m :: docs' =>
      let id := freshId existing in
      withId id m :: assignIds (id :: existing) docs'
  end.

(** [Movie.insertMany(docs, { ordered: false })]: the documents that pass
    validation are inserted and returned. *)
Definition Movie_insertMany (docs : list Movie) : M (list Movie) :=
  dbCall (CMovieInsertMany (List.length docs))
    (fun d =>
       let valid :=
         filter (fun m => negb (isSome (movieError m)))
                (assignIds (map movieId (movies d)) docs) in
       (Ok valid, setMovies d (movies d ++ valid))).

(** [Movie.find(filter).sort({ releaseDate: -1 })] *)
Definition Movie_find_sorted (filters : list Filter) : M (list Movie) :=
  dbCall (CMovieFind filters)
    (fun d => (match selectMovies filters (movies d) with
               | Ok l => Ok (sortDesc SortReleaseDate l)
               | Throw e => Throw e
               end, d)).

(** [Movie.countDocuments()] *)
Definition Movie_count : M nat :=
  dbCall (CMovieCountDocuments []) (fun d => (Ok (List.length (movies d)), d)).

(** A [find] cursor's [skip] wants a non-negative integer; its [limit] an
    integer, zero meaning no limit and a negative one its absolute value. *)
Definition page {A} (skip limit : num) (docs : list A) : Result (list A) :=
  match toInteger skip, toInteger limit with
  | Some s, Some l =>
      if (0 <=? s) && (s <=? maxInt64) && (Z.abs l <=? maxInt64)
      then Ok (if l =? 0 then skipn (Z.to_nat s) docs
               else firstn (Z.abs_nat l) (skipn (Z.to_nat s) docs))
      else Throw (mongoError "invalid skip or limit")
  | _, _ => Throw (mongoError "invalid skip or limit")
  end.

Definition bookingMatches (userId movieId : option string) (b : Booking)
  : bool :=
  (match userId with
   | Some u => if truthy userId then String.eqb (bookingUser b) u else true
   | None => true
   end)
  && (match movieId with
      | Some m => if truthy movieId then String.eqb (bookingMovie b) m else true
      | None => true
      end).

(** [Booking.find(query).populate(..).populate(..).skip(s).limit(l)]
    (the populated references are not expanded in the model). *)
Definition Booking_find (userId movieId : option string) (skip limit : num)
  : M (list Booking) :=
  dbCall CBookingFind
    (fun d => (page skip limit
                 (filter (bookingMatches userId movieId) (bookings d)), d)).

(** [Booking.countDocuments(query)] *)
Definition Booking_count (userId movieId : option string) : M nat :=
  dbCall CBookingCountDocuments
    (fun d => (Ok (List.length
                     (filter (bookingMatches userId movieId) (bookings d))),
               d)).

(** [User.find().select('-password').skip(s).limit(l)] *)
Definition User_find (skip limit : num) : M (list User) :=
  dbCall CUserFind (fun d => (page skip limit (users d), d)).

(** [User.countDocuments()] *)
Definition User_count : M nat :=
  dbCall CUserCountDocuments (fun d => (Ok (List.length (users d)), d)).

End WithEnv.

End Mongoose.

(* ===================================================================== *)
(** ** HTTP responses                                                     *)
(* ===================================================================== *)

Module Http.
Import JsNum Model.

(** A showtime and an embedded theater as [getMovieById] sends them, the
    start time as ISO text. *)
Record ShowtimeView : Type := mkShowtimeView {
  svStartTime : string;
  svScreen : string;
  svAvailableSeats : Z;
  svBlockedSeats : list string;
  svMovie : option ObjectId
}.

Record TheaterView : Type := mkTheaterView {
  tvName : string;
  tvLocation : string;
  tvShowtimes : list ShowtimeView
}.

(** The JSON bodies the handlers send. *)
Inductive Body : Type :=
| BError (error : string) (details : option string)
| BMovieList (count : nat) (total : nat) (page : num) (totalPages : num)
             (movieList : list Movie)
| BMovieDetail (m : Movie) (releaseDateIso : option string)
               (theaterViews : list TheaterView)
| BGenres (genres : list string)
| BMovie (m : Movie)
| BMessageMovie (message : string) (m : Movie)
| BMessageMovies (message : string) (ms : list Movie)
| BCountMovies (count : nat) (ms : list Movie)
| BBookings (count : nat) (total : nat) (page : num) (bs : list Booking)
| BUsers (count : nat) (total : nat) (page : num) (us : list User)
| BStats (nUsers nBookings nMovies : nat)
| BMessage (message : string)
| BTmdbResults (results : list TmdbMovie)
| BTmdbDetails (detailTitle : string) (detailLanguage : string)
               (detailCast : list CastMember).

Record Response : Type := mkResponse { status : Z; body : Body }.

(** [res.status(code).json({ error: msg })] *)
Definition jsonError (code : Z) (msg : string) : Response :=
  mkResponse code (BError msg None).

Definition isErrorBody (b : Body) : bool :=
  match b with BError _ _ => true | _ => false end.

End Http.

(* ===================================================================== *)
(** ** [movieController.js]: the public movie handlers                    *)
(* ===================================================================== *)

Module Public.
Import JsNum JsStr Model Env Mongoose Http.
Local Open Scope m_scope.

(** [req.query] of [GET /api/movies], each parameter given at most once, so
    that its value is a string; [None] is an absent parameter. *)
Record MoviesQuery : Type := mkQuery {
  qIsUpcoming : option string;
  qGenre : option string;
  qMinRating : option string;
  qLanguage : option string;
  qReleasedAfter : option string;
  qSortBy : option string;
  qTitle : option string;
  qPage : option string;
  qLimit : option string;
  qLocation : option string
}.

Definition strIs (s : option string) (v : string) : bool :=
  match s with
  | Some x => String.eqb x v
  | None => false
  end.

Definition isValidDate (d : JsDate) : bool :=
  match d with ValidDate _ => true | InvalidDate => false end.

Definition dateMs (d : JsDate) : Z :=
  match d with ValidDate ms => ms | InvalidDate => 0 end.

Section WithEnv.
Variable env : JsEnv.

(** [Number(x)] of a query parameter with a numeric default. *)
Definition numberOr (default : Z) (s : option string) : num :=
  match s with
  | Some x => toNumber env x
  | None => ofZ default
  end.

(** The two filters on [isUpcoming]; [today] is local midnight. *)
Definition upcomingFilters (isUpcoming : option string) (today : Z)
  : list Filter :=
  (if strIs isUpcoming "true" then [ReleaseDateGt today] else [])
  ++ (if strIs isUpcoming "false" then [ReleaseDateLte today] else []).

(** [if (releasedAfter && !isNaN(Date.parse(releasedAfter)))] *)
Definition releasedAfterFilters (releasedAfter : option string) : list Filter :=
  match releasedAfter with
  | Some s =>
      if truthy releasedAfter && isValidDate (dateOfString env s)
      then [ReleaseDateGte (dateMs (dateOfString env s))]
      else []
  | None => []
  end.

(** [if (x?.trim()) filters.push({ field: { $regex: x.trim(), ... } })] *)
Definition regexFilters (mk : string -> Filter) (x : option string)
  : list Filter :=
  match x with
  | Some s => if truthy (Some (trim s)) then [mk (trim s)] else []
  | None => []
  end.

(** [if (minRating && !isNaN(minRating))] *)
Definition ratingFilters (minRating : option string) : list Filter :=
  match minRating with
  | Some s =>
      if truthy minRating && negb (isNaN (toNumber env s))
      then [RatingGte (parseFloat env s)]
      else []
  | None => []
  end.

(** The [filters] array, in the order of the [push] calls. *)
Definition buildFilters (q : MoviesQuery) (today : Z) : list Filter :=
  upcomingFilters (qIsUpcoming q) today
  ++ releasedAfterFilters (qReleasedAfter q)
  ++ regexFilters EmbeddedLocationRegex (qLocation q)
  ++ regexFilters GenreRegex (qGenre q)
  ++ ratingFilters (qMinRating q)
  ++ regexFilters LanguageRegex (qLanguage q).

(** [sortOptions]: at most one key, since [sortBy] is one string. *)
Definition sortOptions (q : MoviesQuery) : list SortKey :=
  (if strIs (qSortBy q) "rating" then [SortRating] else [])
  ++ (if strIs (qSortBy q) "releaseDate" then [SortReleaseDate] else []).

(** [Math.min(Number(limit), 100)], [limit] defaulting to 20. *)
Definition safeLimit (q : MoviesQuery) : num :=
  Math_min (numberOr 20 (qLimit q)) (ofZ 100).

(** [Math.max(Number(page), 1)], [page] defaulting to 1. *)
Definition safePage (q : MoviesQuery) : num :=
  Math_max (numberOr 1 (qPage q)) (ofZ 1).

(** [title?.trim()] is truthy. *)
Definition hasTitle (q : MoviesQuery) : bool := truthy (optTrim (qTitle q)).

Definition titleQuery (q : MoviesQuery) : string :=
  match qTitle q with Some s => trim s | None => "" end.

(** [(safePage - 1) * safeLimit] *)
Definition skipCount (q : MoviesQuery) : num :=
  mul (sub (safePage q) (ofZ 1)) (safeLimit q).

(** The stages pushed before the pagination: [$search], [$match], [$sort],
    each only when it applies. *)
Definition selectionStages (q : MoviesQuery) (filters : list Filter)
  : list Stage :=
  (if hasTitle q then [Search (titleQuery q)] else [])
  ++ (match filters with [] => [] | _ => [Match filters] end)
  ++ map Sort (sortOptions q).

Definition buildPipeline (q : MoviesQuery) (filters : list Filter)
  : list Stage :=
  selectionStages q filters ++ [Skip (skipCount q); Limit (safeLimit q)].

(** [GET /api/movies] *)
Definition getMovies (q : MoviesQuery) : M Response :=
  tryCatch
    (t <- newDateNow ;;
     let today := startOfLocalDay env t in
     let filters := buildFilters q today in
     ms <- Movie_aggregate env (buildPipeline q filters) ;;
     total <- (if hasTitle q then ret (List.length ms)
               else Movie_countDocuments env filters) ;;
     ret (mkResponse 200
            (BMovieList (List.length ms) total (safePage q)
               (Math_ceil (div (ofNat total) (safeLimit q))) ms)))
    (fun err => ret (jsonError 500 "Server error while fetching movies")).

(** [new Date(x).toISOString()], which throws a RangeError on an Invalid
    Date. *)
Definition isoOf (d : JsDate) : M string :=
  match d with
  | ValidDate ms => ret (toISOString env ms)
  | InvalidDate => throw (mkExn "RangeError" "Invalid time value")
  end.

Definition viewShowtime (s : Showtime) : M ShowtimeView :=
  iso <- isoOf (startTime s) ;;
  ret (mkShowtimeView iso (screen s) (availableSeats s) (blockedSeats s)
                      (showMovie s)).

Definition viewTheater (e : EmbeddedTheater) : M TheaterView :=
  sts <- mapM viewShowtime (etShowtimes e) ;;
  ret (mkTheaterView (etName e) (etLocation e) sts).

(** [GET /api/movies/:id] *)
Definition getMovieById (id : string) : M Response :=
  if negb (objectIdIsValid env id)
  then ret (jsonError 400 "Invalid movie ID")
  else
    tryCatch
      (found <- Movie_findById env id ;;
       match found with
       | None => ret (jsonError 404 "Movie not found")
       | Some movie =>
           views <- mapM viewTheater (embeddedTheaters movie) ;;
           iso <- match releaseDate movie with
                  | Some d => (s <- isoOf d ;; ret (Some s))
                  | None => ret None
                  end ;;
           ret (mkResponse 200 (BMovieDetail movie iso views))
       end)
      (fun err => ret (jsonError 500 "Server error while fetching movie")).

(** [GET /api/movies/genres] *)
Definition getAllGenres : M Response :=
  tryCatch
    (gs <- Movie_distinct_genre ;;
     ret (mkResponse 200
            (BGenres (filter (fun g => truthy (Some (trim g))) gs))))
    (fun err => ret (jsonError 500 "Server error while fetching genres")).

(** [POST /api/movies]: [req.body] is taken as the fields of the movie. *)
Definition createMovie (reqBody : Movie) : M Response :=
  tryCatch
    (saved <- Movie_create_save env reqBody ;;
     ret (mkResponse 201 (BMovie saved)))
    (fun err =>
       ret (mkResponse 400
              (BError "Failed to create movie" (Some (exnMessage err))))).

End WithEnv.

End Public.

(* ===================================================================== *)
(** ** The admin controller                                               *)
(* ===================================================================== *)

Module Admin.
Import JsNum JsStr Model Env Mongoose Http.
Local Open Scope m_scope.

(** An element of [req.body.theaters]: an id as text, or an object whose
    [_id] is read. *)
Inductive TheaterArg : Type :=
| ArgString (id : string)
| ArgObject (_id : string).

(** [req.body] of the admin [POST]. *)
Record CreateBody : Type := mkCreateBody {
  cbTitle : option string;
  cbDescription : option string;
  cbGenre : option string;
  cbRating : option Q;
  cbDuration : option string;
  cbPosterUrl : option string;
  cbTrailerUrl : option string;
  cbReleaseDate : option string;
  cbLanguage : option string;
  cbCast : list CastMember;
  cbTheaters : list TheaterArg
}.

(** The showtime hours both this handler and the seed script use. *)
Definition times : list string := ["10:00"; "13:30"; "17:00"; "21:30"].

(** [Object.entries(required).filter(([_, v]) => !v).map(([k]) => k)] *)
Definition missingFields (b : CreateBody) : list string :=
  map fst
    (filter (fun kv : string * option string => negb (truthy (snd kv)))
       [("title", cbTitle b); ("genre", cbGenre b);
        ("posterUrl", cbPosterUrl b); ("releaseDate", cbReleaseDate b);
        ("language", cbLanguage b)]).

(** [missing.join(', ')] *)
Definition joinComma (l : list string) : string := String.concat ", " l.

Definition text (s : option string) : string :=
  match s with Some x => x | None => "" end.

Section WithEnv.
Variable env : JsEnv.
Context {E : Js.SortEngine}.

(** [generateBlockedSeats], the same code as in the seed script. *)
Definition generateBlockedSeats : Js.Rand (list string) :=
  fun g =>
    let '(r, g1) := Js.Math_random g in
    let total := Qfloor (r * 10) in
    let '(shuffled, g2) :=
      Js.arraySort
        (fun _ _ : string =>
           fun h => let '(x, h') := Js.Math_random h in ((1 # 2) - x, h')%Q)
        Seats.allSeats g1 in
    (firstn (Z.to_nat total) shuffled, g2).

(** [new Date(base.getTime() + ms)] *)
Definition datePlus (base : JsDate) (ms : Z) : JsDate :=
  match base with
  | ValidDate t => ValidDate (t + ms)
  | InvalidDate => InvalidDate
  end.

(** [generateDefaultShowtimes(releaseDate)] *)
Definition generateDefaultShowtimes (releaseDate : string)
  : M (list Showtime) :=
  let base := dateOfString env releaseDate in
  b1 <- liftRand generateBlockedSeats ;;
  b2 <- liftRand generateBlockedSeats ;;
  ret [mkShowtime base "Screen 1" 100 b1 None;
       mkShowtime (datePlus base (3 * 60 * 60 * 1000)) "Screen 2" 100 b2 None].

Definition theaterArgId (t : TheaterArg) : IdArg :=
  match t with
  | ArgString id => IdText id
  | ArgObject id => IdText id
  end.

(** One callback of the [theaterIds.map(async ...)]. *)
Definition formatTheater (releaseDate : string) (a : IdArg)
  : M (option EmbeddedTheater) :=
  doc <- Theater_findById env a ;;
  match doc with
  | None => ret None
  | Some theaterDoc =>
      sts <- generateDefaultShowtimes releaseDate ;;
      ret (Some (mkEmbedded (theaterName theaterDoc)
                            (theaterLocation theaterDoc) sts))
  end.

(** [arr.filter(Boolean)] on an array of objects and nulls. *)
Fixpoint filterBoolean {A} (l : list (option A)) : list A :=
  match l with
  | [] => []
  | Some x :: l' => x :: filterBoolean l'
  | None :: l' => filterBoolean l'
  end.

(** The four showtimes of the day [dateStr] for [movie]. *)
Definition linkedShowtimes (dateStr : string) (movie : ObjectId)
  : list Showtime :=
  map (fun time =>
         mkShowtime (dateOfString env (dateStr ++ "T" ++ time ++ ":00"))
                    "Screen 1" 100 [] (Some movie))
      times.

(** The body of [for (const theater of validTheaters)]; [embedded] is
    threaded through the iterations. *)
Fixpoint linkTheaters (dateStr : string) (movie : Movie)
         (validTheaters : list EmbeddedTheater)
         (embedded : list EmbeddedTheater) : M (list EmbeddedTheater) :=
  match validTheaters with
  | [] => ret embedded
  | theater :: rest =>
      doc <- Theater_findOne (etName theater) (etLocation theater) ;;
      match doc with
      | None => linkTheaters dateStr movie rest embedded
      | Some theaterDoc =>
          let sts := linkedShowtimes dateStr (movieId movie) in
          Theater_updateOne (theaterId theaterDoc) sts (title movie) ;;;
          linkTheaters dateStr movie rest
            (embedded ++ [mkEmbedded (etName theater) (etLocation theater) sts])
      end
  end.

(** [POST /api/admin/movies] *)
Definition createMovie (b : CreateBody) : M Response :=
  tryCatch
    (match missingFields b with
     | _ :: _ =>
         ret (jsonError 400 ("Missing fields: " ++ joinComma (missingFields b)))
     | [] =>
         let releaseDate := text (cbReleaseDate b) in
         theaterIds <-
           (match cbTheaters b with
            | [] =>
                defaults <- Theater_find_limit 4 ;;
                ret (map (fun t => IdValue (theaterId t)) defaults)
            | ts => ret (map theaterArgId ts)
            end) ;;
         formatted <- mapM (formatTheater releaseDate) theaterIds ;;
         let validTheaters := filterBoolean formatted in
         movie <- Movie_create_save env
                    (mkMovie 0%N (text (cbTitle b)) (cbDescription b)
                             (text (cbGenre b)) (cbRating b) (cbDuration b)
                             (text (cbPosterUrl b)) (cbTrailerUrl b)
                             (Some (dateOfString env releaseDate))
                             (text (cbLanguage b)) (cbCast b)
                             (map RefEmbedded validTheaters) []) ;;
         today <- newDateNow ;;
         let dateStr := beforeChar "T" (toISOString env today) in
         embedded <- linkTheaters dateStr movie validTheaters [] ;;
         Movie_setEmbedded (movieId movie) None embedded ;;;
         ret (mkResponse 201
                (BMessageMovie "✅ Movie created and linked to theaters" movie))
     end)
    (fun err =>
       ret (jsonError 500
              (if truthy (Some (exnMessage err)) then exnMessage err
               else "Server error while creating movie"))).

(** [PUT /api/admin/movies/:movieId]; [updates] is [None] for a request
    without a body. *)
Definition updateMovie (movieId : string) (updates : option MovieUpdate)
  : M Response :=
  tryCatch
    (match updates with
     | None => ret (jsonError 400 "No update data provided")
     | Some u =>
         if (updateKeys u =? 0)%nat
         then ret (jsonError 400 "No update data provided")
         else
           updated <- Movie_findByIdAndUpdate env movieId u ;;
           match updated with
           | None => ret (jsonError 404 "Movie not found")
           | Some m => ret (mkResponse 200 (BMessageMovie "✅ Movie updated" m))
           end
     end)
    (fun err => ret (jsonError 500 "Server error while updating movie")).

(** [DELETE /api/admin/movies/:movieId] *)
Definition deleteMovie (movieId : option string) : M Response :=
  tryCatch
    (match movieId with
     | Some id =>
         if truthy movieId then
           deleted <- Movie_findByIdAndDelete env id ;;
           match deleted with
           | None => ret (jsonError 404 "Movie not found")
           | Some m => ret (mkResponse 200 (BMessageMovie "✅ Movie deleted" m))
           end
         else ret (jsonError 400 "Missing movie ID")
     | None => ret (jsonError 400 "Missing movie ID")
     end)
    (fun err => ret (jsonError 500 "Server error while deleting movie")).

(** Bulk creation; [movies] is [None] when [req.body.movies] is not an
    array. *)
Definition bulkCreateMovies (movies : option (list Movie)) : M Response :=
  tryCatch
    (match movies with
     | None | Some [] => ret (jsonError 400 "No movies provided")
     | Some ms =>
         created <- Movie_insertMany env ms ;;
         ret (mkResponse 201 (BMessageMovies "✅ Bulk movies created" created))
     end)
    (fun err => ret (jsonError 500 "Server error during bulk movie creation")).

(** [req.user.role !== 'admin']; reading [role] of an absent user throws. *)
Definition notAdmin (user : option User) : M bool :=
  match user with
  | Some u => ret (negb (String.eqb (userRole u) "admin"))
  | None =>
      throw (mkExn "TypeError"
                   "Cannot read properties of undefined (reading 'role')")
  end.

(** [(page - 1) * limit] on query parameters with numeric defaults. *)
Definition pageSkip (defaultLimit : Z) (page limit : option string) : num :=
  mul (sub (Public.numberOr env 1 page) (ofZ 1))
      (Public.numberOr env defaultLimit limit).

(** Bookings listing. *)
Definition getAllBookings (user : option User)
           (userId movieId page limit : option string) : M Response :=
  tryCatch
    (denied <- notAdmin user ;;
     if denied then ret (jsonError 403 "Access denied. Admins only.")
     else
       bs <- Booking_find userId movieId (pageSkip 20 page limit)
                          (Public.numberOr env 20 limit) ;;
       total <- Booking_count userId movieId ;;
       ret (mkResponse 200
              (BBookings (List.length bs) total
                         (Public.numberOr env 1 page) bs)))
    (fun err => ret (jsonError 500 "Server error while fetching bookings")).

(** Users listing. *)
Definition getAllUsers (user : option User) (page limit : option string)
  : M Response :=
  tryCatch
    (denied <- notAdmin user ;;
     if denied then ret (jsonError 403 "Access denied. Admins only.")
     else
       us <- User_find (pageSkip 50 page limit)
                       (Public.numberOr env 50 limit) ;;
       total <- User_count ;;
       ret (mkResponse 200
              (BUsers (List.length us) total (Public.numberOr env 1 page) us)))
    (fun err => ret (jsonError 500 "Server error while fetching users")).

(** Admin statistics: three counts. *)
Definition getAdminStats (user : option User) : M Response :=
  tryCatch
    (denied <- notAdmin user ;;
     if denied then ret (jsonError 403 "Access denied. Admins only.")
     else
       nu <- User_count ;;
       nb <- Booking_count None None ;;
       nm <- Movie_count ;;
       ret (mkResponse 200 (BStats nu nb nm)))
    (fun err => ret (jsonError 500 "Server error while fetching stats")).

(** The admin's single-movie read: the id goes to the driver unchecked. *)
Definition getMovieById (id : string) : M Response :=
  tryCatch
    (found <- Movie_findById env id ;;
     match found with
     | None => ret (jsonError 404 "Movie not found")
     | Some m => ret (mkResponse 200 (BMovie m))
     end)
    (fun err => ret (jsonError 500 "Server error while fetching movie")).

(** The filter of the admin's movie listing: the cutoff is [new Date()], the
    instant of the request. *)
Definition allMoviesFilter (isUpcoming : option string) : M (list Filter) :=
  if Public.strIs isUpcoming "true"
  then (t <- newDateNow ;; ret [ReleaseDateGt t])
  else if Public.strIs isUpcoming "false"
       then (t <- newDateNow ;; ret [ReleaseDateLte t])
       else ret [].

(** The admin's movie listing. *)
Definition getAllMovies (isUpcoming : option string) : M Response :=
  tryCatch
    (filters <- allMoviesFilter isUpcoming ;;
     ms <- Movie_find_sorted env filters ;;
     ret (mkResponse 200 (BCountMovies (List.length ms) ms)))
    (fun err => ret (jsonError 500 "Server error while fetching movies")).

(** [pingAdmin] has no [try]: an exception leaves the handler. *)
Definition pingAdmin (user : option User) : M Response :=
  denied <- notAdmin user ;;
  if denied then ret (jsonError 403 "Access denied")
  else ret (mkResponse 200 (BMessage "Admin access verified")).

End WithEnv.

End Admin.

(* ===================================================================== *)
(** ** [tmdbController.js]                                                *)
(* ===================================================================== *)

Module Tmdb.
Import JsStr Model Http.

Definition supportedLanguages : list string :=
  ["en"; "hi"; "ta"; "te"; "ml"; "mr"; "kn"; "bn"; "gu"; "pa"; "ur"].

(** What [await axios.get(...)] gives the handler, after the retries that
    [axios-retry] makes on its own: a response, or a rejection. *)
Inductive AxiosOutcome (D : Type) : Type :=
| Response (status : Z) (data : D)
| Failure (message : string).
Arguments Response {D} status data.
Arguments Failure {D} message.

(** [tmdbRes.status === 200 && tmdbRes.data.results?.length > 0]; reading
    [results] of an absent body throws, which the inner [catch] swallows. *)
Definition yields (o : AxiosOutcome SearchData) : option (list TmdbMovie) :=
  match o with
  | Response st (Results (r :: l)) => if st =? 200 then Some (r :: l) else None
  | _ => None
  end.

(** [req.query.query] as Express's query parser gives it, when the key
    occurs: a string; an array for a repeated key ([?query=a&query=b]); an
    object for a key with brackets ([?query[k]=v]). *)
Inductive QueryValue : Type :=
| QText (s : string)
| QArray (items : list string)
| QObject (fields : list (string * string)).

Section Search.
(** [search query lang]: the outcome of the search request for [lang]. *)
Variable search : string -> string -> AxiosOutcome SearchData.

(** The [for (const lang of supportedLanguages)] loop: the languages
    requested, and [results] when the loop ends ([[]] if never assigned). *)
Fixpoint searchLoop (query : string) (langs : list string)
  : list string * list TmdbMovie :=
  match langs with
  | [] => ([], [])
  | lang :: rest =>
      match yields (search query lang) with
      | Some results => ([lang], results)
      | None =>
          let '(asked, results) := searchLoop query rest in
          (lang :: asked, results)
      end
  end.

(** [rawQuery?.split(':')[0].trim()]: [undefined] for an absent parameter,
    a TypeError for an array or an object, which have no [split]. *)
Definition cleanQuery (rawQuery : option QueryValue) : Result (option string) :=
  match rawQuery with
  | None => Ok None
  | Some (QText s) => Ok (Some (trim (beforeChar ":" s)))
  | Some _ => Throw (mkExn "TypeError" "rawQuery?.split is not a function")
  end.

(** The search handler.  [apiKey] is [process.env.TMDB_API_KEY].  The result
    pairs the languages requested with the response.  The requests and the
    test of their answers are inside the loop's own [try]; what the outer
    [catch] can catch is the exception of [split]. *)
Definition searchTmdbMovie (rawQuery : option QueryValue)
           (apiKey : option string) : list string * Http.Response :=
  match cleanQuery rawQuery with
  | Ok query =>
      if negb (truthy query)
      then ([], jsonError 400 "Missing query parameter")
      else if negb (truthy apiKey)
           then ([], jsonError 500 "TMDB API key not configured")
           else
             let '(asked, results) :=
               searchLoop (match query with Some q => q | None => "" end)
                          supportedLanguages in
             match results with
             | [] => (asked, jsonError 404 "Movie not found in TMDB")
             | _ => (asked, mkResponse 200 (BTmdbResults results))
             end
  | Throw err => ([], jsonError 500 "Failed to fetch from TMDB")
  end.

End Search.

(** The data of the three detail requests, as far as the handler's control
    flow and the listed fields need them. *)
Record Details : Type := mkDetails {
  dTitle : option string;
  dOriginalLanguage : string
}.

Section DetailsHandler.
Variable getDetails : string -> AxiosOutcome (option Details).
Variable getCredits : string -> AxiosOutcome (list CastMember).
Variable getVideos : string -> AxiosOutcome unit.

(** The details handler: any rejected request ends in the [catch]. *)
Definition getTmdbMovieDetails (id : string) (apiKey : option string)
  : Http.Response :=
  if negb (truthy apiKey)
  then jsonError 500 "TMDB API key not configured"
  else
    match getDetails id, getCredits id, getVideos id with
    | Response st d, Response _ credits, Response _ _ =>
        match d with
        | Some details =>
            if st =? 200
            then mkResponse 200
                   (BTmdbDetails
                      (match dTitle details with Some t => t | None => "" end)
                      (if existsb (String.eqb (dOriginalLanguage details))
                                  supportedLanguages
                       then dOriginalLanguage details else "en")
                      (firstn 10 credits))
            else jsonError 404 "Movie not found in TMDB"
        | None => jsonError 404 "Movie not found in TMDB"
        end
    | _, _, _ => jsonError 500 "Failed to fetch movie details"
    end.

End DetailsHandler.

End Tmdb.

(* ===================================================================== *)
(** ** [seedMovies.js]: the search with fallback and the linking loop     *)
(* ===================================================================== *)

Module Seed.
Import JsStr Model Env Mongoose.
Local Open Scope m_scope.

Definition supportedTmdbLanguages : list string :=
  ["en-US"; "hi-IN"; "mr-IN"; "ta-IN"; "te-IN"; "ml-IN"; "kn-IN"; "bn-IN";
   "gu-IN"; "pa-IN"; "ur-PK"].

Definition backendSupportedLanguages : list string :=
  ["en"; "hi"; "ta"; "te"; "ml"; "kn"; "bn"; "mr"; "gu"; "pa"; "ur"].

(** [generateBlockedSeats] of the script. *)
Definition generateBlockedSeats {E : Js.SortEngine} : Js.Rand (list string) :=
  Seats.generateBlockedSeats.

(** [data?.results?.[0]] of what [fetchWithRetry] returned. *)
Definition firstResult (f : Retry.Fetched SearchData) : option TmdbMovie :=
  match f with
  | Retry.FData (Results (r :: _)) => Some r
  | _ => None
  end.

Section SearchInLanguages.
Variable axios_get : string -> nat -> Retry.AxiosResult SearchData.
Variable TMDB_API_KEY : string.
Variable encodeURIComponent : string -> string.

Definition searchUrl (title lang : string) : string :=
  "https://api.themoviedb.org/3/search/movie?api_key=" ++ TMDB_API_KEY
  ++ "&query=" ++ encodeURIComponent title ++ "&language=" ++ lang.

(** The loop of [searchMovieInLanguages] over the languages still to try:
    the trace of the requests, and [{ result, language }] or [null]. *)
Fixpoint searchFrom (title : string) (langs : list string)
  : list Retry.Event * option (TmdbMovie * string) :=
  match langs with
  | [] => ([], None)
  | lang :: rest =>
      let '(tr, data) :=
        Retry.fetchWithRetry_default axios_get (searchUrl title lang) in
      match firstResult data with
      | Some result =>
          let languageCode := beforeChar "-" lang in
          if includes backendSupportedLanguages languageCode
          then (tr, Some (result, languageCode))
          else let '(tr', r) := searchFrom title rest in ((tr ++ tr')%list, r)
      | None =>
          let '(tr', r) := searchFrom title rest in ((tr ++ tr')%list, r)
      end
  end.

Definition searchMovieInLanguages (title : string)
  : list Retry.Event * option (TmdbMovie * string) :=
  searchFrom title supportedTmdbLanguages.

(** What the search of one language gives the script: the first result of
    the data that [fetchWithRetry] returned, if there is one. *)
Definition found (title lang : string) : option TmdbMovie :=
  firstResult (snd (Retry.fetchWithRetry_default axios_get
                      (searchUrl title lang))).


End SearchInLanguages.


Definition theaterList : list (string * string) :=
  [("PVR Phoenix Kurla", "Mumbai");
   ("INOX R City", "Ghatkopar, Mumbai");
   ("NY Cinemas Mulund", "Mulund, Mumbai");
   ("R Mall Mulund", "Mulund, Mumbai");
   ("Cinépolis - Korum Mall", "Thane");
   ("INOX - Viviana Mall", "Thane");
   ("PVR - Lake City Mall", "Thane");
   ("INOX - Raghuleela Mall", "Navi Mumbai");
   ("Cinépolis - Nexus Seawoods Mall", "Navi Mumbai");
   ("Miraj Cinemas - Panvel", "Navi Mumbai");
   ("PVR - Orion Mall", "Navi Mumbai")].

Definition times : list string := ["10:00"; "13:30"; "17:00"; "21:30"].

Section Linking.
Variable env : JsEnv.
Context {E : Js.SortEngine}.

(** [ensureTheater(name, location)] *)
Definition ensureTheater (name location : string) : M Theater :=
  Theater_findOneAndUpdate_upsert name location.

(** [times.map(time => ({ startTime: new Date(`${dateStr}T${time}:00`),
      screen: 'Screen 1', availableSeats: 100,
      blockedSeats: generateBlockedSeats(), movie: movie._id }))] *)
Definition makeShowtimes (dateStr : string) (movie : ObjectId)
  : M (list Showtime) :=
  mapM (fun time =>
          blocked <- liftRand generateBlockedSeats ;;
          ret (mkShowtime (dateOfString env (dateStr ++ "T" ++ time ++ ":00"))
                          "Screen 1" 100 blocked (Some movie)))
       times.

(** One iteration of [for (const { name, location } of theaterList)]: the
    id pushed to [updatedTheaters] and the entry pushed to [embedded]. *)
Definition linkTheater (dateStr : string) (movie : Movie)
           (nl : string * string) : M (ObjectId * EmbeddedTheater) :=
  let '(name, location) := nl in
  theater <- ensureTheater name location ;;
  sts <- makeShowtimes dateStr (movieId movie) ;;
  Theater_updateOne (theaterId theater) sts (title movie) ;;;
  ret (theaterId theater,
       mkEmbedded (theaterName theater) (theaterLocation theater) sts).

(** One iteration of [for (const movie of insertedMovies)]. *)
Definition linkMovie (dateStr : string) (movie : Movie) : M unit :=
  linked <- mapM (linkTheater dateStr movie) theaterList ;;
  Movie_setEmbedded (movieId movie) (Some (map fst linked)) (map snd linked).

(** The script from [const times = ...] to the end of the outer loop. *)
Definition linkMovies (insertedMovies : list Movie) : M unit :=
  today <- newDateNow ;;
  let dateStr := beforeChar "T" (toISOString env today) in
  forEach insertedMovies (linkMovie dateStr).

(** [s] is the showtime of [movie] at hour [time] of the day [dateStr]. *)
Definition showtimeAt (dateStr : string) (movie : ObjectId) (time : string)
           (s : Showtime) : Prop :=
  startTime s = dateOfString env (dateStr ++ "T" ++ time ++ ":00") /\
  screen s = "Screen 1" /\
  availableSeats s = 100 /\
  showMovie s = Some movie.

(** [sts] are the showtimes of [movie] at 10:00, 13:30, 17:00 and 21:30 of
    the day [dateStr], in this order and no others. *)
Definition fourShowtimes (dateStr : string) (movie : ObjectId)
           (sts : list Showtime) : Prop :=
  Forall2 (showtimeAt dateStr movie) times sts.

(** The four start times of the day are dates. *)
Definition datesValid (dateStr : string) : bool :=
  forallb (fun time =>
             Public.isValidDate
               (dateOfString env (dateStr ++ "T" ++ time ++ ":00")))
          times.

(** The day of the run, [today.toISOString().split('T')[0]]. *)
Definition dateStrOf (w : World) : string :=
  beforeChar "T" (toISOString env (now w)).

(** The world in which the iteration for a movie starts, the movies [pre]
    having been linked before it. *)
Definition worldAfter (pre : list Movie) (w : World) : World :=
  snd (forEach pre (linkMovie (dateStrOf w)) w).

End Linking.

(** The database answers every call, and no two theaters share an [_id]. *)
Definition healthy (w : World) : Prop :=
  faults w = [] /\ NoDup (map theaterId (theaterDocs (db w))).

(** The Theater document that one iteration of the inner loop leaves. *)
Definition linkedTheater (movie : Movie) (x : ObjectId * EmbeddedTheater)
  : Theater :=
  mkTheater (fst x) (etName (snd x)) (etLocation (snd x))
            ([] ++ etShowtimes (snd x)) (addToSet (title movie) [])
            (Some "Active").

(** The driver calls of one iteration of the inner loop. *)
Definition linkCalls (movie : Movie) (x : ObjectId * EmbeddedTheater)
  : list DbCall :=
  [CTheaterFindOneAndUpdate (etName (snd x));
   CTheaterUpdateOne (fst x) (etShowtimes (snd x)) (title movie)].

End Seed.

(* ===================================================================== *)
(** ** A concrete runtime, for running the model on examples              *)
(* ===================================================================== *)

Module Demo.
Import JsNum JsStr Model Env.

Definition digitOf (c : ascii) : option Z :=
  let n := nat_of_ascii c in
  if ((48 <=? n) && (n <=? 57))%nat then Some (Z.of_nat n - 48) else None.

(** The value of a run of decimal digits, with their number; [None] if
    another character occurs. *)
Fixpoint digitsFrom (acc : Z) (count : nat) (s : string) : option (Z * nat) :=
  match s with
  | EmptyString => Some (acc, count)
  | String c s' =>
      match digitOf c with
      | Some d => digitsFrom (10 * acc + d) (S count) s'
      | None => None
      end
  end.

Definition digits (s : string) : option (Z * nat) :=
  match s with
  | EmptyString => None
  | _ => digitsFrom 0 0 s
  end.

Fixpoint splitAt (sep : ascii) (s : string) : string * option string :=
  match s with
  | EmptyString => (EmptyString, None)
  | String c s' =>
      if Ascii.eqb c sep then (EmptyString, Some s')
      else let '(a, b) := splitAt sep s' in (String c a, b)
  end.

(** An unsigned decimal literal, [ddd] or [ddd.ddd]. *)
Definition unsignedDecimal (s : string) : option Q :=
  match splitAt "." s with
  | (ip, None) => option_map (fun p => inject_Z (fst p)) (digits ip)
  | (ip, Some fp) =>
      match digits ip, digits fp with
      | Some (i, _), Some (f, n) =>
          Some (inject_Z i + inject_Z f / inject_Z (10 ^ Z.of_nat n))%Q
      | _, _ => None
      end
  end.

(** The double nearest to the decimal literal. *)
Definition signedDecimal (s : string) : num :=
  match s with
  | String "-" s' =>
      match unsignedDecimal s' with
      | Some q => roundToDouble (- q)
      | None => NaN
      end
  | String "+" s' =>
      match unsignedDecimal s' with
      | Some q => roundToDouble q
      | None => NaN
      end
  | _ =>
      match unsignedDecimal s with
      | Some q => roundToDouble q
      | None => NaN
      end
  end.

(** [Number(s)] on decimal literals without exponent; white space around
    the literal is ignored and the empty string is 0.  Other text is NaN
    here. *)
Definition toNumber (s : string) : num :=
  match trim s with
  | EmptyString => Fin 0
  | t => signedDecimal t
  end.

(** [parseFloat(s)] on the same literals; the empty string is NaN. *)
Definition parseFloat (s : string) : num :=
  match trim s with
  | EmptyString => NaN
  | t => signedDecimal t
  end.

(** Days from 1970-01-01 to the civil date [y-m-d] (proleptic Gregorian). *)
Definition daysFromCivil (y m d : Z) : Z :=
  let y' := if m <=? 2 then y - 1 else y in
  let era := y' / 400 in
  let yoe := y' - era * 400 in
  let mp := (m + 9) mod 12 in
  let doy := (153 * mp + 2) / 5 + d - 1 in
  let doe := yoe * 365 + yoe / 4 - yoe / 100 + doy in
  era * 146097 + doe - 719468.

(** The civil date of a day number. *)
Definition civilFromDays (z : Z) : Z * Z * Z :=
  let z' := z + 719468 in
  let era := z' / 146097 in
  let doe := z' - era * 146097 in
  let yoe := (doe - doe / 1460 + doe / 36524 - doe / 146096) / 365 in
  let doy := doe - (365 * yoe + yoe / 4 - yoe / 100) in
  let mp := (5 * doy + 2) / 153 in
  let d := doy - (153 * mp + 2) / 5 + 1 in
  let m := if mp <? 10 then mp + 3 else mp - 9 in
  let y := yoe + era * 400 in
  (if m <=? 2 then y + 1 else y, m, d).

Definition msPerDay : Z := 86400000.

Definition fixedDigits (n : nat) (s : string) : option Z :=
  match digits s with
  | Some (v, k) => if (k =? n)%nat then Some v else None
  | None => None
  end.

(** [YYYY-MM-DD] *)
Definition parseDay (s : string) : option Z :=
  match splitAt "-" s with
  | (ys, Some rest) =>
      match splitAt "-" rest with
      | (ms, Some ds) =>
          match fixedDigits 4 ys, fixedDigits 2 ms, fixedDigits 2 ds with
          | Some y, Some m, Some d =>
              if (1 <=? m) && (m <=? 12) && (1 <=? d) && (d <=? 31)
              then Some (daysFromCivil y m d) else None
          | _, _, _ => None
          end
      | _ => None
      end
  | _ => None
  end.

(** [HH:MM:SS] *)
Definition parseClock (s : string) : option Z :=
  match splitAt ":" s with
  | (hs, Some rest) =>
      match splitAt ":" rest with
      | (ms, Some ss) =>
          match fixedDigits 2 hs, fixedDigits 2 ms, fixedDigits 2 ss with
          | Some h, Some m, Some sec =>
              if (h <=? 23) && (m <=? 59) && (sec <=? 59)
              then Some (((h * 60 + m) * 60 + sec) * 1000) else None
          | _, _, _ => None
          end
      | _ => None
      end
  | _ => None
  end.

(** [new Date(s)] for [YYYY-MM-DD] and [YYYY-MM-DDTHH:MM:SS], the server
    running in UTC; other text is an Invalid Date here. *)
Definition dateOfString (s : string) : JsDate :=
  match splitAt "T" s with
  | (day, None) =>
      match parseDay day with
      | Some d => ValidDate (d * msPerDay)
      | None => InvalidDate
      end
  | (day, Some clock) =>
      match parseDay day, parseClock clock with
      | Some d, Some c => ValidDate (d * msPerDay + c)
      | _, _ => InvalidDate
      end
  end.

Definition pad (n : nat) (z : Z) : string :=
  let s := Js.numberToString z in
  String.concat "" (repeat "0" (n - String.length s)) ++ s.

(** [d.toISOString()] *)
Definition toISOString (t : Z) : string :=
  let '(y, m, d) := civilFromDays (t / msPerDay) in
  let r := t mod msPerDay in
  pad 4 y ++ "-" ++ pad 2 m ++ "-" ++ pad 2 d ++ "T"
  ++ pad 2 (r / 3600000) ++ ":" ++ pad 2 (r / 60000 mod 60) ++ ":"
  ++ pad 2 (r / 1000 mod 60) ++ "." ++ pad 3 (r mod 1000) ++ "Z".

(** [setHours(0, 0, 0, 0)] in UTC. *)
Definition startOfLocalDay (t : Z) : Z := t - t mod msPerDay.

Definition lower (c : ascii) : ascii :=
  let n := nat_of_ascii c in
  if ((65 <=? n) && (n <=? 90))%nat then ascii_of_nat (n + 32) else c.

Fixpoint lowerCase (s : string) : string :=
  match s with
  | EmptyString => EmptyString
  | String c s' => String (lower c) (lowerCase s')
  end.

Fixpoint containsFrom (fuel : nat) (pat s : string) : bool :=
  if String.prefix pat s then true
  else match fuel, s with
       | S fuel', String _ s' => containsFrom fuel' pat s'
       | _, _ => false
       end.

Definition containsCI (pat s : string) : bool :=
  containsFrom (String.length s) (lowerCase pat) (lowerCase s).

Definition plainChar (c : ascii) : bool :=
  let n := nat_of_ascii c in
  ((48 <=? n) && (n <=? 57) || (65 <=? n) && (n <=? 90)
   || (97 <=? n) && (n <=? 122) || (n =? 32) || (n =? 44))%nat.

Fixpoint allChars (p : ascii -> bool) (s : string) : bool :=
  match s with
  | EmptyString => true
  | String c s' => p c && allChars p s'
  end.

(** A pattern of letters, digits, spaces and commas matches where it occurs,
    case-insensitively; other patterns are not handled here. *)
Definition regexCompile (pat : string) : option (string -> bool) :=
  if allChars plainChar pat then Some (containsCI pat) else None.

(** A stand-in for the search index: titles that contain the query. *)
Definition atlasSearch (query : string) (docs : list Movie) : list Movie :=
  filter (fun m => containsCI query (title m)) docs.

Definition hexOf (c : ascii) : option N :=
  let n := nat_of_ascii c in
  if ((48 <=? n) && (n <=? 57))%nat then Some (N.of_nat (n - 48))
  else if ((97 <=? n) && (n <=? 102))%nat then Some (N.of_nat (n - 87))
  else if ((65 <=? n) && (n <=? 70))%nat then Some (N.of_nat (n - 55))
  else None.

Fixpoint hexFrom (acc : N) (s : string) : option N :=
  match s with
  | EmptyString => Some acc
  | String c s' =>
      match hexOf c with
      | Some d => hexFrom (16 * acc + d)%N s'
      | None => None
      end
  end.

(** 24 hexadecimal characters denote an ObjectId. *)
Definition castObjectId (s : string) : option ObjectId :=
  if (String.length s =? 24)%nat then hexFrom 0%N s else None.

Definition objectIdIsValid (s : string) : bool :=
  match castObjectId s with Some _ => true | None => false end.

(** A schema that requires a title. *)
Definition movieSchemaError (m : Movie) : option string :=
  match title m with
  | EmptyString => Some "Movie validation failed: title: Path `title` is required."
  | _ => None
  end.

(** The same rule on an update: a title, when given, is not empty. *)
Definition updateSchemaError (u : MovieUpdate) : option string :=
  match uTitle u with
  | Some EmptyString => Some "Validation failed: title: Path `title` is required."
  | _ => None
  end.

Definition env : JsEnv :=
  mkEnv toNumber parseFloat dateOfString toISOString startOfLocalDay
        regexCompile atlasSearch objectIdIsValid castObjectId movieSchemaError
        updateSchemaError.

End Demo.

(* ===================================================================== *)
(** ** Example data                                                       *)
(* ===================================================================== *)

Module Examples.
Import Model Mongoose Admin.

Definition kurla : Theater :=
  mkTheater 1%N "PVR Phoenix Kurla" "Mumbai" [] [] (Some "Active").

(** 2025-10-01T10:00:00Z *)
Definition instant : Z := 1759312800000.

Definition world0 : World :=
  mkWorld (mkDb [] [kurla] [] []) [] [] cyclingRng instant.

Definition dashavatar : CreateBody :=
  mkCreateBody (Some "Dashavatar") (Some "A Marathi mythological epic.")
               (Some "Mythology") (Some (82 # 10)) (Some "150 min")
               (Some "https://yourcdn.com/dashavatar.jpg") None
               (Some "2025-09-25") (Some "mr") [] [].

(** The world after the admin has created the movie. *)
Definition world1 : World :=
  snd (@createMovie Demo.env Js.insertionEngine dashavatar world0).

(** The id the movie got, as the text of a request parameter. *)
Definition dashavatarId : string := "000000000000000000000001".

(** An update that empties the showtimes of the embedded copy. *)
Definition clearShowtimes : MovieUpdate :=
  mkUpdate None None None None None None None None None None None
           (Some [mkEmbedded "PVR Phoenix Kurla" "Mumbai" []]).

(** A movie released at 12:00 on the day of [instant]. *)
Definition matinee : Movie :=
  mkMovie 7%N "Matinee" None "Drama" None None "poster.jpg" None
          (Some (ValidDate (instant + 2 * 3600000))) "en" [] [] [].



Definition plainMovie (id : N) (name : string) : Movie :=
  mkMovie id name None "Drama" None None "poster.jpg" None
          (Some (ValidDate instant)) "en" [] [] [].

Definition barbie : Movie := plainMovie 11 "Barbie".
Definition jawan : Movie := plainMovie 12 "Jawan".
Definition avatar : Movie := plainMovie 13 "Avatar: Fire and Ash".

Definition threeMovies : World :=
  mkWorld (mkDb [barbie; jawan; avatar] [] [] []) [] [] cyclingRng instant.

(** [?title=a&limit=2] *)
Definition titleAndLimit : Public.MoviesQuery :=
  Public.mkQuery None None None None None None (Some "a") None (Some "2") None.

(** [?page=..&limit=..] *)
Definition pageAndLimit (page limit : option string) : Public.MoviesQuery :=
  Public.mkQuery None None None None None None None page limit None.

Definition oppenheimer : TmdbMovie := mkTmdbMovie 872585 "Oppenheimer".


(** A TMDB that has results in Hindi only, seen from the search handler. *)
Definition tmdbHindi (query lang : string) : Tmdb.AxiosOutcome SearchData :=
  if String.eqb lang "hi" then Tmdb.Response 200 (Results [oppenheimer])
  else if String.eqb lang "en" then Tmdb.Failure "ECONNRESET"
       else Tmdb.Response 200 (Results []).

(** The same, seen from the seed script. *)
Definition tmdbHindiSeed (url : string) (attempt : nat)
  : Retry.AxiosResult SearchData :=
  if Demo.containsCI "language=hi-IN" url
  then Retry.Resolved (Results [oppenheimer])
  else Retry.Resolved (Results []).

Definition identity (s : string) : string := s.

(** A world whose next driver call fails with a network error. *)
Definition offline : World :=
  mkWorld (mkDb [] [] [] [])
          [Some (mkExn "MongoNetworkError" "connection lost")] []
          cyclingRng instant.

(** A database before the linking: two inserted movies, one theater. *)
Definition seedWorld : World :=
  mkWorld (mkDb [barbie; jawan] [kurla] [] []) [] [] cyclingRng instant.

(** The database when the linking of these two movies has ended. *)
Definition seededWorld : World :=
  snd (@Seed.linkMovies Demo.env Js.insertionEngine [barbie; jawan]
                        seedWorld).

Definition isKurla (t : Theater) : bool :=
  String.eqb (theaterName t) "PVR Phoenix Kurla".

End Examples.

(* ===================================================================== *)
(** ** Agreement of the two copies of the showtimes                       *)
(* ===================================================================== *)

Module Copies.
Import Model.

Definition refersTo (m : Movie) (s : Showtime) : bool :=
  match showMovie s with
  | Some id => N.eqb id (movieId m)
  | None => false
  end.

(** The showtimes of movie [m] that the Theater document [t] holds. *)
Definition heldByTheater (m : Movie) (t : Theater) : list Showtime :=
  filter (refersTo m) (showtimes t).

(** The showtimes that the Movie document [m] embeds for theater [t]. *)
Definition embeddedInMovie (m : Movie) (t : Theater) : list Showtime :=
  flat_map etShowtimes
    (filter (fun e => String.eqb (etName e) (theaterName t)
                      && String.eqb (etLocation e) (theaterLocation t))
            (embeddedTheaters m)).

(** The two copies agree when, for every movie and every theater, the movie
    embeds for the theater exactly the showtimes the theater holds for the
    movie. *)
Definition copiesAgree (d : Db) : Prop :=
  forall m t, In m (movies d) -> In t (theaterDocs d) ->
    embeddedInMovie m t = heldByTheater m t.

End Copies.

(* ===================================================================== *)
(** ** The handlers as one family                                         *)
(* ===================================================================== *)

Module App.
Import Model Env Mongoose Http.

(** A request, named by the handler that serves it, with what the handler
    reads from it; the TMDB requests carry the outcomes of the calls the
    handler makes to TMDB. *)
Inductive Call : Type :=
| PublicGetMovies (q : Public.MoviesQuery)
| PublicGetMovieById (id : string)
| PublicGetAllGenres
| PublicCreateMovie (reqBody : Movie)
| AdminCreateMovie (b : Admin.CreateBody)
| AdminUpdateMovie (id : string) (updates : option MovieUpdate)
| AdminDeleteMovie (id : option string)
| AdminBulkCreateMovies (ms : option (list Movie))
| AdminGetAllBookings (user : option User)
                      (userId movieId page limit : option string)
| AdminGetAllUsers (user : option User) (page limit : option string)
| AdminGetAdminStats (user : option User)
| AdminGetMovieById (id : string)
| AdminGetAllMovies (isUpcoming : option string)
| AdminPingAdmin (user : option User)
| TmdbSearch (search : string -> string -> Tmdb.AxiosOutcome SearchData)
             (rawQuery : option Tmdb.QueryValue) (apiKey : option string)
| TmdbDetails (getDetails : string -> Tmdb.AxiosOutcome (option Tmdb.Details))
              (getCredits : string -> Tmdb.AxiosOutcome (list CastMember))
              (getVideos : string -> Tmdb.AxiosOutcome unit)
              (id : string) (apiKey : option string).

Definition handle (env : JsEnv) {E : Js.SortEngine} (c : Call) : M Response :=
  match c with
  | PublicGetMovies q => Public.getMovies env q
  | PublicGetMovieById id => Public.getMovieById env id
  | PublicGetAllGenres => Public.getAllGenres
  | PublicCreateMovie b => Public.createMovie env b
  | AdminCreateMovie b => Admin.createMovie env b
  | AdminUpdateMovie id u => Admin.updateMovie env id u
  | AdminDeleteMovie id => Admin.deleteMovie env id
  | AdminBulkCreateMovies ms => Admin.bulkCreateMovies env ms
  | AdminGetAllBookings user userId movieId page limit =>
      Admin.getAllBookings env user userId movieId page limit
  | AdminGetAllUsers user page limit => Admin.getAllUsers env user page limit
  | AdminGetAdminStats user => Admin.getAdminStats user
  | AdminGetMovieById id => Admin.getMovieById env id
  | AdminGetAllMovies isUpcoming => Admin.getAllMovies env isUpcoming
  | AdminPingAdmin user => Admin.pingAdmin user
  | TmdbSearch search rawQuery apiKey =>
      ret (snd (Tmdb.searchTmdbMovie search rawQuery apiKey))
  | TmdbDetails getDetails getCredits getVideos id apiKey =>
      ret (Tmdb.getTmdbMovieDetails getDetails getCredits getVideos id apiKey)
  end.

(** Every handler but [pingAdmin] wraps its work in [try]/[catch]. *)
Definition hasTryCatch (c : Call) : bool :=
  match c with
  | AdminPingAdmin _ => false
  | _ => true
  end.

(** The movie id a request makes its handler look up, when the handler
    gets as far as the lookup. *)
Definition lookedUpId (env : JsEnv) (c : Call) : option string :=
  match c with
  | PublicGetMovieById id => if objectIdIsValid env id then Some id else None
  | AdminGetMovieById id => Some id
  | AdminUpdateMovie id (Some u) =>
      if (updateKeys u =? 0)%nat then None
      else match updateError env u with
           | Some _ => None
           | None => Some id
           end
  | AdminDeleteMovie (Some id) =>
      if JsStr.truthy (Some id) then Some id else None
  | _ => None
  end.

(** The status a handler's [catch] answers with. *)
Definition catchStatus (c : Call) : Z :=
  match c with
  | PublicCreateMovie _ => 400
  | _ => 500
  end.

Definition isFault (f : option Exn) : bool :=
  match f with Some _ => true | None => false end.

(** The number of driver calls made from world [w] to world [w']. *)
Definition callsMade (w w' : World) : nat :=
  List.length (calls w') - List.length (calls w).

(** One of the driver calls made from [w] to [w'] was made to fail. *)
Definition faultHit (w w' : World) : bool :=
  existsb isFault (firstn (callsMade w w') (faults w)).

(** [m] accounts for its driver calls: from any world it appends its calls
    to the log, consumes one fault entry per call, and returns normally
    only if none of the entries it consumed was a fault. *)
Definition tracked {A} (m : M A) : Prop :=
  forall w, exists log,
    calls (snd (m w)) = (calls w ++ log)%list /\
    faults (snd (m w)) = skipn (List.length log) (faults w) /\
    (forall a, fst (m w) = Ok a ->
       existsb isFault (firstn (List.length log) (faults w)) = false).

(** Every value [m] returns normally satisfies [P]. *)
Definition post {A} (P : A -> Prop) (m : M A) : Prop :=
  forall w a w', m w = (Ok a, w') -> P a.

(** A response of the API: one of its status codes, and a JSON error object
    whenever the status is 4xx or 5xx. *)
Definition wellFormed (r : Response) : Prop :=
  In (status r) [200; 201; 400; 403; 404; 500] /\
  (400 <= status r -> isErrorBody (body r) = true).

End App.

(* ===================================================================== *)
(** ** Measures on the traces of the HTTP client                          *)
(* ===================================================================== *)

Module Backoff.
Import Retry.

(** The time a trace spends sleeping, in milliseconds. *)
Fixpoint totalSleep (tr : list Event) : Z :=
  match tr with
  | [] => 0
  | ESleep ms :: tr' => ms + totalSleep tr'
  | _ :: tr' => totalSleep tr'
  end.

End Backoff.

(* ===================================================================== *)
(** ** Classes of requests                                                *)
(* ===================================================================== *)

Module Requests.
Import Model Http App.

(** The requests served by handlers that only read: the listings, the
    single-movie reads, the statistics, the ping and the TMDB handlers. *)
Definition readOnly (c : Call) : bool :=
  match c with
  | PublicGetMovies _ | PublicGetMovieById _ | PublicGetAllGenres
  | AdminGetAllBookings _ _ _ _ _ | AdminGetAllUsers _ _ _
  | AdminGetAdminStats _ | AdminGetMovieById _ | AdminGetAllMovies _
  | AdminPingAdmin _ | TmdbSearch _ _ _ | TmdbDetails _ _ _ _ _ => true
  | _ => false
  end.

(** The user on whose behalf an admin-only handler is asked to work, for
    the four handlers that check the role themselves. *)
Definition roleChecked (c : Call) : option (option User) :=
  match c with
  | AdminGetAllBookings user _ _ _ _ => Some user
  | AdminGetAllUsers user _ _ => Some user
  | AdminGetAdminStats user => Some user
  | AdminPingAdmin user => Some user
  | _ => None
  end.

(** [m] never changes the database. *)
Definition keepsDb {A} (m : M A) : Prop :=
  forall w, db (snd (m w)) = db w.

End Requests.

(* ===================================================================== *)
(** ** More example data                                                  *)
(* ===================================================================== *)

Module MoreExamples.
Import Model Mongoose Admin.

(** A body with a title and a language only. *)
Definition untitledDraft : CreateBody :=
  mkCreateBody (Some "Jawan") None None None None (Some "") None None
               (Some "hi") [] [].

End MoreExamples.

Module Defaults.
Import Model.

(** [GET /api/movies] without any query parameter. *)
Definition noParameters : Public.MoviesQuery :=
  Public.mkQuery None None None None None None None None None None.

(** The driver answers its next [n] calls. *)
Definition answersNext (n : nat) (w : World) : bool :=
  negb (existsb App.isFault (firstn n (faults w))).

End Defaults.

Module Invariants.
Import Model.

(** No two movies share an [_id], and no two theaters do. *)
Definition distinctIds (d : Db) : Prop :=
  NoDup (map movieId (movies d)) /\ NoDup (map theaterId (theaterDocs d)).

(** [m] keeps the property [I] of the database, however it ends. *)
Definition preserves {A} (I : Db -> Prop) (m : M A) : Prop :=
  forall w, I (db w) -> I (db (snd (m w))).

(** The world after serving the requests [cs], one after the other. *)
Fixpoint serveAll (env : Env.JsEnv) {E : Js.SortEngine} (cs : list App.Call)
         (w : World) : World :=
  match cs with
  | [] => w
  | c :: cs' => serveAll env cs' (snd (App.handle env c w))
  end.

End Invariants.

Module Links.
Import Model.



End Links.

Module TmdbDetails.
Import JsStr Model Http.

(** The bodies of TMDB's three answers, with the fields the handler reads.
    A field that TMDB may leave out or send as [null] is an [option]; the
    fields are taken to have TMDB's documented types. *)
Record DetailsData : Type := mkDetailsData {
  title : option string;
  overview : option string;
  genres : option (list (option string));   (* the [name] of each genre *)
  vote_average : option Q;
  runtime : option Z;
  poster_path : option string;
  release_date : option string;
  original_language : option string
}.

Record Credit : Type := mkCredit {
  name : option string;
  character : option string;
  profile_path : option string
}.

Record Video : Type := mkVideo {
  type : option string;
  site : option string;
  official : bool;
  key : option string
}.

(** The object passed to [res.status(200).json]. *)
Record DetailsJson : Type := mkDetailsJson {
  jTitle : string;
  jDescription : string;
  jGenre : string;
  jRating : Q;
  jDuration : string;
  jPosterUrl : string;
  jTrailerUrl : string;
  jReleaseDate : string;
  jLanguage : string;
  jCast : list CastMember
}.

Inductive Answer : Type :=
| Json (status : Z) (body : DetailsJson)
| Error (status : Z) (error : string).

(** [x || ''] on a string that may be absent. *)
Definition orEmpty (x : option string) : string :=
  match x with Some s => s | None => "" end.

(** [x ? prefix + x : ''] *)
Definition prefixed (prefix : string) (x : option string) : string :=
  match x with
  | Some s => if truthy x then prefix ++ s else ""
  | None => ""
  end.

(** [details.genres.map(g => g.name).filter(Boolean)], [[]] when [genres]
    is not an array. *)
Definition genreNames (d : DetailsData) : list string :=
  match genres d with
  | Some gs =>
      flat_map (fun g => match g with
                         | Some n => if truthy g then [n] else []
                         | None => []
                         end) gs
  | None => []
  end.

(** [creditsRes.data.cast.slice(0, 10).map(c => ({ ... }))], [[]] when there
    is no [cast] array. *)
Definition castOf (c : Credit) : CastMember :=
  mkCast (orEmpty (name c)) (orEmpty (character c))
         (prefixed "https://image.tmdb.org/t/p/w185" (profile_path c)).

Definition castList (credits : option (list Credit)) : list CastMember :=
  match credits with
  | Some cs => map castOf (firstn 10 cs)
  | None => []
  end.

Definition onYouTube (v : Video) : bool := Public.strIs (site v) "YouTube".

Definition officialTrailer (v : Video) : bool :=
  Public.strIs (type v) "Trailer" && onYouTube v && official v.

Definition anyTrailer (v : Video) : bool :=
  Public.strIs (type v) "Trailer" && onYouTube v.

Definition teaserOrClip (v : Video) : bool :=
  match type v with
  | Some t => includes ["Teaser"; "Clip"] t
  | None => false
  end && onYouTube v.

(** [videos.find(official trailer) || videos.find(trailer)
     || videos.find(teaser or clip)] *)
Definition trailer (videos : list Video) : option Video :=
  match find officialTrailer videos with
  | Some v => Some v
  | None =>
      match find anyTrailer videos with
      | Some v => Some v
      | None => find teaserOrClip videos
      end
  end.

(** [trailer?.key ? `https://www.youtube.com/watch?v=${trailer.key}` : ''] *)
Definition trailerUrl (videos : list Video) : string :=
  match trailer videos with
  | Some v => prefixed "https://www.youtube.com/watch?v=" (key v)
  | None => ""
  end.

Definition isDigit (c : ascii) : bool :=
  let n := nat_of_ascii c in ((48 <=? n)%nat && (n <=? 57)%nat).

Definition isDash (c : ascii) : bool := Ascii.eqb c "-".

(** [/^\d{4}-\d{2}-\d{2}$/.test(s)] *)
Definition isDay (s : string) : bool :=
  match list_ascii_of_string s with
  | [y1; y2; y3; y4; s1; m1; m2; s2; d1; d2] =>
      isDigit y1 && isDigit y2 && isDigit y3 && isDigit y4 && isDash s1
      && isDigit m1 && isDigit m2 && isDash s2 && isDigit d1 && isDigit d2
  | _ => false
  end.

(** An absent [release_date] is tested as the text [undefined]. *)
Definition releaseDate (d : DetailsData) : string :=
  match release_date d with
  | Some s => if isDay s then s else ""
  | None => ""
  end.

(** [supportedLanguages.includes(l) ? l : 'en'] *)
Definition language (d : DetailsData) : string :=
  match original_language d with
  | Some l => if includes Tmdb.supportedLanguages l then l else "en"
  | None => "en"
  end.

(** [details.vote_average || 0] *)
Definition rating (d : DetailsData) : Q :=
  match vote_average d with
  | Some r => if Qeq_bool r 0 then 0%Q else r
  | None => 0%Q
  end.

(** [`${details.runtime || 0} min`] *)
Definition duration (d : DetailsData) : string :=
  Js.numberToString (match runtime d with Some r => r | None => 0 end)
  ++ " min".

Definition detailsJson (d : DetailsData) (credits : option (list Credit))
           (videos : list Video) : DetailsJson :=
  mkDetailsJson (orEmpty (title d)) (orEmpty (overview d))
                (String.concat ", " (genreNames d))
                (rating d) (duration d)
                (prefixed "https://image.tmdb.org/t/p/w500" (poster_path d))
                (trailerUrl videos) (releaseDate d) (language d)
                (castList credits).

Section Handler.
(** The three requests for a movie id.  Credits answer with their [cast]
    ([None]: no array there), videos with their [results] ([[]] when
    absent), details with their body ([None]: an empty body). *)
Variable getDetails : string -> Tmdb.AxiosOutcome (option DetailsData).
Variable getCredits : string -> Tmdb.AxiosOutcome (option (list Credit)).
Variable getVideos : string -> Tmdb.AxiosOutcome (list Video).

(** The details handler.  The three requests are awaited together: one
    rejection and the [catch] answers. *)
Definition getTmdbMovieDetails (id : string) (apiKey : option string)
  : Answer :=
  if negb (truthy apiKey)
  then Error 500 "TMDB API key not configured"
  else
    match getDetails id, getCredits id, getVideos id with
    | Tmdb.Response st d, Tmdb.Response _ credits, Tmdb.Response _ videos =>
        match d with
        | Some details =>
            if st =? 200
            then Json 200 (detailsJson details credits videos)
            else Error 404 "Movie not found in TMDB"
        | None => Error 404 "Movie not found in TMDB"
        end
    | _, _, _ => Error 500 "Failed to fetch movie details"
    end.

End Handler.

(** What the coarser model of the handler keeps of an answer and of the
    requests' data. *)
Definition toResponse (a : Answer) : Http.Response :=
  match a with
  | Json st b => mkResponse st (BTmdbDetails (jTitle b) (jLanguage b) (jCast b))
  | Error st msg => jsonError st msg
  end.

Definition mapOutcome {A B} (f : A -> B) (o : Tmdb.AxiosOutcome A)
  : Tmdb.AxiosOutcome B :=
  match o with
  | Tmdb.Response st d => Tmdb.Response st (f d)
  | Tmdb.Failure msg => Tmdb.Failure msg
  end.

Definition coarseDetails (d : DetailsData) : Tmdb.Details :=
  Tmdb.mkDetails (title d) (orEmpty (original_language d)).

Definition coarseCredits (credits : option (list Credit)) : list CastMember :=
  match credits with Some cs => map castOf cs | None => [] end.

(** A video that can be played: on YouTube, with a key. *)
Definition playable (v : Video) : bool := onYouTube v && truthy (key v).

End TmdbDetails.

Module DetailsExamples.
Import TmdbDetails.

Definition teaser : Video :=
  mkVideo (Some "Teaser") (Some "YouTube") true (Some "uYPbbksJxIg").
Definition fanTrailer : Video :=
  mkVideo (Some "Trailer") (Some "YouTube") false (Some "bK6ldnjE3Y0").
Definition officialNoKey : Video :=
  mkVideo (Some "Trailer") (Some "YouTube") true None.

Definition oppenheimer : DetailsData :=
  mkDetailsData (Some "Oppenheimer") (Some "The story of J. Robert Oppenheimer.")
                (Some [Some "Drama"; Some ""; Some "History"])
                (Some (81 # 10)) (Some 181)
                (Some "/8Gxv8gSFCU0XGDykEGv7zR1n2ua.jpg")
                (Some "2023-07-19") (Some "en").

Definition murphy : Credit :=
  mkCredit (Some "Cillian Murphy") (Some "J. Robert Oppenheimer") None.

Definition details (id : string)
  : Tmdb.AxiosOutcome (option DetailsData) :=
  Tmdb.Response 200 (Some oppenheimer).
Definition credits (id : string)
  : Tmdb.AxiosOutcome (option (list Credit)) :=
  Tmdb.Response 200 (Some (repeat murphy 12)).
Definition videos (id : string) : Tmdb.AxiosOutcome (list Video) :=
  Tmdb.Response 200 [teaser; fanTrailer].

End DetailsExamples.

Module Order.
Import Model Mongoose.



End Order.

Module Views.
Import Model Env Http.

(** [sv] is the showtime [s] as [getMovieById] sends it: the start time
    replaced by its ISO text, the other fields copied. *)
Definition showtimeViewed (env : JsEnv) (s : Showtime) (sv : ShowtimeView)
  : Prop :=
  exists ms,
    startTime s = ValidDate ms /\
    sv = mkShowtimeView (toISOString env ms) (screen s) (availableSeats s)
                        (blockedSeats s) (showMovie s).

(** [v] is the embedded theater [e] as sent: the same name and location, its
    showtimes one by one as sent. *)
Definition theaterViewed (env : JsEnv) (e : EmbeddedTheater) (v : TheaterView)
  : Prop :=
  tvName v = etName e /\ tvLocation v = etLocation e /\
  Forall2 (showtimeViewed env) (etShowtimes e) (tvShowtimes v).

End Views.

Module Staff.
Import Model.



End Staff.

Module Server.
Import JsStr Model Env Http.

(** An error as the global error handler of [server.js] reads it: its
    [status], when it has one, and its [message]. *)
Record Failure : Type := mkFailure {
  failureStatus : option Z;
  failureMessage : string
}.

(** An exception raised by the language, such as a TypeError, has no
    [status]. *)
Definition ofExn (err : Exn) : Failure := mkFailure None (exnMessage err).

(** [res.status(err.status || 500).json({ error: err.message ||
    'Server Error' })] *)
Definition errorHandler (err : Failure) : Response :=
  jsonError (match failureStatus err with
             | Some st => if st =? 0 then 500 else st
             | None => 500
             end)
            (if truthy (Some (failureMessage err)) then failureMessage err
             else "Server Error").

End Server.

(* ===================================================================== *)
(** * Properties                                                          *)
(* ===================================================================== *)

Section RetryFacts.
Import Retry.
Context {D : Type}.
Variable axios_get : string -> nat -> AxiosResult D.
Variables (url : string) (retries : nat) (delay : Z).

Local Abbreviation run_from := (attemptsFrom axios_get url retries delay).

Lemma attempts_noLogs tr : attempts (noLogs tr) = attempts tr.
Proof.
  induction tr as [|e tr IH]; [reflexivity|].
  destruct e; simpl; now rewrite ?IH.
Qed.

Lemma attempts_retryTrace from k :
  attempts (retryTrace url delay from k) = S k.
Proof.
  unfold retryTrace. revert from.
  induction k as [|k IH]; intros from; simpl; [reflexivity|].
  f_equal. specialize (IH (S from)).
  replace (from + S k)%nat with (S from + k)%nat by lia. exact IH.
Qed.

(** The loop never makes more attempts than it has iterations left. *)
Lemma attemptsFrom_bound remaining i :
  (attempts (fst (run_from remaining i)) <= remaining)%nat.
Proof.
  revert i. induction remaining as [|r IH]; intros i; simpl; [lia|].
  destruct (axios_get url i) as [d|msg st]; simpl; [lia|].
  destruct (is404 st); simpl; [lia|].
  destruct (Z.of_nat i =? Z.of_nat retries - 1); simpl; [lia|].
  specialize (IH (S i)).
  destruct (run_from r (S i)) as [tr res]; simpl in *. lia.
Qed.

(** After [k] failures that are not 404s, a last attempt [i + k] ends the
    loop with its result, and the trace is the backoff trace. *)
Lemma attemptsFrom_stops k : forall remaining i,
  (i + remaining = retries)%nat ->
  (k < remaining)%nat ->
  (forall j, (i <= j < i + k)%nat -> failsNot404 (axios_get url j)) ->
  lastAttempt axios_get url retries (i + k) ->
  snd (run_from remaining i) = resultOf axios_get url (i + k) /\
  noLogs (fst (run_from remaining i)) = retryTrace url delay i k.
Proof.
  unfold lastAttempt, resultOf, retryTrace.
  induction k as [|k IH]; intros remaining i Hsum Hk Hprev Hlast.
  - destruct remaining as [|r]; [lia|]. simpl.
    rewrite Nat.add_0_r in *.
    destruct (axios_get url i) as [d|msg st] eqn:E; simpl; [now split|].
    destruct (is404 st) eqn:E4; simpl; [now split|].
    destruct Hlast as [[d []]|[H|[_ H]]]; [simpl in H; congruence|].
    replace (Z.of_nat i =? Z.of_nat retries - 1) with true
      by (symmetry; apply Z.eqb_eq; lia).
    now split.
  - destruct remaining as [|r]; [lia|]. simpl.
    pose proof (Hprev i ltac:(lia)) as Hi.
    destruct (axios_get url i) as [d|msg st] eqn:E; simpl in Hi; [easy|].
    rewrite Hi.
    replace (Z.of_nat i =? Z.of_nat retries - 1) with false
      by (symmetry; apply Z.eqb_neq; lia).
    replace (i + S k)%nat with (S i + k)%nat in * by lia.
    destruct (IH r (S i)) as [IH1 IH2]; [lia|lia| |exact Hlast|].
    { intros j Hj. apply Hprev. lia. }
    destruct (run_from r (S i)) as [tr res]; simpl in *.
    split; [exact IH1|]. now rewrite IH2.
Qed.

Lemma fetchWithRetry_stops k :
  (k < retries)%nat ->
  (forall j, (j < k)%nat -> failsNot404 (axios_get url j)) ->
  lastAttempt axios_get url retries k ->
  snd (fetchWithRetry axios_get url retries delay)
    = resultOf axios_get url k /\
  noLogs (fst (fetchWithRetry axios_get url retries delay))
    = retryTrace url delay 0 k.
Proof.
  intros Hk Hprev Hlast.
  apply (attemptsFrom_stops k retries 0%nat); auto.
  intros j Hj. apply Hprev. lia.
Qed.

End RetryFacts.

(** With no iteration to run the loop falls through: the value is
    [undefined], and no request is made. *)
Lemma fetchWithRetry_zero_retries {D} (axios_get : string -> nat -> Retry.AxiosResult D)
      url delay :
  Retry.fetchWithRetry axios_get url 0 delay = ([], Retry.FUndefined).
Proof. reflexivity. Qed.

(** C4.  [fetchWithRetry(url, retries, delay)] makes at most [retries] HTTP
    attempts.  When the attempts before attempt [k] (with [k < retries]) all
    fail with something other than a 404: if attempt [k] succeeds the call
    returns its data; if attempt [k] is a 404 the call returns null; if
    attempt [k] is the last allowed one and fails, the call returns null.  In
    each case exactly the attempts 0..k are made, and between attempt [j] and
    attempt [j+1] the script sleeps [delay * (j + 1)] ms. *)
Theorem fetchWithRetry_spec {D} (axios_get : string -> nat -> Retry.AxiosResult D)
        (url : string) (retries : nat) (delay : Z) :
  let tr := fst (Retry.fetchWithRetry axios_get url retries delay) in
  let res := snd (Retry.fetchWithRetry axios_get url retries delay) in
  (Retry.attempts tr <= retries)%nat /\
  forall k, (k < retries)%nat ->
    (forall j, (j < k)%nat -> Retry.failsNot404 (axios_get url j)) ->
    (forall d, axios_get url k = Retry.Resolved d ->
       res = Retry.FData d /\
       Retry.noLogs tr = Retry.retryTrace url delay 0 k) /\
    (forall msg, axios_get url k = Retry.Rejected msg (Some 404) ->
       res = Retry.FNull /\
       Retry.noLogs tr = Retry.retryTrace url delay 0 k) /\
    (S k = retries -> Retry.failsNot404 (axios_get url k) ->
       res = Retry.FNull /\
       Retry.noLogs tr = Retry.retryTrace url delay 0 k).
Proof.
  cbv zeta. split; [apply attemptsFrom_bound|].
  intros k Hk Hprev.
  pose proof (fetchWithRetry_stops axios_get url retries delay k Hk Hprev) as H.
  unfold Retry.lastAttempt, Retry.resultOf in H.
  repeat split.
  - destruct H as [H _]; [left; exists d; now rewrite H0|]. now rewrite H, H0.
  - destruct H as [_ H]; [left; exists d; now rewrite H0|]. exact H.
  - destruct H as [H _]; [right; left; now rewrite H0|]. now rewrite H, H0.
  - destruct H as [_ H]; [right; left; now rewrite H0|]. exact H.
  - destruct H as [H _]; [right; right; now split|].
    rewrite H. destruct (axios_get url k); [contradiction|reflexivity].
  - destruct H as [_ H]; [right; right; now split|]. exact H.
Qed.

Lemma fetchWithRetry_spec_witness :
  snd (Retry.fetchWithRetry flakyThenOk "u" 5 2000) = Retry.FData "body" /\
  Retry.noLogs (fst (Retry.fetchWithRetry flakyThenOk "u" 5 2000))
  = [Retry.EGet "u" 0; Retry.ESleep 2000; Retry.EGet "u" 1;
     Retry.ESleep 4000; Retry.EGet "u" 2].
Proof.
  assert (Hprev : forall j, (j < 2)%nat ->
            Retry.failsNot404 (flakyThenOk "u" j)).
  { intros [|[|j]] Hj; simpl; try reflexivity. lia. }
  exact (proj1 (proj2 (fetchWithRetry_spec flakyThenOk "u" 5 2000) 2%nat
                  ltac:(lia) Hprev) "body" eq_refl).
Defined.

Section SeatFacts.
Import Js Seats.






End SeatFacts.





(* ===================================================================== *)
(** ** Deleting and updating a movie                                      *)
(* ===================================================================== *)

Section FrameFacts.
Import Model Env Mongoose Http.
Variable env : JsEnv.

(** A driver call whose operation leaves part of the database alone leaves
    it alone whether it succeeds, returns nothing or throws. *)
Lemma dbCall_frame {A B} (proj : Db -> B) (c : DbCall)
      (op : Db -> Result A * Db) w :
  (forall d, proj (snd (op d)) = proj d) ->
  proj (db (snd (dbCall c op w))) = proj (db w).
Proof.
  intros Hop. unfold dbCall.
  destruct (faults w) as [|[e|] rest]; simpl; try reflexivity;
    specialize (Hop (db w)); destruct (op (db w)) as [r d]; exact Hop.
Qed.

Lemma findByIdAndDelete_frame {B} (proj : Db -> B) id w :
  (forall d ms, proj (setMovies d ms) = proj d) ->
  proj (db (snd (Movie_findByIdAndDelete env id w))) = proj (db w).
Proof.
  intros Hp. apply dbCall_frame. intros d.
  destruct (castObjectId env id); simpl; auto.
Qed.

Lemma deleteMovie_frame {B} (proj : Db -> B) movieId w :
  (forall d ms, proj (setMovies d ms) = proj d) ->
  proj (db (snd (Admin.deleteMovie env movieId w))) = proj (db w).
Proof.
  intros Hp. unfold Admin.deleteMovie, tryCatch.
  destruct movieId as [id|]; [|reflexivity].
  destruct (JsStr.truthy (Some id)); [|reflexivity].
  unfold bind.
  pose proof (findByIdAndDelete_frame proj id w Hp) as H.
  destruct (Movie_findByIdAndDelete env id w) as [[[m|]|e] w']; exact H.
Qed.

(** What a successful delete did to the movies. *)
Lemma deleteMovie_ok movieId w msg m :
  fst (Admin.deleteMovie env movieId w)
    = Ok (mkResponse 200 (BMessageMovie msg m)) ->
  In m (movies (db w)) /\
  exists oid,
    Model.movieId m = oid /\
    movies (db (snd (Admin.deleteMovie env movieId w)))
    = removeFirst (fun x => N.eqb (Model.movieId x) oid) (movies (db w)).
Proof.
  unfold Admin.deleteMovie, tryCatch.
  destruct movieId as [id|]; [|discriminate].
  destruct (JsStr.truthy (Some id)); [|discriminate].
  unfold bind, Movie_findByIdAndDelete, dbCall.
  destruct (faults w) as [|[e|] rest]; simpl; try discriminate;
    (destruct (castObjectId env id) as [oid|]; simpl; [|discriminate];
     destruct (findMovie oid (movies (db w))) as [m'|] eqn:Hf; simpl;
       [|discriminate];
     intros H; injection H as _ <-;
     apply find_some in Hf; destruct Hf as [Hin Hid];
     apply N.eqb_eq in Hid;
     split; [exact Hin|exists oid; split; [exact Hid|reflexivity]]).
Qed.

Lemma findByIdAndUpdate_theaters id u w :
  theaterDocs (db (snd (Movie_findByIdAndUpdate env id u w)))
  = theaterDocs (db w).
Proof.
  apply (dbCall_frame theaterDocs). intros d.
  destruct (castObjectId env id) as [oid|]; [|reflexivity].
  destruct (updateError env u); [reflexivity|].
  destruct (findMovie oid (movies d)); reflexivity.
Qed.

Lemma updateMovie_theaters id u w :
  theaterDocs (db (snd (Admin.updateMovie env id u w)))
  = theaterDocs (db w).
Proof.
  unfold Admin.updateMovie, tryCatch.
  destruct u as [u|]; [|reflexivity].
  destruct (updateKeys u =? 0)%nat; [reflexivity|].
  unfold bind.
  pose proof (findByIdAndUpdate_theaters id u w) as H.
  destruct (Movie_findByIdAndUpdate env id u w) as [[[m|]|e] w']; exact H.
Qed.

End FrameFacts.

(** C9.  Whatever the request and the state, [deleteMovie] leaves every
    Theater document (and the bookings and users) as it was; when it answers
    200 with the deleted movie, that movie was in the collection, the Movie
    collection has lost exactly that document, and every theater still has
    the [movieTitles] and the [showtimes] it had, the deleted movie's title
    and the showtimes that refer to its id among them. *)
Theorem deleteMovie_leaves_theaters
        (env : Env.JsEnv) (movieId : option string) (w : Model.World) :
  let r := fst (Admin.deleteMovie env movieId w) in
  let w' := snd (Admin.deleteMovie env movieId w) in
  Model.theaterDocs (Model.db w') = Model.theaterDocs (Model.db w) /\
  Model.bookings (Model.db w') = Model.bookings (Model.db w) /\
  Model.users (Model.db w') = Model.users (Model.db w) /\
  forall msg m,
    r = Model.Ok (Http.mkResponse 200 (Http.BMessageMovie msg m)) ->
    In m (Model.movies (Model.db w)) /\
    Model.movies (Model.db w')
    = Mongoose.removeFirst (fun x => N.eqb (Model.movieId x) (Model.movieId m))
                           (Model.movies (Model.db w)) /\
    forall t, In t (Model.theaterDocs (Model.db w)) ->
      In t (Model.theaterDocs (Model.db w')) /\
      (In (Model.title m) (Model.movieTitles t) ->
       exists t', In t' (Model.theaterDocs (Model.db w')) /\
                  Model.theaterId t' = Model.theaterId t /\
                  In (Model.title m) (Model.movieTitles t')) /\
      (forall s, In s (Copies.heldByTheater m t) ->
       exists t', In t' (Model.theaterDocs (Model.db w')) /\
                  Model.theaterId t' = Model.theaterId t /\
                  In s (Copies.heldByTheater m t')).
Proof.
  cbv zeta.
  pose proof (deleteMovie_frame env Model.theaterDocs movieId w
                (fun _ _ => eq_refl)) as Ht.
  repeat split.
  - exact Ht.
  - apply (deleteMovie_frame env Model.bookings). reflexivity.
  - apply (deleteMovie_frame env Model.users). reflexivity.
  - destruct (deleteMovie_ok env movieId w msg m H) as [Hin _]. exact Hin.
  - destruct (deleteMovie_ok env movieId w msg m H) as [_ (oid & <- & Heq)].
    exact Heq.
  - rewrite Ht. exact H0.
  - intros Htitle. exists t. rewrite Ht. auto.
  - intros Hs. exists t. rewrite Ht. auto.
Qed.

Lemma deleteMovie_leaves_theaters_witness :
  Model.movies (Model.db Examples.world1) <> [] /\
  Model.movies (Model.db (snd (Admin.deleteMovie Demo.env
                  (Some Examples.dashavatarId) Examples.world1))) = [] /\
  Model.theaterDocs (Model.db (snd (Admin.deleteMovie Demo.env
                  (Some Examples.dashavatarId) Examples.world1)))
  = Model.theaterDocs (Model.db Examples.world1).
Proof.
  assert (Hrun : exists msg m,
             fst (Admin.deleteMovie Demo.env (Some Examples.dashavatarId)
                    Examples.world1)
             = Model.Ok (Http.mkResponse 200 (Http.BMessageMovie msg m)))
    by (vm_compute; eauto).
  destruct Hrun as (msg & m & Hrun).
  pose proof (deleteMovie_leaves_theaters Demo.env
                (Some Examples.dashavatarId) Examples.world1) as H.
  cbv zeta in H. destruct H as (Ht & _ & _ & H).
  destruct (H _ _ Hrun) as (_ & Hm & _).
  split; [vm_compute; discriminate|]. split; [|exact Ht].
  rewrite Hm.
  assert (Hid : Model.movieId m = 1%N)
    by (vm_compute in Hrun; injection Hrun as _ <-; reflexivity).
  rewrite Hid. vm_compute. reflexivity.
Defined.


Lemma world1_agrees : Copies.copiesAgree (Model.db Examples.world1).
Proof.
  intros m t Hm Ht.
  vm_compute in Hm. vm_compute in Ht.
  destruct Hm as [<-|[]]. destruct Ht as [<-|[]].
  vm_compute. reflexivity.
Qed.

(** C2.  Agreement of the embedded showtimes with the theaters' own is not
    preserved by every operation: [updateMovie] never changes a Theater
    document, and there is a state in which the copies agree (the state the
    admin's [createMovie] leaves) and an update, answered 200, after which
    they do not. *)
Theorem updateMovie_breaks_agreement :
  (forall env id u w,
     Model.theaterDocs (Model.db (snd (Admin.updateMovie env id u w)))
     = Model.theaterDocs (Model.db w)) /\
  exists env id u w,
    Copies.copiesAgree (Model.db w) /\
    (exists msg m, fst (Admin.updateMovie env id (Some u) w)
                   = Model.Ok (Http.mkResponse 200 (Http.BMessageMovie msg m))) /\
    ~ Copies.copiesAgree (Model.db (snd (Admin.updateMovie env id (Some u) w))).
Proof.
  split; [intros; apply updateMovie_theaters|].
  exists Demo.env, Examples.dashavatarId, Examples.clearShowtimes,
         Examples.world1.
  split; [exact world1_agrees|]. split.
  - vm_compute. eauto.
  - intros Hagree.
    set (d := Model.db (snd (Admin.updateMovie Demo.env Examples.dashavatarId
                               (Some Examples.clearShowtimes) Examples.world1)))
      in *.
    assert (Hm : exists m, In m (Model.movies d)) by (vm_compute; eauto).
    assert (Ht : exists t, In t (Model.theaterDocs d)) by (vm_compute; eauto).
    destruct Hm as [m Hm]. destruct Ht as [t Ht].
    specialize (Hagree m t Hm Ht).
    vm_compute in Hm. vm_compute in Ht.
    destruct Hm as [<-|[]]. destruct Ht as [<-|[]].
    vm_compute in Hagree. discriminate.
Qed.


(* ===================================================================== *)
(** ** The [isUpcoming] filter                                            *)
(* ===================================================================== *)

Section UpcomingFacts.
Import JsNum Model Env Mongoose Http.
Variable env : JsEnv.

Lemma matchAll_app fs gs m :
  matchAll env (fs ++ gs) m = matchAll env fs m && matchAll env gs m.
Proof. unfold matchAll. apply forallb_app. Qed.



(** The first driver call of [getMovies] carries the pipeline built from
    the filters with local midnight as the day's start. *)
Lemma getMovies_first_call q w :
  exists later,
    calls (snd (Public.getMovies env q w))
    = (calls w
       ++ CMovieAggregate
            (Public.buildPipeline env q
               (Public.buildFilters env q (startOfLocalDay env (now w))))
       :: later)%list.
Proof.
  unfold Public.getMovies, tryCatch, bind, newDateNow, Movie_aggregate,
    Movie_countDocuments, dbCall, ret.
  set (fs := Public.buildFilters env q (startOfLocalDay env (now w))).
  set (p := Public.buildPipeline env q fs).
  destruct (faults w) as [|[e|] rest]; simpl.
  - destruct (runPipeline env p (movies (db w))) as [ms|e]; simpl;
      [|exists []; reflexivity].
    destruct (Public.hasTitle q); simpl; [exists []; reflexivity|].
    destruct (selectMovies env fs (movies (db w))); simpl;
      eexists; rewrite <- app_assoc; reflexivity.
  - exists []. reflexivity.
  - destruct (runPipeline env p (movies (db w))) as [ms|e]; simpl;
      [|exists []; reflexivity].
    destruct (Public.hasTitle q); simpl; [exists []; reflexivity|].
    destruct rest as [|[e|] rest]; simpl;
      try (destruct (selectMovies env fs (movies (db w))); simpl);
      eexists; rewrite <- app_assoc; reflexivity.
Qed.


End UpcomingFacts.






(* ===================================================================== *)
(** ** Pagination of [GET /api/movies]                                    *)
(* ===================================================================== *)

Section PaginationFacts.
Import JsNum Model Env Mongoose Http.
Variable env : JsEnv.

Lemma toInteger_Some x z :
  toInteger x = Some z -> exists a, x = Fin a /\ (a == inject_Z z)%Q.
Proof.
  destruct x as [a| | |]; simpl; try discriminate.
  destruct (Qeq_bool a (inject_Z (Qfloor a))) eqn:E; [|discriminate].
  intros H; injection H as <-. exists a. split; [reflexivity|].
  now apply Qeq_bool_eq.
Qed.

Lemma runPipeline_app p1 p2 docs :
  runPipeline env (p1 ++ p2) docs
  = match runPipeline env p1 docs with
    | Ok docs' => runPipeline env p2 docs'
    | Throw e => Throw e
    end.
Proof.
  revert docs. induction p1 as [|s p1 IH]; intros docs; simpl; [reflexivity|].
  destruct (runStage env s docs); [apply IH|reflexivity].
Qed.

(** A pipeline that ends in [$skip n] and [$limit k] succeeds only with a
    non-negative integer [n] and a positive integer [k], and then returns
    the slice. *)
Lemma paginate_ok pre n k docs ms :
  runPipeline env (pre ++ [Skip n; Limit k]) docs = Ok ms ->
  exists docs' s l,
    runPipeline env pre docs = Ok docs' /\
    toInteger n = Some s /\ 0 <= s /\
    toInteger k = Some l /\ 1 <= l /\
    ms = firstn (Z.to_nat l) (skipn (Z.to_nat s) docs').
Proof.
  rewrite runPipeline_app.
  destruct (runPipeline env pre docs) as [docs'|e]; [|discriminate].
  simpl.
  destruct (toInteger n) as [s|]; [|discriminate].
  destruct ((0 <=? s) && (s <=? maxInt64)) eqn:Hs; [|discriminate].
  destruct (toInteger k) as [l|]; [|discriminate].
  destruct ((1 <=? l) && (l <=? maxInt64)) eqn:Hl; [|discriminate].
  intros H; injection H as <-.
  apply andb_prop in Hs, Hl. destruct Hs as [Hs _], Hl as [Hl _].
  exists docs', s, l. repeat split; auto; now apply Z.leb_le.
Qed.

(** What a driver call that returned did. *)
Lemma dbCall_ok {A} (c : DbCall) (op : Db -> Result A * Db) w a w' :
  dbCall c op w = (Ok a, w') ->
  op (db w) = (Ok a, db w').
Proof.
  unfold dbCall.
  destruct (faults w) as [|[e|] rest]; try discriminate;
    destruct (op (db w)) as [r d]; intros H; injection H as -> <-;
    reflexivity.
Qed.

(** The shape of every 200 answer of [getMovies]. *)
Lemma getMovies_ok q w resp :
  fst (Public.getMovies env q w) = Ok resp ->
  status resp = 200 ->
  let filters := Public.buildFilters env q (startOfLocalDay env (now w)) in
  exists ms total,
    runPipeline env (Public.buildPipeline env q filters) (movies (db w))
      = Ok ms /\
    body resp
      = BMovieList (List.length ms) total (Public.safePage env q)
          (Math_ceil (div (ofNat total) (Public.safeLimit env q))) ms /\
    (Public.hasTitle q = true -> total = List.length ms) /\
    (Public.hasTitle q = false ->
       total = List.length (filter (matchAll env filters) (movies (db w)))).
Proof.
  intros Hrun Hst filters.
  unfold Public.getMovies, tryCatch, bind, newDateNow in Hrun.
  fold filters in Hrun.
  destruct (Movie_aggregate env (Public.buildPipeline env q filters) w)
    as [[ms|e] w1] eqn:Hagg;
    [|simpl in Hrun; injection Hrun as <-; discriminate].
  pose proof (dbCall_ok _ _ _ _ _ Hagg) as Hop.
  injection Hop as Hms Hdb.
  destruct (Public.hasTitle q) eqn:Ht.
  - simpl in Hrun. injection Hrun as <-.
    exists ms, (List.length ms). repeat split; auto. discriminate.
  - destruct (Movie_countDocuments env filters w1) as [[total|e] w2] eqn:Hc;
      [|simpl in Hrun; injection Hrun as <-; discriminate].
    simpl in Hrun. injection Hrun as <-.
    pose proof (dbCall_ok _ _ _ _ _ Hc) as Hop.
    injection Hop as Hsel _. rewrite <- Hdb in Hsel.
    unfold selectMovies in Hsel.
    destruct (forallb (filterCompiles env) filters); [|discriminate].
    injection Hsel as <-.
    exists ms, (List.length (filter (matchAll env filters) (movies (db w)))).
    repeat split; auto. discriminate.
Qed.

Lemma length_le_leb (n : nat) (l : Z) a :
  (a == inject_Z l)%Q -> (n <= Z.to_nat l)%nat -> 1 <= l ->
  leb (ofNat n) (Fin a) = true.
Proof.
  intros Ha Hn Hl. unfold leb, ofNat, ofZ.
  apply Qle_bool_iff. rewrite Ha. rewrite <- Zle_Qle. lia.
Qed.

End PaginationFacts.


(** C1 as stated fails: with [?title=a&limit=2] and three movies that the
    search selects, the handler reports [total = 2], the length of the
    page, not the 3 movies that match. *)
Lemma getMovies_total_counterexample :
  fst (Public.getMovies Demo.env Examples.titleAndLimit Examples.threeMovies)
  = Model.Ok (Http.mkResponse 200
       (Http.BMovieList 2 2 (JsNum.Fin 1) (JsNum.Fin 1)
          [Examples.barbie; Examples.jawan])) /\
  Mongoose.runPipeline Demo.env
    (Public.selectionStages Examples.titleAndLimit
       (Public.buildFilters Demo.env Examples.titleAndLimit
          (Env.startOfLocalDay Demo.env (Model.now Examples.threeMovies))))
    (Model.movies (Model.db Examples.threeMovies))
  = Model.Ok [Examples.barbie; Examples.jawan; Examples.avatar] /\
  2%nat <> List.length [Examples.barbie; Examples.jawan; Examples.avatar].
Proof. vm_compute. repeat split. discriminate. Qed.

(** C1, amended.  For every request the handler takes
    [size = Math.min(Number(limit), 100)] and
    [page = Math.max(Number(page), 1)] and sends a pipeline that ends in
    [$skip (page - 1) * size] and [$limit size].  When it answers 200, the
    movies returned are the slice of at most [size] documents that follows
    the skipped ones among the documents selected by the search, filter and
    sort stages; [totalPages] is [Math.ceil(total / size)]; and [total] is
    the number of movies that match the filters, over all pages, when the
    request has no title, and the number of movies on the returned page
    when it has one. *)
Theorem getMovies_pagination
        (env : Env.JsEnv) (q : Public.MoviesQuery) (w : Model.World) :
  let size := Public.safeLimit env q in
  let page := Public.safePage env q in
  let filters :=
    Public.buildFilters env q (Env.startOfLocalDay env (Model.now w)) in
  size = JsNum.Math_min (Public.numberOr env 20 (Public.qLimit q))
                        (JsNum.ofZ 100) /\
  page = JsNum.Math_max (Public.numberOr env 1 (Public.qPage q))
                        (JsNum.ofZ 1) /\
  (exists later,
     Model.calls (snd (Public.getMovies env q w))
     = (Model.calls w
        ++ Model.CMovieAggregate
             (Public.selectionStages q filters
              ++ [Model.Skip (JsNum.mul (JsNum.sub page (JsNum.ofZ 1)) size);
                  Model.Limit size])
        :: later)%list) /\
  forall resp,
    fst (Public.getMovies env q w) = Model.Ok resp ->
    Http.status resp = 200 ->
    exists selected skipped sizeZ ms total,
      Mongoose.runPipeline env (Public.selectionStages q filters)
                           (Model.movies (Model.db w)) = Model.Ok selected /\
      JsNum.toInteger (JsNum.mul (JsNum.sub page (JsNum.ofZ 1)) size)
        = Some skipped /\ 0 <= skipped /\
      JsNum.toInteger size = Some sizeZ /\ 1 <= sizeZ /\
      ms = firstn (Z.to_nat sizeZ) (skipn (Z.to_nat skipped) selected) /\
      JsNum.leb (JsNum.ofNat (List.length ms)) size = true /\
      Http.body resp
        = Http.BMovieList (List.length ms) total page
            (JsNum.Math_ceil (JsNum.div (JsNum.ofNat total) size)) ms /\
      (Public.hasTitle q = false ->
         total = List.length (filter (Mongoose.matchAll env filters)
                                     (Model.movies (Model.db w)))) /\
      (Public.hasTitle q = true -> total = List.length ms).
Proof.
  cbv zeta. split; [reflexivity|]. split; [reflexivity|]. split.
  - exact (getMovies_first_call env q w).
  - intros resp Hrun Hst.
    destruct (getMovies_ok env q w resp Hrun Hst)
      as (ms & total & Hp & Hbody & Htitle & Hcount).
    unfold Public.buildPipeline in Hp.
    destruct (paginate_ok env _ _ _ _ _ Hp)
      as (selected & s & l & Hsel & Hs & Hs0 & Hl & Hl1 & Hms).
    exists selected, s, l, ms, total.
    repeat split; auto.
    destruct (toInteger_Some _ _ Hl) as (a & Ha & Hq).
    rewrite Ha. apply (length_le_leb _ l); auto.
    rewrite Hms, List.length_firstn. apply Nat.le_min_l.
Qed.

Lemma getMovies_pagination_witness :
  exists ms total,
    fst (Public.getMovies Demo.env
           (Examples.pageAndLimit (Some "2") (Some "2")) Examples.threeMovies)
    = Model.Ok (Http.mkResponse 200
         (Http.BMovieList (List.length ms) total (JsNum.Fin 2)
            (JsNum.Fin 2) ms)) /\
    total = 3%nat /\ (List.length ms <= 2)%nat.
Proof.
  pose proof (getMovies_pagination Demo.env
                (Examples.pageAndLimit (Some "2") (Some "2"))
                Examples.threeMovies) as H.
  cbv zeta in H. destruct H as (_ & _ & _ & H).
  assert (Hrun : fst (Public.getMovies Demo.env
                        (Examples.pageAndLimit (Some "2") (Some "2"))
                        Examples.threeMovies)
                 = Model.Ok (Http.mkResponse 200
                      (Http.BMovieList 1 3 (JsNum.Fin 2) (JsNum.Fin 2)
                                       [Examples.avatar])))
    by (vm_compute; reflexivity).
  specialize (H _ Hrun eq_refl).
  destruct H as (selected & s & l & ms & total & _ & _ & _ & Hl & _ & Hms
                 & _ & Hbody & Hcount & _).
  exists ms, total.
  assert (Ht : total = 3%nat) by (rewrite (Hcount eq_refl); reflexivity).
  assert (Hl2 : l = 2) by (vm_compute in Hl; congruence).
  subst l total. repeat split.
  - vm_compute in Hbody. vm_compute. rewrite Hbody. reflexivity.
  - rewrite Hms, List.length_firstn. apply Nat.le_min_l.
Defined.


Section ClampFacts.
Import JsNum Model Env Mongoose Http.
Variable env : JsEnv.

Lemma leb_refl_fin a : leb (Fin a) (Fin a) = true.
Proof. simpl. apply Qle_bool_iff, Qle_refl. Qed.

(** [Math.max(x, 1)] is at least 1 unless [x] is NaN, and NaN if it is. *)
Lemma safePage_at_least_one q :
  isNaN (Public.numberOr env 1 (Public.qPage q)) = false ->
  leb (ofZ 1) (Public.safePage env q) = true.
Proof.
  unfold Public.safePage, Math_max.
  destruct (Public.numberOr env 1 (Public.qPage q)) as [a| | |] eqn:E;
    try discriminate; intros _; simpl; try reflexivity.
  destruct (Qle_bool a (inject_Z 1)) eqn:Hle; simpl.
  - reflexivity.
  - apply Qle_bool_iff. apply Qlt_le_weak, Qnot_le_lt.
    intros H. apply Qle_bool_iff in H. unfold ofZ in *; congruence.
Qed.

Lemma safePage_nan q :
  isNaN (Public.numberOr env 1 (Public.qPage q)) = true ->
  Public.safePage env q = NaN.
Proof.
  unfold Public.safePage.
  destruct (Public.numberOr env 1 (Public.qPage q)); try discriminate.
  reflexivity.
Qed.

(** [Math.min(x, 100)] leaves every [x <= 100] as it is: zero and negative
    page sizes pass. *)
Lemma safeLimit_passes q :
  leb (Public.numberOr env 20 (Public.qLimit q)) (ofZ 100) = true ->
  Public.safeLimit env q = Public.numberOr env 20 (Public.qLimit q).
Proof.
  unfold Public.safeLimit, Math_min.
  destruct (Public.numberOr env 20 (Public.qLimit q)) as [a| | |];
    simpl; try discriminate; try reflexivity.
  intros ->. reflexivity.
Qed.

Lemma safeLimit_nan q :
  isNaN (Public.numberOr env 20 (Public.qLimit q)) = true ->
  Public.safeLimit env q = NaN.
Proof.
  unfold Public.safeLimit.
  destruct (Public.numberOr env 20 (Public.qLimit q)); try discriminate.
  reflexivity.
Qed.

Lemma safeLimit_at_most_100 q :
  isNaN (Public.numberOr env 20 (Public.qLimit q)) = false ->
  leb (Public.safeLimit env q) (ofZ 100) = true.
Proof.
  unfold Public.safeLimit, Math_min.
  destruct (Public.numberOr env 20 (Public.qLimit q)) as [a| | |] eqn:E;
    try discriminate; intros _; simpl; try reflexivity.
  destruct (Qle_bool a (inject_Z 100)) eqn:Hle; simpl; [exact Hle|].
  reflexivity.
Qed.

End ClampFacts.

(** Page sizes of 0, -5 and NaN reach the [$skip] and [$limit] stages. *)
Example limit_passes_through :
  Public.buildPipeline Demo.env (Examples.pageAndLimit None (Some "0")) []
  = [Model.Skip (JsNum.Fin 0); Model.Limit (JsNum.Fin 0)] /\
  Public.buildPipeline Demo.env
    (Examples.pageAndLimit (Some "3") (Some "-5")) []
  = [Model.Skip (JsNum.Fin (-10)); Model.Limit (JsNum.Fin (-5))] /\
  Public.buildPipeline Demo.env (Examples.pageAndLimit None (Some "many")) []
  = [Model.Skip JsNum.NaN; Model.Limit JsNum.NaN].
Proof. vm_compute. repeat split. Qed.

Section PageNaN.
Import JsNum Model Env Mongoose Http.
Variable env : JsEnv.

Lemma runPipeline_skip_nan pre k docs :
  exists e, runPipeline env (pre ++ [Skip NaN; Limit k]) docs = Throw e.
Proof.
  rewrite runPipeline_app.
  destruct (runPipeline env pre docs) as [docs'|e]; simpl; eauto.
Qed.

Lemma dbCall_throws {A} (c : DbCall) (op : Db -> Result A * Db) w :
  (forall d, exists e, fst (op d) = Throw e) ->
  exists e w', dbCall c op w = (Throw e, w').
Proof.
  intros Hop. unfold dbCall.
  destruct (faults w) as [|[e|] rest]; eauto;
    destruct (Hop (db w)) as [e He]; destruct (op (db w)) as [r d];
    simpl in He; subst r; eauto.
Qed.

Lemma getMovies_page_nan q w :
  isNaN (Public.numberOr env 1 (Public.qPage q)) = true ->
  fst (Public.getMovies env q w)
  = Ok (jsonError 500 "Server error while fetching movies").
Proof.
  intros Hnan.
  unfold Public.getMovies, tryCatch, bind, newDateNow.
  set (filters := Public.buildFilters env q (startOfLocalDay env (now w))).
  assert (Hthrow : exists e w',
             Movie_aggregate env (Public.buildPipeline env q filters) w
             = (Throw e, w')).
  { apply dbCall_throws. intros d. simpl.
    unfold Public.buildPipeline, Public.skipCount.
    rewrite (safePage_nan env q Hnan). apply runPipeline_skip_nan. }
  destruct Hthrow as (e & w' & ->). reflexivity.
Qed.

End PageNaN.

(** C10, at the failing requests: whenever [Number(page)] is NaN, as for
    [?page=abc], the page number is [Math.max(NaN, 1) = NaN], which is not
    at least 1; NaN reaches the [$skip] stage, the server rejects the
    pipeline, and the answer is 500 whatever the database holds. *)
Theorem getMovies_page_not_a_number
        (env : Env.JsEnv) (q : Public.MoviesQuery) (w : Model.World) :
  JsNum.isNaN (Public.numberOr env 1 (Public.qPage q)) = true ->
  Public.safePage env q = JsNum.NaN /\
  JsNum.leb (JsNum.ofZ 1) (Public.safePage env q) = false /\
  (exists stages,
     Public.buildPipeline env q
       (Public.buildFilters env q (Env.startOfLocalDay env (Model.now w)))
     = (stages ++ [Model.Skip JsNum.NaN; Model.Limit (Public.safeLimit env q)])%list) /\
  fst (Public.getMovies env q w)
  = Model.Ok (Http.jsonError 500 "Server error while fetching movies").
Proof.
  intros Hnan. pose proof (safePage_nan env q Hnan) as Hp.
  split; [exact Hp|]. split; [now rewrite Hp|]. split.
  - eexists. unfold Public.buildPipeline, Public.skipCount.
    rewrite Hp. reflexivity.
  - now apply getMovies_page_nan.
Qed.

Lemma getMovies_page_not_a_number_witness :
  Public.safePage Demo.env (Examples.pageAndLimit (Some "abc") None)
  = JsNum.NaN /\
  fst (Public.getMovies Demo.env (Examples.pageAndLimit (Some "abc") None)
                        Examples.threeMovies)
  = Model.Ok (Http.jsonError 500 "Server error while fetching movies").
Proof.
  pose proof (getMovies_page_not_a_number Demo.env
                (Examples.pageAndLimit (Some "abc") None)
                Examples.threeMovies eq_refl) as H.
  split; [exact (proj1 H)|exact (proj2 (proj2 (proj2 H)))].
Defined.


(* ===================================================================== *)
(** ** TMDB search with language fallback                                 *)
(* ===================================================================== *)

Section FallbackFacts.
Import Model Http.

Variable search : string -> string -> Tmdb.AxiosOutcome SearchData.



(** A language that yields, yields a non-empty list. *)
Lemma yields_nonempty o results :
  Tmdb.yields o = Some results -> results <> [].
Proof.
  destruct o as [st [| |[|r l]]|msg]; simpl; try discriminate.
  destruct (st =? 200); [|discriminate].
  intros H; injection H as <-. discriminate.
Qed.

Variable axios_get : string -> nat -> Retry.AxiosResult SearchData.
Variable TMDB_API_KEY : string.
Variable encodeURIComponent : string -> string.

Local Abbreviation found := (Seed.found axios_get TMDB_API_KEY encodeURIComponent).
Local Abbreviation searchFrom :=
  (Seed.searchFrom axios_get TMDB_API_KEY encodeURIComponent).

Local Abbreviation prefixSupported lang :=
  (JsStr.includes Seed.backendSupportedLanguages (JsStr.beforeChar "-" lang)).

(** Every language the script asks for has a backend-supported prefix. *)
Lemma prefixes_supported lang :
  In lang Seed.supportedTmdbLanguages -> prefixSupported lang = true.
Proof.
  intros H. repeat (destruct H as [<-|H]; [reflexivity|]). destruct H.
Qed.



End FallbackFacts.






(* ===================================================================== *)
(** ** Error handling of the handlers                                     *)
(* ===================================================================== *)

Section TrackedFacts.
Import Model Env Mongoose Http App.
Local Open Scope m_scope.

Lemma firstn_plus {A} (a b : nat) (l : list A) :
  firstn (a + b) l = (firstn a l ++ firstn b (skipn a l))%list.
Proof.
  revert l. induction a as [|a IH]; intros l; simpl; [reflexivity|].
  destruct l as [|x l]; simpl.
  - now rewrite firstn_nil.
  - now rewrite IH.
Qed.

Lemma skipn_plus {A} (a b : nat) (l : list A) :
  skipn b (skipn a l) = skipn (a + b) l.
Proof.
  revert l. induction a as [|a IH]; intros l; simpl; [reflexivity|].
  destruct l as [|x l]; simpl; [now rewrite skipn_nil|apply IH].
Qed.

Lemma tracked_ret {A} (a : A) : tracked (ret a).
Proof.
  intros w. exists []. simpl. rewrite app_nil_r. repeat split; auto.
Qed.

Lemma tracked_throw {A} (e : Exn) : tracked (@throw A e).
Proof.
  intros w. exists []. simpl. rewrite app_nil_r. repeat split; auto.
Qed.

Lemma tracked_newDateNow : tracked newDateNow.
Proof.
  intros w. exists []. simpl. rewrite app_nil_r. repeat split; auto.
Qed.

Lemma tracked_liftRand {A} (r : Js.Rand A) : tracked (liftRand r).
Proof.
  intros w. exists []. unfold liftRand.
  destruct (r (rng w)) as [a g]. simpl. rewrite app_nil_r.
  repeat split; auto.
Qed.

Lemma tracked_dbCall {A} (c : DbCall) (op : Db -> Result A * Db) :
  tracked (dbCall c op).
Proof.
  intros w. exists [c]. unfold dbCall.
  destruct (faults w) as [|[e|] rest]; simpl;
    try (destruct (op (db w)) as [r d]; simpl);
    repeat split; auto; discriminate.
Qed.

Lemma tracked_bind {A B} (m : M A) (k : A -> M B) :
  tracked m -> (forall a, tracked (k a)) -> tracked (bind m k).
Proof.
  intros Hm Hk w. unfold bind.
  destruct (Hm w) as (log1 & Hc1 & Hf1 & Hok1).
  destruct (m w) as [[a|e] w1]; simpl in *.
  - destruct (Hk a w1) as (log2 & Hc2 & Hf2 & Hok2).
    exists (log1 ++ log2)%list.
    rewrite Hc2, Hc1, Hf2, Hf1, <- app_assoc, List.length_app, skipn_plus.
    repeat split; auto.
    intros b Hb. rewrite firstn_plus, existsb_app.
    rewrite (Hok1 a eq_refl). simpl.
    rewrite Hf1 in Hok2. now apply (Hok2 b).
  - exists log1. repeat split; auto. discriminate.
Qed.

Lemma tracked_mapM {A B} (f : A -> M B) (xs : list A) :
  (forall x, tracked (f x)) -> tracked (mapM f xs).
Proof.
  intros Hf. induction xs as [|x xs IH]; simpl; [apply tracked_ret|].
  apply tracked_bind; [apply Hf|]. intros y.
  apply tracked_bind; [exact IH|]. intros ys. apply tracked_ret.
Qed.

Lemma tracked_forEach {A} (xs : list A) (body : A -> M unit) :
  (forall x, tracked (body x)) -> tracked (forEach xs body).
Proof.
  intros Hb. induction xs as [|x xs IH]; simpl; [apply tracked_ret|].
  apply tracked_bind; [apply Hb|]. intros _. exact IH.
Qed.

Lemma post_ret {A} (P : A -> Prop) (a : A) : P a -> post P (ret a).
Proof. intros Ha w a' w' H. injection H as <- _. exact Ha. Qed.

Lemma post_bind {A B} (P : B -> Prop) (m : M A) (k : A -> M B) :
  (forall a, post P (k a)) -> post P (bind m k).
Proof.
  intros Hk w b w' H. unfold bind in H.
  destruct (m w) as [[a|e] w1]; [|discriminate].
  exact (Hk a w1 b w' H).
Qed.

Lemma post_tryCatch {A} (P : A -> Prop) (body : M A) (h : Exn -> M A) :
  post P body -> (forall e, post P (h e)) -> post P (tryCatch body h).
Proof.
  intros Hb Hh w a w' H. unfold tryCatch in H.
  destruct (body w) as [[a0|e] w1] eqn:E.
  - injection H as <- <-. exact (Hb w a0 w1 E).
  - exact (Hh e w1 a w' H).
Qed.

(** A [try] whose [catch] only answers: the handler always responds; and if
    a driver call was made to fail, the response is the one of the
    [catch]. *)
Lemma tryCatch_responds (body : M Response) (onError : Exn -> Response) w :
  tracked body ->
  exists resp w',
    tryCatch body (fun e => ret (onError e)) w = (Ok resp, w') /\
    (faultHit w w' = true -> exists e, resp = onError e).
Proof.
  intros Ht. unfold tryCatch.
  destruct (Ht w) as (log & Hc & Hf & Hok).
  destruct (body w) as [[r|e] w1]; simpl in *.
  - exists r, w1. split; [reflexivity|].
    unfold faultHit, callsMade. rewrite Hc, List.length_app.
    replace (List.length (calls w) + List.length log - List.length (calls w))%nat
      with (List.length log) by lia.
    rewrite (Hok r eq_refl). discriminate.
  - exists (onError e), w1. split; [reflexivity|]. eauto.
Qed.

End TrackedFacts.


Section HandlerFacts.
Import Model Env Mongoose Http App.
Local Open Scope m_scope.
Variable env : JsEnv.
Context {E : Js.SortEngine}.

Ltac tracked_step :=
  match goal with
  | |- tracked (bind _ _) => apply tracked_bind; [|intros]
  | |- tracked (ret _) => apply tracked_ret
  | |- tracked (throw _) => apply tracked_throw
  | |- tracked (dbCall _ _) => apply tracked_dbCall
  | |- tracked (liftRand _) => apply tracked_liftRand
  | |- tracked newDateNow => apply tracked_newDateNow
  | |- tracked (mapM _ _) => apply tracked_mapM; intros
  | |- tracked (match ?x with _ => _ end) => destruct x
  end.

Ltac tracked_auto := repeat tracked_step.

Lemma tracked_linkTheaters dateStr movie valid embedded :
  tracked (Admin.linkTheaters env dateStr movie valid embedded).
Proof.
  revert embedded. induction valid as [|t valid IH]; intros embedded; simpl.
  - apply tracked_ret.
  - unfold Theater_findOne, Theater_updateOne. tracked_auto; apply IH.
Qed.

Lemma tracked_formatTheater releaseDate a :
  tracked (Admin.formatTheater env releaseDate a).
Proof.
  unfold Admin.formatTheater, Theater_findById, Admin.generateDefaultShowtimes.
  tracked_auto.
Qed.

Lemma tracked_isoOf d : tracked (Public.isoOf env d).
Proof. unfold Public.isoOf. tracked_auto. Qed.

Lemma tracked_viewTheater e : tracked (Public.viewTheater env e).
Proof.
  unfold Public.viewTheater, Public.viewShowtime.
  tracked_auto. apply tracked_isoOf.
Qed.

Ltac post_step :=
  match goal with
  | |- post _ (bind _ _) => apply post_bind; intros
  | |- post _ (ret _) => apply post_ret
  | |- post _ (match ?x with _ => _ end) => destruct x
  end.

Ltac wf := unfold wellFormed, jsonError; simpl; split; [tauto|]; intros; reflexivity || lia.

Ltac post_auto := repeat post_step; try wf.

Ltac unfold_ops :=
  unfold Movie_aggregate, Movie_countDocuments, Movie_findById,
    Movie_distinct_genre, Movie_create_save, Theater_find_limit,
    Theater_findById, Theater_findOne, Theater_updateOne, Movie_setEmbedded,
    Movie_findByIdAndUpdate, Movie_findByIdAndDelete, Movie_insertMany,
    Movie_find_sorted, Movie_count, Booking_find, Booking_count, User_find,
    User_count, Admin.notAdmin, Admin.allMoviesFilter.

Lemma responds_of_tracked (body : M Response) (onError : Exn -> Response)
      (code : Z) w :
  tracked body ->
  (forall e, status (onError e) = code /\
             isErrorBody (Http.body (onError e)) = true) ->
  exists resp w',
    tryCatch body (fun e => ret (onError e)) w = (Ok resp, w') /\
    (faultHit w w' = true ->
       status resp = code /\ isErrorBody (Http.body resp) = true).
Proof.
  intros Ht Hcatch.
  destruct (tryCatch_responds body onError w Ht) as (resp & w' & Hrun & Hf).
  exists resp, w'. split; [exact Hrun|].
  intros H. destruct (Hf H) as [e ->]. apply Hcatch.
Qed.

Lemma faultHit_same w : faultHit w w = false.
Proof. unfold faultHit, callsMade. now rewrite Nat.sub_diag. Qed.

Ltac by_try_catch :=
  apply responds_of_tracked;
  [ unfold_ops; tracked_auto;
    first [apply tracked_linkTheaters | apply tracked_formatTheater
          | apply tracked_viewTheater | apply tracked_isoOf | idtac]
  | intros; simpl; auto ].

Ltac answers_at_once :=
  eexists; eexists; split; [reflexivity|];
  rewrite faultHit_same; discriminate.

(** Every handler with a [try] responds, and with the status of its [catch]
    when a driver call was made to fail. *)
Lemma handle_responds c w :
  hasTryCatch c = true ->
  exists resp w',
    handle env c w = (Ok resp, w') /\
    (faultHit w w' = true ->
       status resp = catchStatus c /\ isErrorBody (body resp) = true).
Proof.
  intros Htry.
  destruct c; try discriminate; simpl handle; simpl catchStatus.
  - unfold Public.getMovies. by_try_catch.
  - unfold Public.getMovieById.
    destruct (negb (objectIdIsValid env id)); [answers_at_once|].
    by_try_catch.
  - unfold Public.getAllGenres. by_try_catch.
  - unfold Public.createMovie. by_try_catch.
  - unfold Admin.createMovie. by_try_catch.
  - unfold Admin.updateMovie. by_try_catch.
  - unfold Admin.deleteMovie. by_try_catch.
  - unfold Admin.bulkCreateMovies. by_try_catch.
  - unfold Admin.getAllBookings. by_try_catch.
  - unfold Admin.getAllUsers. by_try_catch.
  - unfold Admin.getAdminStats. by_try_catch.
  - unfold Admin.getMovieById. by_try_catch.
  - unfold Admin.getAllMovies. by_try_catch.
  - answers_at_once.
  - answers_at_once.
Qed.

Ltac post_try := apply post_tryCatch; [|intros; apply post_ret; wf].

(** Whatever a handler answers is a response of the API. *)
Lemma handle_wellFormed c : post wellFormed (handle env c).
Proof.
  destruct c; simpl handle.
  - unfold Public.getMovies. post_try. post_auto.
  - unfold Public.getMovieById.
    destruct (negb (objectIdIsValid env id)); [apply post_ret; wf|].
    post_try. post_auto.
  - unfold Public.getAllGenres. post_try. post_auto.
  - unfold Public.createMovie. post_try. post_auto.
  - unfold Admin.createMovie. post_try. post_auto.
  - unfold Admin.updateMovie. post_try. post_auto.
  - unfold Admin.deleteMovie. post_try. post_auto.
  - unfold Admin.bulkCreateMovies. post_try. post_auto.
  - unfold Admin.getAllBookings. post_try. post_auto.
  - unfold Admin.getAllUsers. post_try. post_auto.
  - unfold Admin.getAdminStats. post_try. post_auto.
  - unfold Admin.getMovieById. post_try. post_auto.
  - unfold Admin.getAllMovies. post_try. post_auto.
  - unfold Admin.pingAdmin. post_auto.
  - apply post_ret. unfold Tmdb.searchTmdbMovie.
    destruct (Tmdb.cleanQuery rawQuery) as [query|err]; [|wf].
    destruct (negb (JsStr.truthy query)); [wf|].
    destruct (negb (JsStr.truthy apiKey)); [wf|].
    destruct (Tmdb.searchLoop search _ Tmdb.supportedLanguages)
      as [asked [|r results]]; wf.
  - apply post_ret. unfold Tmdb.getTmdbMovieDetails.
    destruct (negb (JsStr.truthy apiKey)); [wf|].
    destruct (getDetails id) as [st [d|]|]; try wf;
      destruct (getCredits id); try wf;
      destruct (getVideos id); try wf;
      destruct (st =? 200); wf.
Qed.

Lemma public_invalid_id id w :
  objectIdIsValid env id = false ->
  Public.getMovieById env id w = (Ok (jsonError 400 "Invalid movie ID"), w).
Proof. intros H. unfold Public.getMovieById. now rewrite H. Qed.

Lemma unknown_id_404 c w id oid :
  lookedUpId env c = Some id ->
  castObjectId env id = Some oid ->
  findMovie oid (movies (db w)) = None ->
  hd None (faults w) = None ->
  fst (handle env c w) = Ok (jsonError 404 "Movie not found").
Proof.
  intros Hc Hcast Hfind Hhd.
  destruct c; simpl in Hc; try discriminate; simpl handle.
  - destruct (objectIdIsValid env id0) eqn:Hv; [|discriminate].
    injection Hc as ->.
    unfold Public.getMovieById, tryCatch, bind, Movie_findById, dbCall.
    rewrite Hv. simpl.
    destruct (faults w) as [|[e|] rest]; simpl in Hhd; try discriminate;
      simpl; rewrite Hcast, Hfind; reflexivity.
  - destruct updates as [u|]; [|discriminate].
    destruct (updateKeys u =? 0)%nat eqn:Hk; [discriminate|].
    destruct (updateError env u) eqn:Hu; [discriminate|].
    injection Hc as ->.
    unfold Admin.updateMovie, tryCatch, bind, Movie_findByIdAndUpdate, dbCall.
    rewrite Hk.
    destruct (faults w) as [|[e|] rest]; simpl in Hhd; try discriminate;
      simpl; rewrite Hcast, Hu, Hfind; reflexivity.
  - destruct id0 as [[|ch id0]|]; try discriminate.
    injection Hc as <-.
    unfold Admin.deleteMovie, tryCatch, bind, Movie_findByIdAndDelete, dbCall.
    cbn [JsStr.truthy].
    destruct (faults w) as [|[e|] rest]; simpl in Hhd; try discriminate;
      simpl; rewrite Hcast, Hfind; reflexivity.
  - injection Hc as ->.
    unfold Admin.getMovieById, tryCatch, bind, Movie_findById, dbCall.
    destruct (faults w) as [|[e|] rest]; simpl in Hhd; try discriminate;
      simpl; rewrite Hcast, Hfind; reflexivity.
Qed.

End HandlerFacts.

(** C7 as stated fails.  The admin's single-movie read does not check the
    id: for the malformed id [abc] it calls the driver and answers 500, not
    400.  And the public [createMovie] answers 400, not 500, when the
    database fails. *)
Lemma error_statuses_counterexample :
  Env.objectIdIsValid Demo.env "abc" = false /\
  @App.handle Demo.env Js.insertionEngine (App.AdminGetMovieById "abc") Examples.threeMovies
  = (Model.Ok (Http.jsonError 500 "Server error while fetching movie"),
     Model.mkWorld (Model.db Examples.threeMovies) [] [Model.CMovieFindById "abc"]
                   (Model.rng Examples.threeMovies)
                   (Model.now Examples.threeMovies)) /\
  fst (@App.handle Demo.env Js.insertionEngine (App.PublicCreateMovie Examples.matinee)
                  Examples.offline)
  = Model.Ok (Http.mkResponse 400
       (Http.BError "Failed to create movie" (Some "connection lost"))).
Proof. vm_compute. repeat split. Qed.

(** C7, amended.  Every handler except [pingAdmin], which has no [try],
    always answers: with one of the statuses 200, 201, 400, 403, 404, 500,
    and with a JSON error object whenever the status is 4xx or 5xx.  When a
    database call fails, the answer is the error of the handler's [catch]:
    status 500, and status 400 in the public [createMovie], whose [catch]
    answers 400 to every exception.  The public [getMovieById] answers 400
    to a syntactically invalid id without touching the database.  A
    well-formed id that no movie has is answered 404 by both
    [getMovieById], by [deleteMovie], and by [updateMovie] when the update
    itself passes the cast and the validators; an update that does not is
    answered 500 whether or not a movie has the id, since Mongoose casts and
    validates the update before it sends the query. *)
Theorem handlers_answer_errors
        (env : Env.JsEnv) (E : Js.SortEngine) (c : App.Call) (w : Model.World) :
  (forall user, c <> App.AdminPingAdmin user) ->
  exists resp w',
    App.handle env c w = (Model.Ok resp, w') /\
    In (Http.status resp) [200; 201; 400; 403; 404; 500] /\
    (400 <= Http.status resp -> Http.isErrorBody (Http.body resp) = true) /\
    (App.faultHit w w' = true ->
       Http.isErrorBody (Http.body resp) = true /\
       (forall b, c = App.PublicCreateMovie b -> Http.status resp = 400) /\
       ((forall b, c <> App.PublicCreateMovie b) -> Http.status resp = 500)) /\
    (forall id, c = App.PublicGetMovieById id ->
       Env.objectIdIsValid env id = false ->
       resp = Http.jsonError 400 "Invalid movie ID" /\ w' = w) /\
    (forall id oid,
       Env.castObjectId env id = Some oid ->
       Mongoose.findMovie oid (Model.movies (Model.db w)) = None ->
       hd None (Model.faults w) = None ->
       (c = App.PublicGetMovieById id ->
        Env.objectIdIsValid env id = true ->
        resp = Http.jsonError 404 "Movie not found") /\
       (c = App.AdminGetMovieById id ->
        resp = Http.jsonError 404 "Movie not found") /\
       (c = App.AdminDeleteMovie (Some id) -> id <> "" ->
        resp = Http.jsonError 404 "Movie not found") /\
       (forall u, c = App.AdminUpdateMovie id (Some u) ->
          Mongoose.updateKeys u <> 0%nat ->
          Mongoose.updateError env u = None ->
          resp = Http.jsonError 404 "Movie not found")) /\
    (forall id u e,
       c = App.AdminUpdateMovie id (Some u) ->
       Mongoose.updateKeys u <> 0%nat ->
       Mongoose.updateError env u = Some e ->
       hd None (Model.faults w) = None ->
       resp = Http.jsonError 500 "Server error while updating movie").
Proof.
  intros Hping.
  assert (Htry : App.hasTryCatch c = true).
  { destruct c; try reflexivity. now contradiction (Hping user). }
  destruct (handle_responds env c w Htry) as (resp & w' & Hrun & Hfault).
  exists resp, w'. split; [exact Hrun|].
  destruct (handle_wellFormed env c w resp w' Hrun) as [Hst Herr].
  split; [exact Hst|]. split; [exact Herr|].
  assert (H404 : forall id oid,
            Env.castObjectId env id = Some oid ->
            Mongoose.findMovie oid (Model.movies (Model.db w)) = None ->
            hd None (Model.faults w) = None ->
            App.lookedUpId env c = Some id ->
            resp = Http.jsonError 404 "Movie not found").
  { intros id oid Hcast Hfind Hhd Hc.
    pose proof (unknown_id_404 env c w id oid Hc Hcast Hfind Hhd) as H.
    rewrite Hrun in H. simpl in H. now injection H. }
  split; [|split; [|split]].
  - intros Hhit. destruct (Hfault Hhit) as [Hcatch Hbody].
    split; [exact Hbody|]. split.
    + intros b ->. exact Hcatch.
    + intros Hnot. rewrite Hcatch.
      destruct c; try reflexivity. now contradiction (Hnot reqBody).
  - intros id -> Hinvalid. simpl in Hrun.
    rewrite (public_invalid_id env id w Hinvalid) in Hrun.
    injection Hrun as <- <-. split; reflexivity.
  - intros id oid Hcast Hfind Hhd. split; [|split; [|split]].
    + intros -> Hvalid. apply (H404 id oid Hcast Hfind Hhd).
      cbn [App.lookedUpId]. now rewrite Hvalid.
    + intros ->. now apply (H404 id oid Hcast Hfind Hhd).
    + intros -> Hne. apply (H404 id oid Hcast Hfind Hhd).
      destruct id as [|ch id]; [contradiction|reflexivity].
    + intros u -> Hkeys Hvalid. apply (H404 id oid Hcast Hfind Hhd).
      cbn [App.lookedUpId].
      destruct (Mongoose.updateKeys u =? 0)%nat eqn:Hk;
        [apply Nat.eqb_eq in Hk; contradiction|].
      now rewrite Hvalid.
  - intros id u e -> Hkeys Hinvalid Hhd.
    cbn [App.handle] in Hrun.
    unfold Admin.updateMovie, Model.tryCatch, Model.bind,
      Mongoose.Movie_findByIdAndUpdate, Model.dbCall in Hrun.
    destruct (Mongoose.updateKeys u =? 0)%nat eqn:Hk;
      [apply Nat.eqb_eq in Hk; contradiction|].
    rewrite Hinvalid in Hrun.
    destruct (Model.faults w) as [|[f|] rest]; try discriminate;
      destruct (Env.castObjectId env id); cbn in Hrun;
      injection Hrun as <- _; reflexivity.
Qed.

Lemma handlers_answer_errors_witness :
  fst (@App.handle Demo.env Js.insertionEngine
         (App.AdminGetMovieById "000000000000000000000002") Examples.world1)
  = Model.Ok (Http.jsonError 404 "Movie not found").
Proof.
  destruct (handlers_answer_errors Demo.env Js.insertionEngine
              (App.AdminGetMovieById "000000000000000000000002")
              Examples.world1)
    as (resp & w' & Hrun & _ & _ & _ & _ & Hid & _).
  - intros user. discriminate.
  - rewrite Hrun. simpl. f_equal.
    exact (proj1 (proj2 (Hid "000000000000000000000002" 2%N
                           eq_refl eq_refl eq_refl)) eq_refl).
Defined.


(* ===================================================================== *)
(** ** The seed script's linking of movies and theaters                   *)
(* ===================================================================== *)

Section UpdateFirstFacts.
Context {A : Type}.
Variables (test : A -> bool) (f : A -> A).

Lemma updateFirst_other l x :
  In x l -> test x = false -> In x (Mongoose.updateFirst test f l).
Proof.
  induction l as [|y l IH]; simpl; [tauto|].
  intros [->|Hin] Hx.
  - rewrite Hx. now left.
  - destruct (test y); [now right|]. right. now apply IH.
Qed.

Lemma updateFirst_hit l t :
  find test l = Some t -> In (f t) (Mongoose.updateFirst test f l).
Proof.
  induction l as [|y l IH]; simpl; [discriminate|].
  destruct (test y).
  - intros H; injection H as ->. now left.
  - intros H. right. now apply IH.
Qed.

Lemma updateFirst_miss l :
  find test l = None -> Mongoose.updateFirst test f l = l.
Proof.
  induction l as [|y l IH]; simpl; [reflexivity|].
  destruct (test y); [discriminate|]. intros H. now rewrite IH.
Qed.

Lemma updateFirst_map {B} (key : A -> B) l :
  (forall y, key (f y) = key y) ->
  map key (Mongoose.updateFirst test f l) = map key l.
Proof.
  intros Hk. induction l as [|y l IH]; simpl; [reflexivity|].
  destruct (test y); simpl; [now rewrite Hk|now rewrite IH].
Qed.

Lemma updateFirst_find l t :
  find test l = Some t -> test (f t) = true ->
  find test (Mongoose.updateFirst test f l) = Some (f t).
Proof.
  induction l as [|y l IH]; simpl; [discriminate|].
  destruct (test y) eqn:Hy.
  - intros H Ht; injection H as ->. simpl. now rewrite Ht.
  - intros H Ht. simpl. rewrite Hy. now apply IH.
Qed.

End UpdateFirstFacts.

Section TheaterIds.
Import Model Mongoose.

(** With distinct ids, a theater is found by its id. *)
Lemma findTheater_In docs t :
  NoDup (map theaterId docs) -> In t docs ->
  findTheater (theaterId t) docs = Some t.
Proof.
  unfold findTheater.
  induction docs as [|y docs IH]; simpl; [tauto|].
  intros Hnd Hin. inversion Hnd as [|? ? Hnotin Hnd']; subst.
  destruct Hin as [->|Hin].
  - now rewrite N.eqb_refl.
  - destruct (N.eqb (theaterId y) (theaterId t)) eqn:E.
    + apply N.eqb_eq in E. exfalso. apply Hnotin. rewrite E.
      now apply in_map.
    + now apply IH.
Qed.

Lemma freshId_above ids id : In id ids -> (id < freshId ids)%N.
Proof.
  unfold freshId. induction ids as [|x ids IH]; simpl; [tauto|].
  intros [->|Hin]; [lia|]. specialize (IH Hin). lia.
Qed.

Lemma freshId_fresh ids : ~ In (freshId ids) ids.
Proof. intros H. apply freshId_above in H. lia. Qed.

End TheaterIds.


Section LinkSteps.
Import Model Env Mongoose Seed.
Local Open Scope m_scope.
Variable env : JsEnv.
Context {E : Js.SortEngine}.

Lemma same_id_same_theater docs x y :
  NoDup (map theaterId docs) -> In x docs -> In y docs ->
  theaterId x = theaterId y -> x = y.
Proof.
  intros Hnd Hx Hy Hid.
  pose proof (findTheater_In docs x Hnd Hx) as Fx.
  pose proof (findTheater_In docs y Hnd Hy) as Fy.
  rewrite Hid in Fx. congruence.
Qed.

(** [ensureTheater] from a healthy world: the theater returned is in the
    collection, reset, under the name asked for; theaters of other names
    are left alone. *)
Lemma ensureTheater_step name location w :
  healthy w ->
  exists th d',
    ensureTheater name location w
    = (Ok th, mkWorld d' [] (calls w ++ [CTheaterFindOneAndUpdate name])
                      (rng w) (now w)) /\
    th = mkTheater (theaterId th) name location [] [] (Some "Active") /\
    In th (theaterDocs d') /\
    NoDup (map theaterId (theaterDocs d')) /\
    movies d' = movies (db w) /\
    (forall x, In x (theaterDocs (db w)) -> theaterName x <> name ->
               In x (theaterDocs d')).
Proof.
  intros [Hf Hnd].
  unfold ensureTheater, Theater_findOneAndUpdate_upsert, dbCall.
  rewrite Hf.
  destruct (find (fun t => String.eqb (theaterName t) name)
                 (theaterDocs (db w))) as [t|] eqn:Hfind.
  - pose proof (find_some _ _ Hfind) as [Hin Hname].
    apply String.eqb_eq in Hname.
    eexists; eexists. split; [reflexivity|]. simpl.
    split; [unfold resetTheater; simpl; now rewrite Hname|].
    split; [now apply updateFirst_hit|].
    split; [now rewrite updateFirst_map|].
    split; [reflexivity|].
    intros x Hx Hne. apply updateFirst_other; [exact Hx|].
    now apply String.eqb_neq.
  - eexists; eexists. split; [reflexivity|]. simpl.
    split; [reflexivity|].
    split; [apply in_or_app; right; now left|].
    split.
    { rewrite map_app. simpl. apply NoDup_app; [exact Hnd|repeat constructor; simpl; tauto|].
      intros a Ha [<-|[]]. now apply freshId_fresh in Ha. }
    split; [reflexivity|].
    intros x Hx _. apply in_or_app. now left.
Qed.

(** The showtimes built for a list of hours. *)
Lemma mapM_showtimes dateStr mid (hours : list string) w :
  exists sts g',
    mapM (fun time =>
            blocked <- liftRand generateBlockedSeats ;;
            ret (mkShowtime
                   (dateOfString env (dateStr ++ "T" ++ time ++ ":00"))
                   "Screen 1" 100 blocked (Some mid)))
         hours w
    = (Ok sts, mkWorld (db w) (faults w) (calls w) g' (now w)) /\
    Forall2 (showtimeAt env dateStr mid) hours sts.
Proof.
  revert w. induction hours as [|time hours IH]; intros w; cbn [mapM].
  - exists [], (rng w). split; [destruct w; reflexivity|constructor].
  - unfold bind at 1. unfold bind at 1. unfold liftRand at 1.
    destruct (generateBlockedSeats (rng w)) as [blocked g1].
    cbn [ret]. unfold bind at 1.
    destruct (IH (mkWorld (db w) (faults w) (calls w) g1 (now w)))
      as (sts & g' & Hrun & Hsts).
    cbn [db faults calls now] in Hrun. rewrite Hrun.
    eexists; eexists. split; [reflexivity|].
    constructor; [|exact Hsts]. repeat split.
Qed.

Lemma makeShowtimes_step dateStr mid w :
  exists sts g',
    makeShowtimes env dateStr mid w
    = (Ok sts, mkWorld (db w) (faults w) (calls w) g' (now w)) /\
    fourShowtimes env dateStr mid sts.
Proof. apply mapM_showtimes. Qed.

(** Showtimes at valid dates pass the cast of the update. *)
Lemma showtimes_valid dateStr mid (hours : list string) sts :
  Forall2 (showtimeAt env dateStr mid) hours sts ->
  forallb (fun time =>
             Public.isValidDate
               (dateOfString env (dateStr ++ "T" ++ time ++ ":00")))
          hours = true ->
  showtimesValid sts = true.
Proof.
  induction 1 as [|time s hours sts Hs _ IH]; simpl; [reflexivity|].
  intros Hv. apply andb_prop in Hv. destruct Hv as [Hv Hrest].
  destruct Hs as (-> & _). unfold Public.isValidDate in Hv.
  destruct (dateOfString env _); [|discriminate]. simpl. now apply IH.
Qed.

(** [updateOne] on a healthy world, for a theater that is there. *)
Lemma updateOne_step th sts titleToAdd d cs g t :
  NoDup (map theaterId (theaterDocs d)) ->
  In th (theaterDocs d) ->
  showtimesValid sts = true ->
  exists d',
    Theater_updateOne (theaterId th) sts titleToAdd (mkWorld d [] cs g t)
    = (Ok tt, mkWorld d' []
                (cs ++ [CTheaterUpdateOne (theaterId th) sts titleToAdd]) g t) /\
    In (pushShowtimes sts titleToAdd th) (theaterDocs d') /\
    NoDup (map theaterId (theaterDocs d')) /\
    movies d' = movies d /\
    (forall x, In x (theaterDocs d) -> theaterId x <> theaterId th ->
               In x (theaterDocs d')).
Proof.
  intros Hnd Hin Hv. unfold Theater_updateOne, dbCall. simpl.
  rewrite Hv. eexists. split; [reflexivity|]. simpl.
  split.
  { apply updateFirst_hit. apply (findTheater_In _ _ Hnd Hin). }
  split; [now rewrite updateFirst_map|].
  split; [reflexivity|].
  intros x Hx Hne. apply updateFirst_other; [exact Hx|].
  now apply N.eqb_neq.
Qed.

(** One iteration of the inner loop, from a healthy world. *)
Lemma linkTheater_step dateStr movie name location w :
  healthy w ->
  datesValid env dateStr = true ->
  exists x w',
    linkTheater env dateStr movie (name, location) w = (Ok x, w') /\
    healthy w' /\
    etName (snd x) = name /\ etLocation (snd x) = location /\
    fourShowtimes env dateStr (movieId movie) (etShowtimes (snd x)) /\
    In (linkedTheater movie x) (theaterDocs (db w')) /\
    calls w' = (calls w ++ linkCalls movie x)%list /\
    movies (db w') = movies (db w) /\
    now w' = now w /\
    (forall y, In y (theaterDocs (db w)) -> theaterName y <> name ->
               In y (theaterDocs (db w'))).
Proof.
  intros Hw Hdates.
  destruct (ensureTheater_step name location w Hw)
    as (th & d1 & Hens & Hth & Hin1 & Hnd1 & Hmov1 & Hframe1).
  unfold linkTheater, bind. rewrite Hens.
  destruct (makeShowtimes_step dateStr (movieId movie)
              (mkWorld d1 [] (calls w ++ [CTheaterFindOneAndUpdate name])
                       (rng w) (now w)))
    as (sts & g' & Hmk & Hsts).
  rewrite Hmk. simpl.
  pose proof (showtimes_valid _ _ _ _ Hsts Hdates) as Hvalid.
  destruct (updateOne_step th sts (title movie) d1
              (calls w ++ [CTheaterFindOneAndUpdate name]) g' (now w)
              Hnd1 Hin1 Hvalid)
    as (d2 & Hupd & Hin2 & Hnd2 & Hmov2 & Hframe2).
  rewrite Hupd. simpl.
  eexists; eexists. split; [reflexivity|]. simpl.
  split; [split; [reflexivity|exact Hnd2]|].
  assert (Hname : theaterName th = name) by (rewrite Hth; reflexivity).
  assert (Hloc : theaterLocation th = location) by (rewrite Hth; reflexivity).
  split; [exact Hname|]. split; [exact Hloc|]. split; [exact Hsts|].
  split.
  { unfold linkedTheater. simpl. rewrite Hname, Hloc.
    rewrite Hth in Hin2. exact Hin2. }
  split.
  { unfold linkCalls. simpl. rewrite Hname, <- app_assoc. reflexivity. }
  split; [congruence|]. split; [reflexivity|].
  intros y Hy Hne. apply Hframe2; [now apply Hframe1|].
  intros Hid. apply Hne.
  rewrite (same_id_same_theater _ y th Hnd1 (Hframe1 y Hy Hne) Hin1 Hid).
  exact Hname.
Qed.

Lemma fourShowtimes_valid dateStr movie (linked : list (ObjectId * EmbeddedTheater)) :
  datesValid env dateStr = true ->
  Forall (fun x => fourShowtimes env dateStr (movieId movie)
                                 (etShowtimes (snd x))) linked ->
  embeddedValid (map snd linked) = true.
Proof.
  intros Hd. induction 1 as [|x linked Hx _ IH]; simpl; [reflexivity|].
  rewrite IH, andb_true_r. exact (showtimes_valid _ _ _ _ Hx Hd).
Qed.

(** The inner loop over a list of theaters with distinct names. *)
Lemma linkAll_step dateStr movie (nls : list (string * string)) : forall w,
  healthy w ->
  datesValid env dateStr = true ->
  NoDup (map fst nls) ->
  exists linked w',
    mapM (linkTheater env dateStr movie) nls w = (Ok linked, w') /\
    healthy w' /\
    map (fun x => (etName (snd x), etLocation (snd x))) linked = nls /\
    Forall (fun x => fourShowtimes env dateStr (movieId movie)
                                   (etShowtimes (snd x))) linked /\
    Forall (fun x => In (linkedTheater movie x) (theaterDocs (db w'))) linked /\
    calls w' = (calls w ++ flat_map (linkCalls movie) linked)%list /\
    movies (db w') = movies (db w) /\
    now w' = now w /\
    (forall y, In y (theaterDocs (db w)) ->
               ~ In (theaterName y) (map fst nls) ->
               In y (theaterDocs (db w'))).
Proof.
  induction nls as [|[name location] nls IH]; intros w Hw Hd Hnd.
  - exists [], w. cbn [mapM ret map flat_map].
    rewrite app_nil_r. repeat split; auto; apply Hw.
  - inversion Hnd as [|? ? Hnotin Hnd']; subst.
    destruct (linkTheater_step dateStr movie name location w Hw Hd)
      as (x & w1 & Hrun1 & Hw1 & Hn & Hl & Hsts & Hin & Hcalls1 & Hmov1
          & Hnow1 & Hframe1).
    destruct (IH w1 Hw1 Hd Hnd')
      as (linked & w' & Hrun & Hw' & Hnames & Hall & HinAll & Hcalls & Hmov
          & Hnow & Hframe).
    exists (x :: linked), w'.
    cbn [mapM]. unfold bind at 1. rewrite Hrun1.
    unfold bind at 1. rewrite Hrun. cbn [ret].
    split; [reflexivity|]. split; [exact Hw'|].
    split; [cbn [map]; now rewrite Hn, Hl, Hnames|].
    split; [now constructor|].
    split.
    { constructor; [|exact HinAll].
      apply Hframe; [exact Hin|]. simpl. now rewrite Hn. }
    split.
    { cbn [flat_map]. rewrite Hcalls, Hcalls1, <- app_assoc. reflexivity. }
    split; [congruence|]. split; [congruence|].
    intros y Hy Hnot. apply Hframe.
    + apply Hframe1; [exact Hy|]. intros Heq. apply Hnot. now left.
    + intros Hin'. apply Hnot. now right.
Qed.

Lemma theaterList_names_distinct : NoDup (map fst theaterList).
Proof.
  repeat (constructor;
          [simpl; intros H;
           repeat (destruct H as [H|H]; [discriminate|]); exact H|]).
  constructor.
Qed.

(** One iteration of the outer loop, from a healthy world. *)
Lemma linkMovie_step dateStr movie w :
  healthy w ->
  datesValid env dateStr = true ->
  exists linked w',
    linkMovie env dateStr movie w = (Ok tt, w') /\
    healthy w' /\
    now w' = now w /\
    map (fun x => (etName (snd x), etLocation (snd x))) linked = theaterList /\
    Forall (fun x => fourShowtimes env dateStr (movieId movie)
                                   (etShowtimes (snd x))) linked /\
    Forall (fun x => In (linkedTheater movie x) (theaterDocs (db w'))) linked /\
    calls w'
    = (calls w ++ flat_map (linkCalls movie) linked
       ++ [CMovieSetEmbedded (movieId movie) (Some (map fst linked))
                             (map snd linked)])%list /\
    (forall m, findMovie (movieId movie) (movies (db w)) = Some m ->
       findMovie (movieId movie) (movies (db w'))
       = Some (setEmbedded (Some (map fst linked)) (map snd linked) m)).
Proof.
  intros Hw Hd.
  destruct (linkAll_step dateStr movie theaterList w Hw Hd
              theaterList_names_distinct)
    as (linked & w1 & Hrun & [Hf1 Hnd1] & Hnames & Hall & HinAll & Hcalls
        & Hmov & Hnow & _).
  exists linked.
  unfold linkMovie, bind. rewrite Hrun.
  unfold Movie_setEmbedded, dbCall. rewrite Hf1.
  rewrite (fourShowtimes_valid dateStr movie linked Hd Hall).
  eexists. split; [reflexivity|]. simpl.
  split; [split; [reflexivity|exact Hnd1]|].
  split; [exact Hnow|]. split; [exact Hnames|]. split; [exact Hall|].
  split; [exact HinAll|].
  split; [rewrite Hcalls, <- app_assoc; reflexivity|].
  intros m Hm. rewrite Hmov. unfold findMovie in *.
  apply updateFirst_find; [exact Hm|].
  apply find_some in Hm. destruct Hm as [_ Hm]. exact Hm.
Qed.

(** The outer loop keeps the world healthy and never throws. *)
Lemma forEach_linkMovie dateStr (ms : list Movie) : forall w,
  healthy w ->
  datesValid env dateStr = true ->
  exists w',
    forEach ms (linkMovie env dateStr) w = (Ok tt, w') /\ healthy w'.
Proof.
  induction ms as [|m ms IH]; intros w Hw Hd; cbn [forEach].
  - exists w. split; [reflexivity|exact Hw].
  - destruct (linkMovie_step dateStr m w Hw Hd)
      as (linked & w1 & Hrun & Hw1 & _).
    unfold bind. rewrite Hrun. now apply IH.
Qed.

End LinkSteps.


Section LinkMovies.
Import Model Env Mongoose Seed.
Variable env : JsEnv.
Context {E : Js.SortEngine}.

Lemma forEach_app {A} (xs ys : list A) (body : A -> M unit) w :
  forEach (xs ++ ys) body w
  = match forEach xs body w with
    | (Ok _, w') => forEach ys body w'
    | (Throw e, w') => (Throw e, w')
    end.
Proof.
  revert w. induction xs as [|x xs IH]; intros w; cbn [forEach app].
  - reflexivity.
  - unfold bind. destruct (body x w) as [[[]|e] w1]; [apply IH|reflexivity].
Qed.

Lemma linkMovies_unfold ms w :
  linkMovies env ms w = forEach ms (linkMovie env (dateStrOf env w)) w.
Proof. reflexivity. Qed.

Lemma worldAfter_healthy pre w :
  healthy w -> datesValid env (dateStrOf env w) = true ->
  forEach pre (linkMovie env (dateStrOf env w)) w
  = (Ok tt, worldAfter env pre w) /\ healthy (worldAfter env pre w).
Proof.
  intros Hw Hd. unfold worldAfter.
  destruct (forEach_linkMovie env (dateStrOf env w) pre w Hw Hd)
    as (w' & Hrun & Hw').
  rewrite Hrun. split; [reflexivity|exact Hw'].
Qed.

End LinkMovies.

Section LinkFrames.
Import Model Env Mongoose Seed.
Variable env : JsEnv.
Context {E : Js.SortEngine}.

(** An update of the first document selected by one test is not seen by a
    search with a test that selects other documents. *)
Lemma find_updateFirst_other {A} (test test' : A -> bool) (f : A -> A) l :
  (forall x, test x = true -> test' x = false) ->
  (forall x, test' (f x) = test' x) ->
  find test' (updateFirst test f l) = find test' l.
Proof.
  intros Hdis Hf. induction l as [|y l IH]; cbn [updateFirst find];
    [reflexivity|].
  destruct (test y) eqn:Hy; cbn [find].
  - now rewrite Hf, (Hdis y Hy).
  - now rewrite IH.
Qed.

(** An iteration of the outer loop leaves the other movies' documents
    alone. *)
Lemma linkMovie_other dateStr movie w id :
  healthy w ->
  datesValid env dateStr = true ->
  id <> movieId movie ->
  findMovie id (movies (db (snd (linkMovie env dateStr movie w))))
  = findMovie id (movies (db w)).
Proof.
  intros Hw Hd Hne.
  destruct (linkAll_step env dateStr movie theaterList w Hw Hd
              theaterList_names_distinct)
    as (linked & w1 & Hrun & [Hf1 Hnd1] & _ & Hall & _ & _ & Hmov & _).
  unfold linkMovie, bind. rewrite Hrun.
  unfold Movie_setEmbedded, dbCall. rewrite Hf1.
  rewrite (fourShowtimes_valid env dateStr movie linked Hd Hall).
  cbn [snd db movies setMovies]. rewrite Hmov. unfold findMovie.
  apply find_updateFirst_other; [|reflexivity].
  intros x Hx. apply N.eqb_eq in Hx. apply N.eqb_neq. congruence.
Qed.

Lemma forEach_linkMovie_other dateStr (ms : list Movie) id : forall w,
  healthy w ->
  datesValid env dateStr = true ->
  ~ In id (map movieId ms) ->
  findMovie id (movies (db (snd (forEach ms (linkMovie env dateStr) w))))
  = findMovie id (movies (db w)).
Proof.
  induction ms as [|m ms IH]; intros w Hw Hd Hnot; cbn [forEach];
    [reflexivity|].
  destruct (linkMovie_step env dateStr m w Hw Hd)
    as (linked & w1 & Hrun & Hw1 & _).
  unfold bind. rewrite Hrun.
  rewrite (IH w1 Hw1 Hd); [|intros Hin; apply Hnot; now right].
  replace w1 with (snd (linkMovie env dateStr m w)) by now rewrite Hrun.
  apply linkMovie_other; auto.
  intros Heq. apply Hnot. left. now symmetry.
Qed.

(** The four showtimes of a movie, written out. *)
Lemma fourShowtimes_written dateStr mid sts :
  fourShowtimes env dateStr mid sts ->
  map startTime sts
  = map (fun clock => dateOfString env (dateStr ++ clock))
        ["T10:00:00"; "T13:30:00"; "T17:00:00"; "T21:30:00"] /\
  Forall (fun s => screen s = "Screen 1" /\ availableSeats s = 100 /\
                   showMovie s = Some mid) sts.
Proof.
  unfold fourShowtimes, times. intros H.
  repeat match goal with
         | H : Forall2 _ (_ :: _) _ |- _ => inversion H; subst; clear H
         | H : Forall2 _ [] _ |- _ => inversion H; subst; clear H
         end.
  repeat match goal with
         | H : showtimeAt _ _ _ _ _ |- _ =>
             destruct H as (? & ? & ? & ?)
         end.
  split.
  - cbn [map].
    repeat match goal with
           | H : startTime _ = _ |- _ => rewrite H; clear H
           end.
    reflexivity.
  - repeat (constructor; [auto|]). constructor.
Qed.

End LinkFrames.

Lemma seedWorld_healthy : Seed.healthy Examples.seedWorld.
Proof.
  split; [reflexivity|]. simpl. constructor; [simpl; tauto|constructor].
Qed.

(** C6 fails for all but the last movie.  With two inserted movies, Barbie
    (id 11) and Jawan (id 12), and the theater of the first entry of the
    list in the collection, the script ends with the one theater of that
    name holding four showtimes, all of Jawan, and Jawan's title alone,
    while Barbie's own document lists four showtimes in each of eleven
    theaters. *)
Lemma seed_links_counterexample :
  List.length (filter Examples.isKurla
                 (Model.theaterDocs (Model.db Examples.seededWorld)))
  = 1%nat /\
  option_map Model.movieTitles
    (find Examples.isKurla (Model.theaterDocs (Model.db Examples.seededWorld)))
  = Some ["Jawan"] /\
  option_map (fun t => map Model.showMovie (Model.showtimes t))
    (find Examples.isKurla (Model.theaterDocs (Model.db Examples.seededWorld)))
  = Some [Some 12%N; Some 12%N; Some 12%N; Some 12%N] /\
  option_map Model.title
    (Mongoose.findMovie 11%N (Model.movies (Model.db Examples.seededWorld)))
  = Some "Barbie" /\
  option_map (fun m => map (fun e => List.length (Model.etShowtimes e))
                           (Model.embeddedTheaters m))
    (Mongoose.findMovie 11%N (Model.movies (Model.db Examples.seededWorld)))
  = Some (repeat 4%nat 11).
Proof. vm_compute. repeat split. Qed.

(** C6, the part that holds and the part that fails.  From a database that
    answers (and whose theaters have distinct ids), on a day whose four
    start times are dates, and for inserted movies with distinct ids, the
    linking never throws.  The day is the date part of the UTC text of the
    instant of the run ([toISOString]); a start time is that text followed
    by [T10:00:00], [T13:30:00], [T17:00:00] or [T21:30:00], read by
    [new Date], that is, as local time.

    For every inserted movie, its iteration produces one entry for each of
    the 11 theaters of the fixed list, in the list's order, with exactly
    these four showtimes, each with screen 'Screen 1', 100 available seats
    and the movie's id; for each theater it resets the theater
    ([ensureTheater]) and sends one update that pushes these showtimes and
    adds the movie's title; right after the iteration the Theater document
    holds exactly these showtimes and this title; and when the script ends
    the Movie document, if the collection had it, holds these entries as
    [embeddedTheaters] and the theaters' ids as [theaters].

    But since every iteration resets the theaters, when the script ends
    each theater of the list holds the four showtimes of the last movie
    only, and the last movie's title only: what was pushed for the movies
    before it is gone, while their documents still list it. *)
Theorem seed_links_last_movie_only
        (env : Env.JsEnv) (E : Js.SortEngine)
        (earlier : list Model.Movie) (last : Model.Movie) (w : Model.World) :
  Seed.healthy w ->
  Seed.datesValid env (Seed.dateStrOf env w) = true ->
  NoDup (map Model.movieId (earlier ++ [last])) ->
  let day := JsStr.beforeChar "T" (Env.toISOString env (Model.now w)) in
  let hours :=
    map (fun clock => Env.dateOfString env (day ++ clock))
        ["T10:00:00"; "T13:30:00"; "T17:00:00"; "T21:30:00"] in
  let showtimesOf (movie : Model.Movie) (sts : list Model.Showtime) :=
    map Model.startTime sts = hours /\
    Forall (fun s => Model.screen s = "Screen 1" /\
                     Model.availableSeats s = 100 /\
                     Model.showMovie s = Some (Model.movieId movie)) sts in
  let theaters :=
    [("PVR Phoenix Kurla", "Mumbai");
     ("INOX R City", "Ghatkopar, Mumbai");
     ("NY Cinemas Mulund", "Mulund, Mumbai");
     ("R Mall Mulund", "Mulund, Mumbai");
     ("Cinépolis - Korum Mall", "Thane");
     ("INOX - Viviana Mall", "Thane");
     ("PVR - Lake City Mall", "Thane");
     ("INOX - Raghuleela Mall", "Navi Mumbai");
     ("Cinépolis - Nexus Seawoods Mall", "Navi Mumbai");
     ("Miraj Cinemas - Panvel", "Navi Mumbai");
     ("PVR - Orion Mall", "Navi Mumbai")] in
  let w' := snd (Seed.linkMovies env (earlier ++ [last]) w) in
  fst (Seed.linkMovies env (earlier ++ [last]) w) = Model.Ok tt /\
  (forall pre movie post,
     (earlier ++ [last])%list = (pre ++ movie :: post)%list ->
     let w0 := Seed.worldAfter env pre w in
     let w1 := snd (Seed.linkMovie env day movie w0) in
     exists linked : list (Model.ObjectId * Model.EmbeddedTheater),
       map (fun x => (Model.etName (snd x), Model.etLocation (snd x))) linked
       = theaters /\
       Forall (fun x => showtimesOf movie (Model.etShowtimes (snd x)))
              linked /\
       Model.calls w1
       = (Model.calls w0
          ++ flat_map
               (fun x =>
                  [Model.CTheaterFindOneAndUpdate (Model.etName (snd x));
                   Model.CTheaterUpdateOne (fst x)
                     (Model.etShowtimes (snd x)) (Model.title movie)])
               linked
          ++ [Model.CMovieSetEmbedded (Model.movieId movie)
                (Some (map fst linked)) (map snd linked)])%list /\
       Forall (fun x =>
                 exists t,
                   In t (Model.theaterDocs (Model.db w1)) /\
                   Model.theaterId t = fst x /\
                   Model.theaterName t = Model.etName (snd x) /\
                   Model.showtimes t = Model.etShowtimes (snd x) /\
                   Model.movieTitles t = [Model.title movie])
              linked /\
       forall stored,
         Mongoose.findMovie (Model.movieId movie)
                            (Model.movies (Model.db w)) = Some stored ->
         Mongoose.findMovie (Model.movieId movie)
                            (Model.movies (Model.db w'))
         = Some (Mongoose.setEmbedded (Some (map fst linked))
                                      (map snd linked) stored)) /\
  (forall name location,
     In (name, location) theaters ->
     exists t,
       In t (Model.theaterDocs (Model.db w')) /\
       Model.theaterName t = name /\ Model.theaterLocation t = location /\
       showtimesOf last (Model.showtimes t) /\
       Model.movieTitles t = [Model.title last]).
Proof.
  intros Hw Hd Hids. cbv zeta.
  change (JsStr.beforeChar "T" (Env.toISOString env (Model.now w)))
    with (Seed.dateStrOf env w).
  split; [|split].
  - rewrite linkMovies_unfold.
    destruct (forEach_linkMovie env (Seed.dateStrOf env w)
                (earlier ++ [last]) w Hw Hd) as (w1 & Hrun & _).
    now rewrite Hrun.
  - intros pre movie post Hlist.
    destruct (worldAfter_healthy env pre w Hw Hd) as [Hpre Hw0].
    destruct (linkMovie_step env (Seed.dateStrOf env w) movie
                (Seed.worldAfter env pre w) Hw0 Hd)
      as (linked & w1 & Hrun & Hw1 & Hnow & Hnames & Hall & HinAll & Hcalls
          & Hmovie).
    rewrite Hrun. cbn [snd]. exists linked.
    split; [exact Hnames|]. split.
    { eapply Forall_impl; [|exact Hall].
      intros x Hx. exact (fourShowtimes_written env _ _ _ Hx). }
    split; [exact Hcalls|]. split.
    { eapply Forall_impl; [|exact HinAll].
      intros x Hx. exists (Seed.linkedTheater movie x).
      split; [exact Hx|]. repeat split. }
    intros stored Hstored.
    rewrite Hlist, map_app in Hids. cbn [map] in Hids.
    pose proof (NoDup_remove_2 _ _ _ Hids) as Hnot.
    assert (Hnpre : ~ In (Model.movieId movie) (map Model.movieId pre)).
    { intros Hin. apply Hnot. apply in_or_app. now left. }
    assert (Hnpost : ~ In (Model.movieId movie) (map Model.movieId post)).
    { intros Hin. apply Hnot. apply in_or_app. now right. }
    rewrite linkMovies_unfold, Hlist, forEach_app, Hpre.
    cbn [Model.forEach]. unfold Model.bind at 1. rewrite Hrun.
    assert (Hafter : Seed.healthy w1 /\
                     Mongoose.findMovie (Model.movieId movie)
                       (Model.movies (Model.db w1))
                     = Some (Mongoose.setEmbedded (Some (map fst linked))
                                                  (map snd linked) stored)).
    { split; [exact Hw1|]. apply Hmovie. unfold Seed.worldAfter.
      rewrite (forEach_linkMovie_other env _ pre _ w Hw Hd Hnpre).
      exact Hstored. }
    destruct Hafter as [_ Hafter].
    rewrite (forEach_linkMovie_other env _ post _ w1 Hw1 Hd Hnpost).
    exact Hafter.
  - intros name location Hin.
    destruct (worldAfter_healthy env earlier w Hw Hd) as [Hpre Hw0].
    destruct (linkMovie_step env (Seed.dateStrOf env w) last
                (Seed.worldAfter env earlier w) Hw0 Hd)
      as (linked & w1 & Hrun & _ & _ & Hnames & Hall & HinAll & _).
    assert (Hend : snd (Seed.linkMovies env (earlier ++ [last]) w) = w1).
    { rewrite linkMovies_unfold, forEach_app, Hpre.
      cbn [Model.forEach]. unfold Model.bind. now rewrite Hrun. }
    rewrite Hend.
    change (In (name, location) Seed.theaterList) in Hin.
    rewrite <- Hnames in Hin. apply in_map_iff in Hin.
    destruct Hin as (x & Hx & Hin). injection Hx as Hn Hl.
    rewrite Forall_forall in Hall, HinAll.
    exists (Seed.linkedTheater last x).
    split; [now apply HinAll|].
    split; [exact Hn|]. split; [exact Hl|].
    split; [|reflexivity].
    exact (fourShowtimes_written env _ _ _ (Hall x Hin)).
Qed.

Lemma seed_links_last_movie_only_witness :
  exists t,
    In t (Model.theaterDocs
            (Model.db (snd (@Seed.linkMovies Demo.env Js.insertionEngine
                              ([Examples.barbie] ++ [Examples.jawan])
                              Examples.seedWorld)))) /\
    Model.theaterName t = "PVR Phoenix Kurla" /\
    Model.movieTitles t = [Model.title Examples.jawan].
Proof.
  assert (Hd : Seed.datesValid Demo.env
                 (Seed.dateStrOf Demo.env Examples.seedWorld) = true)
    by (vm_compute; reflexivity).
  assert (Hids : NoDup (map Model.movieId
                          ([Examples.barbie] ++ [Examples.jawan]))).
  { replace (map Model.movieId ([Examples.barbie] ++ [Examples.jawan]))
      with [11%N; 12%N] by reflexivity.
    constructor; [cbn; intros [H|[]]; discriminate|].
    constructor; [intros []|constructor]. }
  pose proof (seed_links_last_movie_only Demo.env Js.insertionEngine
                [Examples.barbie] Examples.jawan Examples.seedWorld
                seedWorld_healthy Hd Hids) as H.
  cbv zeta in H. destruct H as (_ & _ & Hend).
  destruct (Hend "PVR Phoenix Kurla" "Mumbai" (or_introl eq_refl))
    as (t & Hin & Hname & _ & _ & Htitles).
  exists t. split; [exact Hin|]. split; [exact Hname|exact Htitles].
Defined.


(* ===================================================================== *)
(** * Further properties of the code                                      *)
(* ===================================================================== *)

(** ** [fetchWithRetry]: every run, whatever the network does             *)

Section RetryTotals.
Import Retry Backoff.
Context {D : Type}.
Variable axios_get : string -> nat -> AxiosResult D.
Variables (url : string) (retries : nat) (delay : Z).

Local Abbreviation run_from := (attemptsFrom axios_get url retries delay).

Lemma attemptsFrom_S r i :
  run_from (S r) i
  = match axios_get url i with
    | Resolved data => ([EGet url i], FData data)
    | Rejected msg st =>
        if is404 st then ([EGet url i; ELogError url msg], FNull)
        else if Z.of_nat i =? Z.of_nat retries - 1
             then ([EGet url i; ELogError url msg], FNull)
             else
               let '(tr, res) := run_from r (S i) in
               (EGet url i :: ELogError url msg
                  :: ESleep (delay * (Z.of_nat i + 1)) :: tr, res)
    end.
Proof. reflexivity. Qed.

(** With an iteration left, the loop makes a request and ends in a
    [return]. *)
Lemma attemptsFrom_returns remaining : forall i,
  (1 <= remaining)%nat ->
  (i + remaining = retries)%nat ->
  snd (run_from remaining i) <> FUndefined /\
  (1 <= attempts (fst (run_from remaining i)))%nat.
Proof.
  induction remaining as [|r IH]; intros i Hpos Hsum; [lia|].
  rewrite attemptsFrom_S.
  destruct (axios_get url i) as [d|msg st]; simpl; [split; [discriminate|lia]|].
  destruct (is404 st); simpl; [split; [discriminate|lia]|].
  destruct (Z.of_nat i =? Z.of_nat retries - 1) eqn:Hlast; simpl;
    [split; [discriminate|lia]|].
  apply Z.eqb_neq in Hlast.
  destruct (IH (S i) ltac:(lia) ltac:(lia)) as [Hres Hatt].
  destruct (run_from r (S i)) as [tr res]. simpl in *.
  split; [exact Hres|lia].
Qed.

(** Twice the time slept from attempt [i] on is at most
    [delay * (retries * (retries - 1) - i * (i + 1))]. *)
Lemma attemptsFrom_sleep remaining : forall i,
  0 <= delay ->
  (1 <= remaining)%nat ->
  (i + remaining = retries)%nat ->
  0 <= totalSleep (fst (run_from remaining i)) /\
  2 * totalSleep (fst (run_from remaining i))
  <= delay * (Z.of_nat retries * (Z.of_nat retries - 1)
              - Z.of_nat i * (Z.of_nat i + 1)).
Proof.
  induction remaining as [|r IH]; intros i Hd Hpos Hsum; [lia|].
  assert (Hbase : 0 <= delay * (Z.of_nat retries * (Z.of_nat retries - 1)
                                - Z.of_nat i * (Z.of_nat i + 1))) by nia.
  rewrite attemptsFrom_S.
  destruct (axios_get url i) as [d|msg st]; cbn [fst totalSleep]; [lia|].
  destruct (is404 st); cbn [fst totalSleep]; [lia|].
  destruct (Z.of_nat i =? Z.of_nat retries - 1) eqn:Hlast; cbn [fst totalSleep]; [lia|].
  apply Z.eqb_neq in Hlast.
  destruct (IH (S i) Hd ltac:(lia) ltac:(lia)) as [H0 H2].
  destruct (run_from r (S i)) as [tr res]. cbn [fst totalSleep] in *.
  rewrite Nat2Z.inj_succ in H2. unfold Z.succ in H2.
  assert (Hstep : 0 <= delay * (Z.of_nat i + 1)) by nia.
  split; [lia|].
  replace (delay * (Z.of_nat retries * (Z.of_nat retries - 1)
                    - Z.of_nat i * (Z.of_nat i + 1)))
    with (delay * (Z.of_nat retries * (Z.of_nat retries - 1)
                   - (Z.of_nat i + 1) * (Z.of_nat i + 1 + 1))
          + 2 * (delay * (Z.of_nat i + 1))) by ring.
  lia.
Qed.

End RetryTotals.

(** X1.  With [retries >= 1], whatever the network does, [fetchWithRetry]
    makes at least one and at most [retries] requests and returns the data
    of a response or [null], never [undefined]. *)
Theorem fetchWithRetry_returns {D}
        (axios_get : string -> nat -> Retry.AxiosResult D)
        (url : string) (retries : nat) (delay : Z) :
  (1 <= retries)%nat ->
  snd (Retry.fetchWithRetry axios_get url retries delay) <> Retry.FUndefined /\
  (1 <= Retry.attempts (fst (Retry.fetchWithRetry axios_get url retries delay))
   <= retries)%nat.
Proof.
  intros H. unfold Retry.fetchWithRetry.
  destruct retries as [|r]; [lia|].
  destruct (attemptsFrom_returns axios_get url (S r) delay (S r) 0%nat
              ltac:(lia) eq_refl)
    as [Hres Hatt].
  split; [exact Hres|]. split; [exact Hatt|apply attemptsFrom_bound].
Qed.

Lemma fetchWithRetry_returns_witness :
  snd (Retry.fetchWithRetry flakyThenOk "u" 5 2000) <> Retry.FUndefined.
Proof.
  exact (proj1 (fetchWithRetry_returns flakyThenOk "u" 5 2000 ltac:(lia))).
Defined.

(** X2.  With a non-negative [delay], whatever the network does, the time
    [fetchWithRetry] spends waiting is at most
    [delay * retries * (retries - 1) / 2] ms: 20 seconds for the script's
    5 retries and 2000 ms. *)
Theorem fetchWithRetry_waits_at_most {D}
        (axios_get : string -> nat -> Retry.AxiosResult D)
        (url : string) (retries : nat) (delay : Z) :
  0 <= delay ->
  0 <= Backoff.totalSleep (fst (Retry.fetchWithRetry axios_get url retries delay)) /\
  2 * Backoff.totalSleep (fst (Retry.fetchWithRetry axios_get url retries delay))
  <= delay * (Z.of_nat retries * (Z.of_nat retries - 1)).
Proof.
  intros Hd. unfold Retry.fetchWithRetry.
  destruct retries as [|r]; [simpl; lia|].
  destruct (attemptsFrom_sleep axios_get url (S r) delay (S r) 0%nat Hd
              ltac:(lia) eq_refl) as [H0 H2].
  split; [exact H0|]. change (Z.of_nat 0) with 0 in H2. lia.
Qed.

Lemma fetchWithRetry_waits_at_most_witness :
  Backoff.totalSleep (fst (Retry.fetchWithRetry_default flakyThenOk "u"))
  <= 20000.
Proof.
  pose proof (proj2 (fetchWithRetry_waits_at_most flakyThenOk "u" 5 2000
                       ltac:(lia))) as H.
  unfold Retry.fetchWithRetry_default.
  change (Z.of_nat 5) with 5 in H. lia.
Defined.


(** ** The TMDB searches: every run                                       *)

Section SearchTotals.
Import Model Http.
Variable search : string -> string -> Tmdb.AxiosOutcome SearchData.

(** The loop asks for an initial segment of the languages; it ends with
    results exactly when the last language asked yields them, and without
    when no language yields. *)
Lemma searchLoop_shape query langs :
  let asked := fst (Tmdb.searchLoop search query langs) in
  let results := snd (Tmdb.searchLoop search query langs) in
  (exists rest, langs = (asked ++ rest)%list) /\
  (results = [] <->
   forall l, In l langs -> Tmdb.yields (search query l) = None) /\
  (results <> [] ->
   exists before lang,
     asked = (before ++ [lang])%list /\
     Tmdb.yields (search query lang) = Some results).
Proof.
  induction langs as [|l langs IH]; cbn [Tmdb.searchLoop].
  - cbn. split; [exists []; reflexivity|]. split; [tauto|congruence].
  - destruct (Tmdb.yields (search query l)) as [res|] eqn:Hy.
    + cbn. split; [exists langs; reflexivity|]. split.
      * split.
        -- intros ->. now apply yields_nonempty in Hy.
        -- intros H. rewrite (H l (or_introl eq_refl)) in Hy. discriminate.
      * intros _. exists [], l. split; [reflexivity|exact Hy].
    + destruct (Tmdb.searchLoop search query langs) as [asked results].
      cbn in *. destruct IH as ((rest & Hrest) & Hiff & Hlast).
      split; [exists rest; now rewrite Hrest at 1|]. split.
      * rewrite Hiff. split.
        -- intros H l' [<-|Hl']; [exact Hy|now apply H].
        -- intros H l' Hl'. apply H. now right.
      * intros Hne. destruct (Hlast Hne) as (before & lang & -> & Hlang).
        exists (l :: before), lang. split; [reflexivity|exact Hlang].
Qed.

End SearchTotals.

(** X3.  Whatever the request holds and whatever TMDB answers, the search
    handler asks for an initial segment of its 11 languages, in order.  It
    asks for none and answers 500 'Failed to fetch from TMDB' when the
    [query] parameter is an array or an object (the exception of [split]
    reaches the outer [catch]); 400 when the parameter is absent or is a
    text that is empty once cut at the first colon and trimmed; 500 'TMDB
    API key not configured' when the query is not empty but the key is
    missing.  Otherwise it answers 200, with a non-empty list that is what
    the last language asked yielded, if some language yields, and 404 if
    none does. *)
Theorem searchTmdbMovie_total
        (search : string -> string -> Tmdb.AxiosOutcome Model.SearchData)
        (rawQuery : option Tmdb.QueryValue) (apiKey : option string) :
  let languages :=
    ["en"; "hi"; "ta"; "te"; "ml"; "mr"; "kn"; "bn"; "gu"; "pa"; "ur"] in
  let asked := fst (Tmdb.searchTmdbMovie search rawQuery apiKey) in
  let resp := snd (Tmdb.searchTmdbMovie search rawQuery apiKey) in
  (exists rest, languages = (asked ++ rest)%list) /\
  (List.length asked <= 11)%nat /\
  match rawQuery with
  | Some (Tmdb.QArray _) | Some (Tmdb.QObject _) =>
      asked = [] /\ resp = Http.jsonError 500 "Failed to fetch from TMDB"
  | None => asked = [] /\ resp = Http.jsonError 400 "Missing query parameter"
  | Some (Tmdb.QText s) =>
      let query := JsStr.trim (JsStr.beforeChar ":" s) in
      (query = "" ->
       asked = [] /\ resp = Http.jsonError 400 "Missing query parameter") /\
      (query <> "" -> JsStr.truthy apiKey = false ->
       asked = [] /\
       resp = Http.jsonError 500 "TMDB API key not configured") /\
      (query <> "" -> JsStr.truthy apiKey = true ->
       ((exists l, In l languages /\
                   Tmdb.yields (search query l) <> None) ->
        exists before lang results,
          asked = (before ++ [lang])%list /\
          Tmdb.yields (search query lang) = Some results /\
          results <> [] /\
          resp = Http.mkResponse 200 (Http.BTmdbResults results)) /\
       ((forall l, In l languages ->
                   Tmdb.yields (search query l) = None) ->
        resp = Http.jsonError 404 "Movie not found in TMDB"))
  end.
Proof.
  cbv zeta.
  change ["en"; "hi"; "ta"; "te"; "ml"; "mr"; "kn"; "bn"; "gu"; "pa"; "ur"]
    with Tmdb.supportedLanguages.
  unfold Tmdb.searchTmdbMovie.
  assert (Hnone : exists rest : list string,
             Tmdb.supportedLanguages = ([] ++ rest)%list)
    by (exists Tmdb.supportedLanguages; reflexivity).
  destruct rawQuery as [[s|items|fields]|]; cbn [Tmdb.cleanQuery];
    try (cbn [JsStr.truthy negb fst snd List.length];
         split; [exact Hnone|]; split; [lia|]; split; reflexivity).
  destruct (JsStr.trim (JsStr.beforeChar ":" s)) as [|c query] eqn:Hq;
    cbn [JsStr.truthy negb].
  { cbn [fst snd List.length]. split; [exact Hnone|]. split; [lia|].
    split; [auto|]. split; intros H; now contradiction H. }
  destruct (JsStr.truthy apiKey) eqn:Hk; cbn [negb].
  2:{ cbn [fst snd List.length]. split; [exact Hnone|]. split; [lia|].
      split; [discriminate|]. split; [auto|discriminate]. }
  pose proof (searchLoop_shape search (String c query) Tmdb.supportedLanguages)
    as H. cbv zeta in H.
  destruct (Tmdb.searchLoop search (String c query) Tmdb.supportedLanguages)
    as [asked results].
  cbn [fst snd] in H. destruct H as ((rest & Hrest) & Hiff & Hlast).
  assert (Hlen : (List.length asked <= 11)%nat).
  { change 11%nat with (List.length Tmdb.supportedLanguages).
    rewrite Hrest, List.length_app. lia. }
  destruct results as [|r results].
  - cbn [fst snd]. split; [eauto|]. split; [exact Hlen|].
    split; [discriminate|]. split; [discriminate|]. intros _ _.
    split; [|reflexivity].
    intros (l & Hl & Hy). exfalso. apply Hy. now apply (proj1 Hiff).
  - cbn [fst snd]. split; [eauto|]. split; [exact Hlen|].
    split; [discriminate|]. split; [discriminate|]. intros _ _.
    split.
    + intros _. destruct (Hlast ltac:(discriminate))
        as (before & lang & Hasked & Hy).
      exists before, lang, (r :: results).
      repeat split; auto. discriminate.
    + intros Hnone'. apply (proj2 Hiff) in Hnone'. discriminate.
Qed.

Lemma searchTmdbMovie_total_witness :
  snd (Tmdb.searchTmdbMovie Examples.tmdbHindi
         (Some (Tmdb.QText "Oppenheimer")) None)
  = Http.jsonError 500 "TMDB API key not configured" /\
  snd (Tmdb.searchTmdbMovie Examples.tmdbHindi
         (Some (Tmdb.QArray ["Oppenheimer"; "Barbie"])) (Some "k"))
  = Http.jsonError 500 "Failed to fetch from TMDB".
Proof.
  split.
  - destruct (searchTmdbMovie_total Examples.tmdbHindi
                (Some (Tmdb.QText "Oppenheimer")) None)
      as (_ & _ & _ & Hkey & _).
    apply Hkey; [discriminate|reflexivity].
  - apply (searchTmdbMovie_total Examples.tmdbHindi
             (Some (Tmdb.QArray ["Oppenheimer"; "Barbie"])) (Some "k")).
Defined.


Section SeedSearchTotals.
Import Model.
Variable axios_get : string -> nat -> Retry.AxiosResult SearchData.
Variable TMDB_API_KEY : string.
Variable encodeURIComponent : string -> string.

Local Abbreviation found := (Seed.found axios_get TMDB_API_KEY encodeURIComponent).
Local Abbreviation searchFrom :=
  (Seed.searchFrom axios_get TMDB_API_KEY encodeURIComponent).

Lemma attempts_app tr tr' :
  Retry.attempts (tr ++ tr') = (Retry.attempts tr + Retry.attempts tr')%nat.
Proof.
  induction tr as [|e tr IH]; [reflexivity|].
  destruct e; simpl; now rewrite IH.
Qed.

Lemma searchFrom_shape title langs :
  (forall l, In l langs ->
     JsStr.includes Seed.backendSupportedLanguages
                    (JsStr.beforeChar "-" l) = true) ->
  (snd (searchFrom title langs) = None <->
   forall l, In l langs -> found title l = None) /\
  (forall r code, snd (searchFrom title langs) = Some (r, code) ->
     exists l, In l langs /\ found title l = Some r /\
               code = JsStr.beforeChar "-" l) /\
  (Retry.attempts (fst (searchFrom title langs)) <= 5 * List.length langs)%nat.
Proof.
  unfold Seed.found.
  induction langs as [|l langs IH]; intros Hsup; cbn [Seed.searchFrom].
  - cbn. split; [tauto|]. split; [discriminate|lia].
  - pose proof (attemptsFrom_bound axios_get
                  (Seed.searchUrl TMDB_API_KEY encodeURIComponent title l)
                  5 2000 5 0) as Hfive.
    change (Retry.attemptsFrom axios_get
              (Seed.searchUrl TMDB_API_KEY encodeURIComponent title l)
              5 2000 5 0)
      with (Retry.fetchWithRetry_default axios_get
              (Seed.searchUrl TMDB_API_KEY encodeURIComponent title l))
      in Hfive.
    destruct (IH (fun l' H => Hsup l' (or_intror H))) as (Hnone & Hsome & Hatt).
    destruct (Retry.fetchWithRetry_default axios_get
                (Seed.searchUrl TMDB_API_KEY encodeURIComponent title l))
      as [tr data] eqn:Hfetch.
    cbn [fst snd] in Hfive.
    destruct (Seed.firstResult data) as [result|] eqn:Hfirst.
    + rewrite (Hsup l (or_introl eq_refl)). cbn [fst snd]. split.
      * split; [discriminate|].
        intros H. specialize (H l (or_introl eq_refl)).
        rewrite Hfetch in H. cbn [snd] in H. congruence.
      * split.
        -- intros r code H. injection H as <- <-.
           exists l. split; [now left|].
           rewrite Hfetch. split; [exact Hfirst|reflexivity].
        -- cbn [List.length]. lia.
    + destruct (searchFrom title langs) as [tr' res]. cbn [fst snd] in *.
      split.
      * rewrite Hnone. split.
        -- intros H l' [<-|Hl']; [rewrite Hfetch; exact Hfirst|now apply H].
        -- intros H l' Hl'. apply H. now right.
      * split.
        -- intros r code H. destruct (Hsome r code H) as (l' & Hl' & Hf & Hc).
           exists l'. split; [now right|]. split; assumption.
        -- rewrite attempts_app. cbn [List.length]. lia.
Qed.

End SeedSearchTotals.

(** X4.  Whatever TMDB answers, [searchMovieInLanguages] returns null
    exactly when none of its 11 languages gives a first result; what it
    returns otherwise is the first result of one of these languages with that
    language's prefix, which is one of the backend's languages; and it makes
    at most 55 HTTP attempts. *)
Theorem searchMovieInLanguages_total
        (axios_get : string -> nat -> Retry.AxiosResult Model.SearchData)
        (TMDB_API_KEY : string) (encodeURIComponent : string -> string)
        (title : string) :
  let run := Seed.searchMovieInLanguages axios_get TMDB_API_KEY
                                         encodeURIComponent title in
  let found := Seed.found axios_get TMDB_API_KEY encodeURIComponent title in
  (snd run = None <->
   forall l, In l Seed.supportedTmdbLanguages -> found l = None) /\
  (forall r code, snd run = Some (r, code) ->
     In code Seed.backendSupportedLanguages /\
     exists l, In l Seed.supportedTmdbLanguages /\ found l = Some r /\
               code = JsStr.beforeChar "-" l) /\
  (Retry.attempts (fst run) <= 55)%nat.
Proof.
  cbv zeta. unfold Seed.searchMovieInLanguages.
  destruct (searchFrom_shape axios_get TMDB_API_KEY encodeURIComponent title
              Seed.supportedTmdbLanguages prefixes_supported)
    as (Hnone & Hsome & Hatt).
  split; [exact Hnone|]. split; [|exact Hatt].
  intros r code H. destruct (Hsome r code H) as (l & Hl & Hf & ->).
  split; [|eauto].
  pose proof (prefixes_supported l Hl) as Hsup.
  unfold JsStr.includes in Hsup. apply existsb_exists in Hsup.
  destruct Hsup as (x & Hx & Heq). apply String.eqb_eq in Heq. now subst.
Qed.

Lemma searchMovieInLanguages_total_witness :
  In "hi" Seed.backendSupportedLanguages.
Proof.
  exact (proj1 (proj1 (proj2 (searchMovieInLanguages_total
                  Examples.tmdbHindiSeed "k" Examples.identity "Oppenheimer"))
                  Examples.oppenheimer "hi" ltac:(vm_compute; reflexivity))).
Defined.


(** ** What the reading handlers leave alone                              *)

Section ReadOnlyFacts.
Import Model Env Mongoose Http App Requests.
Local Open Scope m_scope.
Variable env : JsEnv.
Context {E : Js.SortEngine}.

Lemma keepsDb_ret {A} (a : A) : keepsDb (ret a).
Proof. intros w. reflexivity. Qed.

Lemma keepsDb_throw {A} (e : Exn) : keepsDb (@throw A e).
Proof. intros w. reflexivity. Qed.

Lemma keepsDb_newDateNow : keepsDb newDateNow.
Proof. intros w. reflexivity. Qed.

Lemma keepsDb_bind {A B} (m : M A) (k : A -> M B) :
  keepsDb m -> (forall a, keepsDb (k a)) -> keepsDb (bind m k).
Proof.
  intros Hm Hk w. unfold bind. specialize (Hm w).
  destruct (m w) as [[a|e] w1]; simpl in *; [|exact Hm].
  now rewrite (Hk a w1).
Qed.

Lemma keepsDb_tryCatch {A} (body : M A) (h : Exn -> M A) :
  keepsDb body -> (forall e, keepsDb (h e)) -> keepsDb (tryCatch body h).
Proof.
  intros Hb Hh w. unfold tryCatch. specialize (Hb w).
  destruct (body w) as [[a|e] w1]; simpl in *; [exact Hb|].
  now rewrite (Hh e w1).
Qed.

Lemma keepsDb_dbCall {A} (c : DbCall) (op : Db -> Result A * Db) :
  (forall d, snd (op d) = d) -> keepsDb (dbCall c op).
Proof. intros Hop w. now apply (dbCall_frame (fun d => d)). Qed.

Lemma keepsDb_mapM {A B} (f : A -> M B) (xs : list A) :
  (forall x, keepsDb (f x)) -> keepsDb (mapM f xs).
Proof.
  intros Hf. induction xs as [|x xs IH]; cbn [mapM]; [apply keepsDb_ret|].
  apply keepsDb_bind; [apply Hf|]. intros y.
  apply keepsDb_bind; [exact IH|]. intros ys. apply keepsDb_ret.
Qed.

Ltac keeps_step :=
  match goal with
  | |- keepsDb (bind _ _) => apply keepsDb_bind; [|intros]
  | |- keepsDb (tryCatch _ _) => apply keepsDb_tryCatch; [|intros]
  | |- keepsDb (ret _) => apply keepsDb_ret
  | |- keepsDb (throw _) => apply keepsDb_throw
  | |- keepsDb newDateNow => apply keepsDb_newDateNow
  | |- keepsDb (dbCall _ _) => apply keepsDb_dbCall; intros; reflexivity
  | |- keepsDb (mapM _ _) => apply keepsDb_mapM; intros
  | |- keepsDb (match ?x with _ => _ end) => destruct x
  end.

Lemma keepsDb_readOnly c : readOnly c = true -> keepsDb (handle env c).
Proof.
  destruct c; try discriminate; intros _; cbn [handle];
    unfold Public.getMovies, Public.getMovieById, Public.getAllGenres,
      Public.viewTheater, Public.viewShowtime, Public.isoOf,
      Admin.getAllBookings, Admin.getAllUsers, Admin.getAdminStats,
      Admin.getMovieById, Admin.getAllMovies, Admin.pingAdmin,
      Admin.notAdmin, Admin.allMoviesFilter,
      Movie_aggregate, Movie_countDocuments, Movie_findById,
      Movie_distinct_genre, Movie_find_sorted, Movie_count, Booking_find,
      Booking_count, User_find, User_count;
    repeat keeps_step.
Qed.

End ReadOnlyFacts.

(** X5.  The reading handlers (the movie listings, both single-movie reads,
    the genres, the bookings and users listings, the statistics, the ping
    and the two TMDB handlers) never change the database: whatever the
    request, whatever the database holds and whichever calls fail, movies,
    theaters, bookings and users are afterwards what they were. *)
Theorem reading_handlers_keep_database
        (env : Env.JsEnv) (E : Js.SortEngine) (c : App.Call) (w : Model.World) :
  Requests.readOnly c = true ->
  Model.db (snd (App.handle env c w)) = Model.db w.
Proof. intros H. now apply keepsDb_readOnly. Qed.

Lemma reading_handlers_keep_database_witness :
  Model.db (snd (@App.handle Demo.env Js.insertionEngine
                   (App.PublicGetMovieById Examples.dashavatarId)
                   Examples.world1))
  = Model.db Examples.world1.
Proof.
  exact (reading_handlers_keep_database Demo.env Js.insertionEngine
           (App.PublicGetMovieById Examples.dashavatarId) Examples.world1
           eq_refl).
Defined.


(** X6.  The four handlers that check the role themselves (bookings, users,
    statistics, ping) answer a signed-in user whose role is not 'admin' with
    403 and a JSON error, without calling the database and without changing
    anything. *)
Theorem non_admin_is_denied
        (env : Env.JsEnv) (E : Js.SortEngine) (c : App.Call) (w : Model.World)
        (user : Model.User) :
  Requests.roleChecked c = Some (Some user) ->
  Model.userRole user <> "admin" ->
  exists msg,
    App.handle env c w = (Model.Ok (Http.jsonError 403 msg), w) /\
    (msg = "Access denied. Admins only." \/ msg = "Access denied").
Proof.
  intros Hc Hrole. apply String.eqb_neq in Hrole.
  destruct c; try discriminate; cbn in Hc; injection Hc as ->;
    cbn [App.handle];
    unfold Admin.getAllBookings, Admin.getAllUsers, Admin.getAdminStats,
      Admin.pingAdmin, Admin.notAdmin, Model.tryCatch, Model.bind, Model.ret;
    rewrite Hrole; cbn [negb]; eexists; (split; [reflexivity|auto]).
Qed.

Lemma non_admin_is_denied_witness :
  exists msg,
    @App.handle Demo.env Js.insertionEngine
      (App.AdminGetAdminStats (Some (Model.mkUser "Asha" "asha@example.com" "user")))
      Examples.world1
    = (Model.Ok (Http.jsonError 403 msg), Examples.world1).
Proof.
  destruct (non_admin_is_denied Demo.env Js.insertionEngine
              (App.AdminGetAdminStats
                 (Some (Model.mkUser "Asha" "asha@example.com" "user")))
              Examples.world1
              (Model.mkUser "Asha" "asha@example.com" "user") eq_refl
              ltac:(discriminate)) as (msg & H & _).
  exists msg. exact H.
Defined.

Section GenreFacts.
Import Model Env Mongoose Http.

Lemma distinct_In l x : In x (distinct l) <-> In x l.
Proof.
  induction l as [|y l IH]; cbn [distinct]; [tauto|].
  split.
  - intros [->|H]; [now left|].
    apply filter_In in H. right. now apply IH.
  - intros [->|H]; [now left|].
    destruct (String.eqb y x) eqn:Heq.
    + apply String.eqb_eq in Heq. now left.
    + right. apply filter_In. split; [now apply IH|].
      now rewrite Heq.
Qed.

Lemma distinct_NoDup l : NoDup (distinct l).
Proof.
  induction l as [|y l IH]; cbn [distinct]; constructor.
  - intros H. apply filter_In in H. destruct H as [_ H].
    now rewrite String.eqb_refl in H.
  - now apply NoDup_filter.
Qed.

End GenreFacts.

(** X7.  When the database answers, [GET /api/movies/genres] answers 200
    with a list without duplicates that holds exactly the genres of the
    stored movies that are not blank (not empty after trimming). *)
Theorem getAllGenres_lists_genres (w : Model.World) :
  hd None (Model.faults w) = None ->
  exists genres,
    fst (Public.getAllGenres w)
    = Model.Ok (Http.mkResponse 200 (Http.BGenres genres)) /\
    NoDup genres /\
    forall g, In g genres <->
              (exists m, In m (Model.movies (Model.db w)) /\ Model.genre m = g)
              /\ JsStr.trim g <> "".
Proof.
  intros Hf.
  unfold Public.getAllGenres, Model.tryCatch, Model.bind,
    Mongoose.Movie_distinct_genre, Model.dbCall.
  destruct (Model.faults w) as [|[e|] rest]; try discriminate; cbn;
    (eexists; split; [reflexivity|]; split;
     [apply NoDup_filter, distinct_NoDup|];
     intros g; rewrite filter_In, distinct_In, in_map_iff;
     split;
     [intros [(m & Hg & Hm) Ht]; split; [eauto|];
      intros Hblank; rewrite Hblank in Ht; discriminate
     |intros [(m & Hm & Hg) Ht]; split; [eauto|];
      destruct (JsStr.trim g); [contradiction|reflexivity]]).
Qed.

Lemma getAllGenres_lists_genres_witness :
  exists genres,
    fst (Public.getAllGenres Examples.threeMovies)
    = Model.Ok (Http.mkResponse 200 (Http.BGenres genres)) /\
    NoDup genres.
Proof.
  destruct (getAllGenres_lists_genres Examples.threeMovies eq_refl)
    as (genres & Hrun & Hnd & _).
  exists genres. split; assumption.
Defined.


(** ** The admin's [createMovie]: the required fields                     *)

(** X8.  When one of title, genre, posterUrl, releaseDate and language is
    absent or empty, the admin's [createMovie] answers 400 with
    'Missing fields: ' followed by the names of exactly the absent or empty
    ones, in that order, and neither calls the database nor draws random
    numbers: the world is left as it was. *)
Theorem createMovie_missing_fields
        (env : Env.JsEnv) (E : Js.SortEngine) (b : Admin.CreateBody)
        (w : Model.World) :
  Admin.missingFields b <> [] ->
  Admin.createMovie env b w
  = (Model.Ok (Http.jsonError 400
       ("Missing fields: " ++ String.concat ", " (Admin.missingFields b))), w) /\
  (forall name value,
     In (name, value)
        [("title", Admin.cbTitle b); ("genre", Admin.cbGenre b);
         ("posterUrl", Admin.cbPosterUrl b);
         ("releaseDate", Admin.cbReleaseDate b);
         ("language", Admin.cbLanguage b)] ->
     (In name (Admin.missingFields b) <-> value = None \/ value = Some "")) /\
  exists keep,
    Admin.missingFields b
    = filter keep ["title"; "genre"; "posterUrl"; "releaseDate"; "language"].
Proof.
  intros Hmissing. split; [|split].
  - unfold Admin.createMovie, Model.tryCatch.
    destruct (Admin.missingFields b) as [|f fs] eqn:Hm; [contradiction|].
    reflexivity.
  - intros name value Hin. unfold Admin.missingFields.
    assert (Hfalsy : forall v : option string,
               negb (JsStr.truthy v) = true <-> v = None \/ v = Some "").
    { intros [[|c s]|]; cbn; split; intros H; auto; try discriminate;
        destruct H; discriminate. }
    assert (Hcases :
              (name = "title" /\ value = Admin.cbTitle b) \/
              (name = "genre" /\ value = Admin.cbGenre b) \/
              (name = "posterUrl" /\ value = Admin.cbPosterUrl b) \/
              (name = "releaseDate" /\ value = Admin.cbReleaseDate b) \/
              (name = "language" /\ value = Admin.cbLanguage b)).
    { simpl in Hin.
      repeat (destruct Hin as [Hin|Hin];
              [injection Hin as <- <-; auto 10|]).
      destruct Hin. }
    clear Hin.
    destruct Hcases as [[-> ->]|[[-> ->]|[[-> ->]|[[-> ->]|[-> ->]]]]];
      rewrite <- Hfalsy; cbn [filter map fst snd];
      destruct (negb (JsStr.truthy (Admin.cbTitle b)));
      destruct (negb (JsStr.truthy (Admin.cbGenre b)));
      destruct (negb (JsStr.truthy (Admin.cbPosterUrl b)));
      destruct (negb (JsStr.truthy (Admin.cbReleaseDate b)));
      destruct (negb (JsStr.truthy (Admin.cbLanguage b)));
      cbn [filter map fst snd In]; split; intros H;
      try reflexivity; try discriminate;
      repeat (destruct H as [H|H]; try discriminate); auto 10;
      try contradiction.
  - unfold Admin.missingFields.
    exists (fun name =>
              if String.eqb name "title" then negb (JsStr.truthy (Admin.cbTitle b))
              else if String.eqb name "genre" then negb (JsStr.truthy (Admin.cbGenre b))
              else if String.eqb name "posterUrl"
                   then negb (JsStr.truthy (Admin.cbPosterUrl b))
              else if String.eqb name "releaseDate"
                   then negb (JsStr.truthy (Admin.cbReleaseDate b))
              else negb (JsStr.truthy (Admin.cbLanguage b))).
    cbn [filter map fst snd String.eqb Ascii.eqb Bool.eqb].
    destruct (negb (JsStr.truthy (Admin.cbTitle b)));
      destruct (negb (JsStr.truthy (Admin.cbGenre b)));
      destruct (negb (JsStr.truthy (Admin.cbPosterUrl b)));
      destruct (negb (JsStr.truthy (Admin.cbReleaseDate b)));
      destruct (negb (JsStr.truthy (Admin.cbLanguage b))); reflexivity.
Qed.

Lemma createMovie_missing_fields_witness :
  @Admin.createMovie Demo.env Js.insertionEngine MoreExamples.untitledDraft
                     Examples.world0
  = (Model.Ok (Http.jsonError 400
                 "Missing fields: genre, posterUrl, releaseDate"),
     Examples.world0).
Proof.
  exact (proj1 (createMovie_missing_fields Demo.env Js.insertionEngine
                  MoreExamples.untitledDraft Examples.world0
                  ltac:(discriminate))).
Defined.


(** ** [GET /api/movies]: page size and defaults                          *)

Section PageFacts.
Import JsNum Model Env Mongoose Http.
Variable env : JsEnv.

Lemma insertDesc_length k x l :
  List.length (insertDesc k x l) = S (List.length l).
Proof.
  induction l as [|y l IH]; cbn [insertDesc]; [reflexivity|].
  destruct (keyAbove _ _); cbn [List.length]; [reflexivity|now rewrite IH].
Qed.

Lemma sortDesc_length k l : List.length (sortDesc k l) = List.length l.
Proof.
  unfold sortDesc. induction l as [|x l IH]; cbn [fold_right]; [reflexivity|].
  rewrite insertDesc_length. cbn [List.length]. now rewrite IH.
Qed.

Lemma runSorts_length keys docs :
  exists sorted,
    runPipeline env (map Sort keys) docs = Ok sorted /\
    List.length sorted = List.length docs.
Proof.
  revert docs. induction keys as [|k keys IH]; intros docs; cbn.
  - eauto.
  - destruct (IH (sortDesc k docs)) as (sorted & Hrun & Hlen).
    exists sorted. split; [exact Hrun|]. now rewrite Hlen, sortDesc_length.
Qed.

(** Without a title the selection stages keep the number of matching
    documents. *)
Lemma selection_length q filters docs selected :
  Public.hasTitle q = false ->
  runPipeline env (Public.selectionStages q filters) docs = Ok selected ->
  List.length selected = List.length (filter (matchAll env filters) docs).
Proof.
  intros Ht. unfold Public.selectionStages. rewrite Ht. cbn [app].
  destruct filters as [|f fs].
  - cbn [app]. destruct (runSorts_length (Public.sortOptions q) docs)
      as (sorted & Hrun & Hlen).
    rewrite Hrun. intros H; injection H as <-. rewrite Hlen.
    cbn [matchAll forallb].
    clear. induction docs as [|d docs IH]; cbn; [reflexivity|now rewrite IH].
  - rewrite runPipeline_app. cbn [runPipeline runStage].
    unfold selectMovies.
    destruct (forallb (filterCompiles env) (f :: fs)); [|discriminate].
    destruct (runSorts_length (Public.sortOptions q)
                (filter (matchAll env (f :: fs)) docs))
      as (sorted & Hrun & Hlen).
    rewrite Hrun. intros H; injection H as <-. exact Hlen.
Qed.

(** The integer that [Math.min(x, 100)] denotes is at most 100. *)
Lemma min_100_integer x l :
  toInteger (Math_min x (ofZ 100)) = Some l -> l <= 100.
Proof.
  intros H. destruct (toInteger_Some _ _ H) as (a & Ha & Hq).
  assert (Hle : (a <= inject_Z 100)%Q).
  { unfold Math_min, ofZ in Ha. destruct x as [q| | |]; try discriminate.
    - cbv beta iota in Ha. cbn [leb] in Ha.
      destruct (Qle_bool q (inject_Z 100)) eqn:Hb.
      + injection Ha as <-. now apply Qle_bool_iff.
      + injection Ha as <-. apply Qle_refl.
    - cbv beta iota in Ha. cbn [leb] in Ha. injection Ha as <-.
      apply Qle_refl. }
  rewrite Hq in Hle. now rewrite Zle_Qle.
Qed.

End PageFacts.

(** X9.  Every 200 answer of [GET /api/movies] carries at most 100 movies,
    [count] is their number, and [count] never exceeds [total]. *)
Theorem getMovies_page_is_bounded
        (env : Env.JsEnv) (q : Public.MoviesQuery) (w : Model.World)
        (resp : Http.Response) :
  fst (Public.getMovies env q w) = Model.Ok resp ->
  Http.status resp = 200 ->
  exists total page totalPages ms,
    Http.body resp
    = Http.BMovieList (List.length ms) total page totalPages ms /\
    (List.length ms <= 100)%nat /\
    (List.length ms <= total)%nat.
Proof.
  intros Hrun Hst.
  destruct (getMovies_ok env q w resp Hrun Hst)
    as (ms & total & Hp & Hbody & Htitle & Hcount).
  unfold Public.buildPipeline in Hp.
  destruct (paginate_ok env _ _ _ _ _ Hp)
    as (selected & s & l & Hsel & Hs & Hs0 & Hl & Hl1 & Hms).
  pose proof (min_100_integer _ _ Hl) as Hl100.
  exists total, (Public.safePage env q),
    (JsNum.Math_ceil (JsNum.div (JsNum.ofNat total) (Public.safeLimit env q))),
    ms.
  split; [exact Hbody|].
  assert (Hlen : (List.length ms <= Z.to_nat l)%nat).
  { rewrite Hms, List.length_firstn. apply Nat.le_min_l. }
  split; [lia|].
  destruct (Public.hasTitle q) eqn:Ht.
  - rewrite (Htitle eq_refl). lia.
  - rewrite (Hcount eq_refl).
    rewrite <- (selection_length env q _ _ selected Ht Hsel).
    rewrite Hms, List.length_firstn, List.length_skipn. lia.
Qed.

Lemma getMovies_page_is_bounded_witness :
  exists total page totalPages ms,
    Http.body (Http.mkResponse 200
                 (Http.BMovieList 1 3 (JsNum.Fin 2) (JsNum.Fin 2)
                                  [Examples.avatar]))
    = Http.BMovieList (List.length ms) total page totalPages ms /\
    (List.length ms <= 100)%nat /\ (List.length ms <= total)%nat.
Proof.
  apply (getMovies_page_is_bounded Demo.env
           (Examples.pageAndLimit (Some "2") (Some "2")) Examples.threeMovies);
    [vm_compute; reflexivity|reflexivity].
Defined.


Section DefaultRequest.
Import JsNum Model Env Mongoose Http Defaults.
Variable env : JsEnv.

Lemma filter_all {A} (l : list A) : filter (fun _ => true) l = l.
Proof. induction l as [|x l IH]; cbn; [reflexivity|now rewrite IH]. Qed.

(** [Math.ceil(n / 20)] for a count [n]. *)
Lemma ceil_over_20 (n : nat) :
  Math_ceil (div (ofNat n) (ofZ 20)) = ofZ ((Z.of_nat n + 19) / 20).
Proof.
  unfold div, ofNat, ofZ, Math_ceil, sign. cbn [Qnum inject_Z Z.compare].
  unfold ofZ. f_equal. f_equal.
  unfold Qceiling.
  rewrite (Qfloor_comp (- (inject_Z (Z.of_nat n) / inject_Z 20))
                       (inject_Z (- Z.of_nat n) / inject_Z 20)).
  - rewrite <- Zdiv_Qdiv.
    pose proof (Z.div_mod (- Z.of_nat n) 20 ltac:(lia)) as H1.
    pose proof (Z.mod_pos_bound (- Z.of_nat n) 20 ltac:(lia)) as H2.
    pose proof (Z.div_mod (Z.of_nat n + 19) 20 ltac:(lia)) as H3.
    pose proof (Z.mod_pos_bound (Z.of_nat n + 19) 20 ltac:(lia)) as H4.
    lia.
  - rewrite inject_Z_opp. unfold Qdiv. ring.
Qed.

(** Two driver calls that are both answered. *)
Lemma two_calls_answered w :
  answersNext 2 w = true ->
  hd None (faults w) = None /\ hd None (tl (faults w)) = None.
Proof.
  unfold answersNext. destruct (faults w) as [|[e|] [|[e'|] rest]]; cbn;
    try discriminate; auto.
Qed.

End DefaultRequest.

(** X10.  Without query parameters, and when the database answers,
    [GET /api/movies] answers 200 with the first 20 movies of the
    collection, [total] the size of the collection, page 1 and
    [totalPages] the size divided by 20, rounded up. *)
Theorem getMovies_defaults (env : Env.JsEnv) (w : Model.World) :
  Defaults.answersNext 2 w = true ->
  let all := Model.movies (Model.db w) in
  fst (Public.getMovies env Defaults.noParameters w)
  = Model.Ok (Http.mkResponse 200
       (Http.BMovieList (List.length (firstn 20 all)) (List.length all)
          (JsNum.ofZ 1)
          (JsNum.ofZ ((Z.of_nat (List.length all) + 19) / 20))
          (firstn 20 all))).
Proof.
  intros Hans. cbv zeta.
  destruct (two_calls_answered w Hans) as [H1 H2].
  rewrite <- ceil_over_20.
  unfold Public.getMovies, Model.tryCatch, Model.bind, Model.newDateNow,
    Mongoose.Movie_aggregate, Mongoose.Movie_countDocuments, Model.dbCall.
  destruct (Model.faults w) as [|[e|] [|[e'|] rest]]; try discriminate;
    cbn; rewrite ?filter_all; reflexivity.
Qed.

Lemma getMovies_defaults_witness :
  fst (Public.getMovies Demo.env Defaults.noParameters Examples.threeMovies)
  = Model.Ok (Http.mkResponse 200
       (Http.BMovieList 3 3 (JsNum.ofZ 1) (JsNum.ofZ 1)
          [Examples.barbie; Examples.jawan; Examples.avatar])).
Proof.
  exact (getMovies_defaults Demo.env Examples.threeMovies eq_refl).
Defined.


(** ** Writing a movie and reading it back                                *)

Section RoundTrips.
Import Model Env Mongoose Http.
Variable env : JsEnv.


(** The admin's read of an id that casts, when the call is answered. *)
Lemma admin_read id oid w :
  castObjectId env id = Some oid ->
  hd None (faults w) = None ->
  fst (Admin.getMovieById env id w)
  = Ok (match findMovie oid (movies (db w)) with
        | Some m => mkResponse 200 (BMovie m)
        | None => jsonError 404 "Movie not found"
        end).
Proof.
  intros Hc Hf.
  unfold Admin.getMovieById, tryCatch, bind, Movie_findById, dbCall.
  destruct (faults w) as [|[e|] rest]; try discriminate; cbn;
    rewrite Hc; destruct (findMovie oid (movies (db w))); reflexivity.
Qed.

Lemma removeFirst_find (l : list Movie) oid :
  NoDup (map movieId l) ->
  findMovie oid (removeFirst (fun x => N.eqb (movieId x) oid) l) = None.
Proof.
  unfold findMovie.
  induction l as [|y l IH]; cbn [removeFirst find map]; [reflexivity|].
  intros Hnd. inversion Hnd as [|? ? Hnotin Hnd']; subst.
  destruct (N.eqb (movieId y) oid) eqn:Hy.
  - apply N.eqb_eq in Hy. subst oid.
    destruct (find (fun m => N.eqb (movieId m) (movieId y)) l) as [z|] eqn:Hz;
      [|reflexivity].
    apply find_some in Hz. destruct Hz as [Hin Hid].
    apply N.eqb_eq in Hid. exfalso. apply Hnotin. rewrite <- Hid.
    now apply in_map.
  - cbn [find]. rewrite Hy. now apply IH.
Qed.

(** What a successful delete did, with the id it was given. *)
Lemma deleteMovie_ok_id id w msg m :
  fst (Admin.deleteMovie env (Some id) w)
    = Ok (mkResponse 200 (BMessageMovie msg m)) ->
  exists oid,
    castObjectId env id = Some oid /\
    movies (db (snd (Admin.deleteMovie env (Some id) w)))
    = removeFirst (fun x => N.eqb (movieId x) oid) (movies (db w)).
Proof.
  unfold Admin.deleteMovie, tryCatch.
  destruct (JsStr.truthy (Some id)); [|discriminate].
  unfold bind, Movie_findByIdAndDelete, dbCall.
  destruct (faults w) as [|[e|] rest]; cbn [fst snd]; try discriminate;
    (destruct (castObjectId env id) as [oid|]; [|discriminate];
     destruct (findMovie oid (movies (db w))); [|discriminate];
     cbn; intros _; exists oid; split; reflexivity).
Qed.

End RoundTrips.



(** X12.  In a collection whose movies have distinct ids, after a delete
    answered 200 the movie is gone for good: the admin's read of the same
    id and a second delete of it, when the database answers them, are both
    answered 404. *)
Theorem delete_then_read
        (env : Env.JsEnv) (id : string) (w : Model.World)
        (msg : string) (m : Model.Movie) :
  NoDup (map Model.movieId (Model.movies (Model.db w))) ->
  fst (Admin.deleteMovie env (Some id) w)
    = Model.Ok (Http.mkResponse 200 (Http.BMessageMovie msg m)) ->
  let w1 := snd (Admin.deleteMovie env (Some id) w) in
  hd None (Model.faults w1) = None ->
  fst (Admin.getMovieById env id w1)
    = Model.Ok (Http.jsonError 404 "Movie not found") /\
  fst (Admin.deleteMovie env (Some id) w1)
    = Model.Ok (Http.jsonError 404 "Movie not found").
Proof.
  intros Hnd Hrun w1 Hf.
  destruct (deleteMovie_ok_id env id w msg m Hrun) as (oid & Hc & Hdb).
  assert (Hgone : Mongoose.findMovie oid (Model.movies (Model.db w1)) = None).
  { unfold w1. rewrite Hdb. now apply removeFirst_find. }
  split.
  - rewrite (admin_read env id oid w1 Hc Hf). now rewrite Hgone.
  - assert (Ht : JsStr.truthy (Some id) = true).
    { unfold Admin.deleteMovie, Model.tryCatch in Hrun.
      destruct (JsStr.truthy (Some id)); [reflexivity|discriminate]. }
    apply (@unknown_id_404 env Js.insertionEngine
             (App.AdminDeleteMovie (Some id)) w1 id oid);
      auto.
    cbn [App.lookedUpId]. now rewrite Ht.
Qed.

Lemma delete_then_read_witness :
  fst (Admin.getMovieById Demo.env Examples.dashavatarId
         (snd (Admin.deleteMovie Demo.env (Some Examples.dashavatarId)
                 Examples.world1)))
  = Model.Ok (Http.jsonError 404 "Movie not found").
Proof.
  assert (Hrun : exists msg m,
             fst (Admin.deleteMovie Demo.env (Some Examples.dashavatarId)
                    Examples.world1)
             = Model.Ok (Http.mkResponse 200 (Http.BMessageMovie msg m)))
    by (vm_compute; eauto).
  destruct Hrun as (msg & m & Hrun).
  assert (Hnd : NoDup (map Model.movieId
                         (Model.movies (Model.db Examples.world1)))).
  { replace (map Model.movieId (Model.movies (Model.db Examples.world1)))
      with [1%N] by (vm_compute; reflexivity).
    constructor; [simpl; tauto|constructor]. }
  assert (Hf : hd None (Model.faults
                 (snd (Admin.deleteMovie Demo.env (Some Examples.dashavatarId)
                         Examples.world1)))
               = None) by (vm_compute; reflexivity).
  pose proof (delete_then_read Demo.env Examples.dashavatarId Examples.world1
                msg m Hnd Hrun) as H.
  cbv zeta in H. exact (proj1 (H Hf)).
Defined.


(** ** Ids stay distinct                                                  *)

Section IdFacts.
Import Model Env Mongoose Http App Invariants.
Local Open Scope m_scope.
Variable env : JsEnv.
Context {E : Js.SortEngine}.
Variable I : Db -> Prop.

Lemma preserves_ret {A} (a : A) : preserves I (ret a).
Proof. intros w H. exact H. Qed.

Lemma preserves_throw {A} (e : Exn) : preserves I (@throw A e).
Proof. intros w H. exact H. Qed.

Lemma preserves_newDateNow : preserves I newDateNow.
Proof. intros w H. exact H. Qed.

Lemma preserves_liftRand {A} (r : Js.Rand A) : preserves I (liftRand r).
Proof.
  intros w H. unfold liftRand. destruct (r (rng w)) as [a g]. exact H.
Qed.

Lemma preserves_bind {A B} (m : M A) (k : A -> M B) :
  preserves I m -> (forall a, preserves I (k a)) -> preserves I (bind m k).
Proof.
  intros Hm Hk w H. unfold bind. specialize (Hm w H).
  destruct (m w) as [[a|e] w1]; cbn [snd] in *; [|exact Hm].
  exact (Hk a w1 Hm).
Qed.

Lemma preserves_tryCatch {A} (body : M A) (h : Exn -> M A) :
  preserves I body -> (forall e, preserves I (h e)) ->
  preserves I (tryCatch body h).
Proof.
  intros Hb Hh w H. unfold tryCatch. specialize (Hb w H).
  destruct (body w) as [[a|e] w1]; cbn [snd] in *; [exact Hb|].
  exact (Hh e w1 Hb).
Qed.

Lemma preserves_dbCall {A} (c : DbCall) (op : Db -> Result A * Db) :
  (forall d, I d -> I (snd (op d))) -> preserves I (dbCall c op).
Proof.
  intros Hop w H. unfold dbCall.
  destruct (faults w) as [|[e|] rest]; cbn [snd db]; auto;
    specialize (Hop (db w) H); destruct (op (db w)) as [r d]; exact Hop.
Qed.

Lemma preserves_mapM {A B} (f : A -> M B) (xs : list A) :
  (forall x, preserves I (f x)) -> preserves I (mapM f xs).
Proof.
  intros Hf. induction xs as [|x xs IH]; cbn [mapM]; [apply preserves_ret|].
  apply preserves_bind; [apply Hf|]. intros y.
  apply preserves_bind; [exact IH|]. intros ys. apply preserves_ret.
Qed.

End IdFacts.

Section IdOperations.
Import Model Env Mongoose Invariants.
Variable env : JsEnv.

Lemma removeFirst_NoDup {A B} (key : A -> B) (test : A -> bool) l :
  NoDup (map key l) -> NoDup (map key (removeFirst test l)).
Proof.
  induction l as [|y l IH]; cbn [removeFirst map]; [auto|].
  intros Hnd. inversion Hnd as [|? ? Hnotin Hnd']; subst.
  destruct (test y); [exact Hnd'|]. cbn [map]. constructor; [|now apply IH].
  intros Hin. apply Hnotin. clear - Hin.
  induction l as [|z l IHl]; cbn [removeFirst map] in *; [exact Hin|].
  destruct (test z); [now right|].
  destruct Hin as [H|H]; [now left|right; now apply IHl].
Qed.

Lemma filter_NoDup_map {A B} (key : A -> B) (p : A -> bool) l :
  NoDup (map key l) -> NoDup (map key (filter p l)).
Proof.
  induction l as [|y l IH]; cbn [filter map]; [auto|].
  intros Hnd. inversion Hnd as [|? ? Hnotin Hnd']; subst.
  destruct (p y); [|now apply IH]. cbn [map].
  constructor; [|now apply IH].
  intros Hin. apply Hnotin. apply in_map_iff in Hin.
  destruct Hin as (z & Hz & Hin). apply filter_In in Hin.
  rewrite <- Hz. apply in_map. apply Hin.
Qed.

(** The ids given to a batch are new and distinct. *)
Lemma assignIds_NoDup docs : forall existing,
  NoDup existing ->
  NoDup (existing ++ map movieId (assignIds existing docs)).
Proof.
  induction docs as [|m docs IH]; intros existing Hnd; cbn [assignIds map].
  - now rewrite app_nil_r.
  - assert (Hnd' : NoDup (freshId existing :: existing)).
    { constructor; [apply freshId_fresh|exact Hnd]. }
    specialize (IH _ Hnd'). cbn [app] in IH.
    apply (Permutation_NoDup (l := freshId existing
             :: existing ++ map movieId
                  (assignIds (freshId existing :: existing) docs)));
      [|exact IH].
    apply Permutation_middle.
Qed.

Lemma insert_keeps_ids d (fields : Movie) :
  distinctIds d ->
  distinctIds (setMovies d
     (movies d ++ [withId (freshId (map movieId (movies d))) fields])).
Proof.
  intros [Hm Ht]. split; [|exact Ht]. cbn [movies setMovies].
  rewrite map_app. cbn [map withId movieId].
  apply NoDup_app; [exact Hm|repeat constructor; simpl; tauto|].
  intros a Ha [<-|[]]. now apply freshId_fresh in Ha.
Qed.

Lemma NoDup_app_disjoint {A} (l1 l2 : list A) a :
  NoDup (l1 ++ l2) -> In a l1 -> In a l2 -> False.
Proof.
  induction l1 as [|x l1 IH]; cbn [app]; [tauto|].
  intros Hnd [->|Ha] Hin; inversion Hnd as [|? ? Hnotin Hnd']; subst.
  - apply Hnotin. apply in_or_app. now right.
  - now apply IH.
Qed.

Lemma insertMany_keeps_ids d (docs : list Movie) p :
  distinctIds d ->
  distinctIds (setMovies d
     (movies d ++ filter p (assignIds (map movieId (movies d)) docs))).
Proof.
  intros [Hm Ht]. split; [|exact Ht]. cbn [movies setMovies].
  rewrite map_app.
  pose proof (assignIds_NoDup docs _ Hm) as Hall.
  apply NoDup_app; [exact Hm| |].
  - apply filter_NoDup_map. now apply NoDup_app_remove_l in Hall.
  - intros a Ha Hin. apply in_map_iff in Hin.
    destruct Hin as (z & Hz & Hin). apply filter_In in Hin.
    destruct Hin as [Hin _].
    apply (NoDup_app_disjoint _ _ a Hall Ha).
    rewrite <- Hz. now apply in_map.
Qed.

Lemma updateFirst_keeps_movie_ids d test f :
  (forall m, movieId (f m) = movieId m) ->
  distinctIds d -> distinctIds (setMovies d (updateFirst test f (movies d))).
Proof.
  intros Hf [Hm Ht]. split; [|exact Ht]. cbn [movies setMovies].
  now rewrite updateFirst_map.
Qed.

Lemma updateFirst_keeps_theater_ids d test f :
  (forall t, theaterId (f t) = theaterId t) ->
  distinctIds d ->
  distinctIds (setTheaters d (updateFirst test f (theaterDocs d))).
Proof.
  intros Hf [Hm Ht]. split; [exact Hm|]. cbn [theaterDocs setTheaters].
  now rewrite updateFirst_map.
Qed.

Lemma removeFirst_keeps_ids d test :
  distinctIds d -> distinctIds (setMovies d (removeFirst test (movies d))).
Proof.
  intros [Hm Ht]. split; [|exact Ht]. cbn [movies setMovies].
  now apply removeFirst_NoDup.
Qed.

Context {E : Js.SortEngine}.
Local Open Scope m_scope.

Ltac keep_step :=
  match goal with
  | |- preserves _ (bind _ _) => apply preserves_bind; [|intros]
  | |- preserves _ (tryCatch _ _) => apply preserves_tryCatch; [|intros]
  | |- preserves _ (ret _) => apply preserves_ret
  | |- preserves _ (throw _) => apply preserves_throw
  | |- preserves _ newDateNow => apply preserves_newDateNow
  | |- preserves _ (liftRand _) => apply preserves_liftRand
  | |- preserves _ (mapM _ _) => apply preserves_mapM; intros
  | |- preserves _ (dbCall _ _) => apply preserves_dbCall; intros
  | |- preserves _ (match ?x with _ => _ end) => destruct x
  end.

Ltac keep_read := solve [cbn [snd]; assumption].

Lemma linkTheaters_keeps_ids dateStr movie valid : forall embedded,
  preserves distinctIds (Admin.linkTheaters env dateStr movie valid embedded).
Proof.
  induction valid as [|t valid IH]; intros embedded; cbn [Admin.linkTheaters].
  - apply preserves_ret.
  - unfold Theater_findOne, Theater_updateOne.
    repeat keep_step; try keep_read; try apply IH.
    destruct (showtimesValid _); cbn [snd]; [|assumption].
    now apply updateFirst_keeps_theater_ids.
Qed.

Lemma formatTheater_keeps_ids releaseDate a :
  preserves distinctIds (Admin.formatTheater env releaseDate a).
Proof.
  unfold Admin.formatTheater, Theater_findById, Admin.generateDefaultShowtimes.
  repeat keep_step; keep_read.
Qed.

Lemma save_keeps_ids fields :
  preserves distinctIds (Movie_create_save env fields).
Proof.
  unfold Movie_create_save. keep_step.
  destruct (movieError env _); cbn [snd]; [assumption|].
  now apply insert_keeps_ids.
Qed.

Lemma readOnly_preserves (P : Db -> Prop) c :
  Requests.readOnly c = true -> preserves P (App.handle env c).
Proof. intros Hc w H. now rewrite (keepsDb_readOnly env c Hc w). Qed.

(** Every handler keeps the ids distinct. *)
Lemma handle_keeps_ids c : preserves distinctIds (App.handle env c).
Proof.
  destruct c; try (apply readOnly_preserves; reflexivity); cbn [App.handle].
  - unfold Public.createMovie. repeat keep_step. apply save_keeps_ids.
  - unfold Admin.createMovie, Theater_find_limit, Movie_setEmbedded.
    repeat keep_step; try keep_read;
      try apply formatTheater_keeps_ids; try apply save_keeps_ids;
      try apply linkTheaters_keeps_ids;
      (destruct (embeddedValid _); cbn [snd]; [|assumption];
       now apply updateFirst_keeps_movie_ids).
  - unfold Admin.updateMovie, Movie_findByIdAndUpdate.
    repeat keep_step; try keep_read.
    destruct (castObjectId env id) as [oid|]; cbn [snd]; [|assumption].
    destruct (updateError env _); cbn [snd]; [assumption|].
    destruct (findMovie oid (movies d)); cbn [snd]; [|assumption].
    now apply updateFirst_keeps_movie_ids.
  - unfold Admin.deleteMovie, Movie_findByIdAndDelete.
    repeat keep_step; try keep_read.
    destruct (castObjectId env s); cbn [snd]; [|assumption].
    now apply removeFirst_keeps_ids.
  - unfold Admin.bulkCreateMovies, Movie_insertMany.
    repeat keep_step; try keep_read. cbn [snd].
    now apply insertMany_keeps_ids.
Qed.

End IdOperations.

(** X13.  Ids stay distinct: if no two movies and no two theaters share an
    [_id], this is still so after any sequence of requests to any of the
    handlers, whatever the requests hold and whichever database calls
    fail. *)
Theorem ids_stay_distinct
        (env : Env.JsEnv) (E : Js.SortEngine) (cs : list App.Call)
        (w : Model.World) :
  Invariants.distinctIds (Model.db w) ->
  Invariants.distinctIds (Model.db (Invariants.serveAll env cs w)).
Proof.
  revert w. induction cs as [|c cs IH]; intros w H; cbn [Invariants.serveAll].
  - exact H.
  - apply IH. now apply handle_keeps_ids.
Qed.

Lemma world1_distinct : Invariants.distinctIds (Model.db Examples.world1).
Proof.
  split.
  - replace (map Model.movieId (Model.movies (Model.db Examples.world1)))
      with [1%N] by (vm_compute; reflexivity).
    constructor; [simpl; tauto|constructor].
  - replace (map Model.theaterId (Model.theaterDocs (Model.db Examples.world1)))
      with [1%N] by (vm_compute; reflexivity).
    constructor; [simpl; tauto|constructor].
Qed.

Lemma ids_stay_distinct_witness :
  Invariants.distinctIds
    (Model.db (@Invariants.serveAll Demo.env Js.insertionEngine
                 [App.PublicCreateMovie Examples.matinee;
                  App.AdminBulkCreateMovies
                    (Some [Examples.barbie; Examples.jawan]);
                  App.AdminDeleteMovie (Some Examples.dashavatarId)]
                 Examples.world1)).
Proof.
  exact (ids_stay_distinct Demo.env Js.insertionEngine _ Examples.world1
           world1_distinct).
Defined.

Section CreateFacts.
Import Model Env Mongoose Http.
Variable env : JsEnv.

Lemma find_last {A} (test : A -> bool) l x :
  (forall y, In y l -> test y = false) -> test x = true ->
  find test (l ++ [x]) = Some x.
Proof.
  intros Hl Hx. induction l as [|y l IH]; cbn [app find].
  - now rewrite Hx.
  - rewrite (Hl y (or_introl eq_refl)). apply IH.
    intros z Hz. apply Hl. now right.
Qed.

End CreateFacts.

(** X14.  The public [createMovie] either answers 201 with the movie it
    stored or answers 400 and stores nothing.  On 201 the movie is the
    body under an id that no movie had, it is added at the end of the
    collection, and a read of that id, when the database answers it,
    returns it. *)
Theorem createMovie_then_read
        (env : Env.JsEnv) (reqBody : Model.Movie) (w : Model.World) :
  let r := fst (Public.createMovie env reqBody w) in
  let w1 := snd (Public.createMovie env reqBody w) in
  (exists saved,
     r = Model.Ok (Http.mkResponse 201 (Http.BMovie saved)) /\
     saved = Mongoose.withId (Model.movieId saved) reqBody /\
     ~ In (Model.movieId saved)
          (map Model.movieId (Model.movies (Model.db w))) /\
     Model.movies (Model.db w1) = (Model.movies (Model.db w) ++ [saved])%list /\
     forall id,
       Env.castObjectId env id = Some (Model.movieId saved) ->
       hd None (Model.faults w1) = None ->
       fst (Admin.getMovieById env id w1)
       = Model.Ok (Http.mkResponse 200 (Http.BMovie saved)))
  \/
  (exists details,
     r = Model.Ok (Http.mkResponse 400
                     (Http.BError "Failed to create movie" (Some details))) /\
     Model.db w1 = Model.db w).
Proof.
  cbv zeta.
  unfold Public.createMovie, Model.tryCatch, Model.bind,
    Mongoose.Movie_create_save, Model.dbCall.
  set (saved := Mongoose.withId
                  (Mongoose.freshId (map Model.movieId
                                         (Model.movies (Model.db w))))
                  reqBody).
  assert (Hfresh : ~ In (Model.movieId saved)
                        (map Model.movieId (Model.movies (Model.db w))))
    by apply freshId_fresh.
  assert (Hok : forall rest cs,
    forall id,
      Env.castObjectId env id = Some (Model.movieId saved) ->
      hd None rest = None ->
      fst (Admin.getMovieById env id
             (Model.mkWorld
                (Mongoose.setMovies (Model.db w)
                   (Model.movies (Model.db w) ++ [saved]))
                rest cs (Model.rng w) (Model.now w)))
      = Model.Ok (Http.mkResponse 200 (Http.BMovie saved))).
  { intros rest cs id Hc Hf.
    rewrite (admin_read env id (Model.movieId saved) _ Hc); [|exact Hf].
    cbn [Model.db Model.movies Mongoose.setMovies].
    unfold Mongoose.findMovie. rewrite find_last; [reflexivity| |].
    - intros y Hy. apply N.eqb_neq. intros Heq. apply Hfresh.
      rewrite <- Heq. now apply in_map.
    - apply N.eqb_refl. }
  destruct (Model.faults w) as [|[e|] rest]; cbn [fst snd].
  - destruct (Mongoose.movieError env saved) as [e|]; cbn [fst snd].
    + right. eexists. split; reflexivity.
    + left. exists saved. split; [reflexivity|]. split; [reflexivity|].
      split; [exact Hfresh|]. split; [reflexivity|]. intros id. apply Hok.
  - right. eexists. split; reflexivity.
  - destruct (Mongoose.movieError env saved) as [e|]; cbn [fst snd].
    + right. eexists. split; reflexivity.
    + left. exists saved. split; [reflexivity|]. split; [reflexivity|].
      split; [exact Hfresh|]. split; [reflexivity|]. intros id. apply Hok.
Qed.

Lemma createMovie_then_read_witness :
  exists saved,
    fst (Public.createMovie Demo.env Examples.matinee Examples.world1)
    = Model.Ok (Http.mkResponse 201 (Http.BMovie saved)).
Proof.
  destruct (createMovie_then_read Demo.env Examples.matinee Examples.world1)
    as [(saved & H & _)|(details & H & _)]; [eauto|].
  vm_compute in H. discriminate.
Defined.


(** ** The admin's [createMovie]: what a 201 means                        *)

Section CreateSteps.
Import Model Env Mongoose Http Links.
Local Open Scope m_scope.
Variable env : JsEnv.
Context {E : Js.SortEngine}.

Lemma bind_ok {A B} (m : M A) (k : A -> M B) w b w' :
  bind m k w = (Ok b, w') ->
  exists a w1, m w = (Ok a, w1) /\ k a w1 = (Ok b, w').
Proof.
  unfold bind. destruct (m w) as [[a|e] w1]; [eauto|discriminate].
Qed.

(** A driver call that returns ran its operation; the clock is untouched and
    the call is logged. *)
Lemma dbCall_returns {A} (c : DbCall) (op : Db -> Result A * Db) w a w1 :
  dbCall c op w = (Ok a, w1) ->
  op (db w) = (Ok a, db w1) /\ now w1 = now w /\
  calls w1 = (calls w ++ [c])%list.
Proof.
  unfold dbCall.
  destruct (faults w) as [|[e|] rest]; try discriminate;
    destruct (op (db w)) as [r d]; intros H; injection H as -> <-;
    cbn [db now calls]; auto.
Qed.







End CreateSteps.




(** ** The seed script's loop: what the theaters hold when it ends        *)

Section SeedTotals.
Import Model Env Mongoose Seed Links.
Variable env : JsEnv.
Context {E : Js.SortEngine}.



End SeedTotals.




(** ** The TMDB details handler                                            *)

Section DetailsFacts.
Import JsStr Model Http TmdbDetails.

Lemma length_list_ascii s :
  List.length (list_ascii_of_string s) = String.length s.
Proof. induction s as [|c s IH]; cbn; [reflexivity|now rewrite IH]. Qed.

Lemma isDay_length s : isDay s = true -> String.length s = 10%nat.
Proof.
  unfold isDay. rewrite <- length_list_ascii.
  destruct (list_ascii_of_string s) as [|y1 [|y2 [|y3 [|y4 [|s1 [|m1 [|m2
    [|s2 [|d1 [|d2 [|x l]]]]]]]]]]]; try discriminate. reflexivity.
Qed.

Lemma strIs_eq o s : Public.strIs o s = true -> o = Some s.
Proof.
  destruct o as [x|]; cbn; [|discriminate].
  intros H. apply String.eqb_eq in H. now subst.
Qed.

Lemma prefixed_cases prefix x :
  prefixed prefix x = "" \/
  exists s, x = Some s /\ s <> "" /\ prefixed prefix x = prefix ++ s.
Proof.
  destruct x as [[|c s]|]; cbn; auto.
  right. exists (String c s). repeat split. discriminate.
Qed.

Lemma language_supported d : In (language d) Tmdb.supportedLanguages.
Proof.
  unfold language. destruct (original_language d) as [l|]; [|now left].
  destruct (includes Tmdb.supportedLanguages l) eqn:H; [|now left].
  unfold includes in H. apply existsb_exists in H.
  destruct H as (x & Hin & Heq). apply String.eqb_eq in Heq. now subst.
Qed.

Lemma castList_length credits : (List.length (castList credits) <= 10)%nat.
Proof.
  destruct credits as [cs|]; cbn [castList List.length]; [|lia].
  rewrite length_map, List.length_firstn. lia.
Qed.

(** The video chosen is in the list and is what its rank says. *)
Lemma trailer_chosen videos v :
  trailer videos = Some v ->
  In v videos /\ onYouTube v = true /\
  (officialTrailer v = true
   \/ (anyTrailer v = true
       /\ forall u, In u videos -> officialTrailer u = false)
   \/ (teaserOrClip v = true
       /\ forall u, In u videos -> anyTrailer u = false)).
Proof.
  unfold trailer.
  destruct (find officialTrailer videos) as [a|] eqn:Ha.
  { intros H; injection H as <-. apply find_some in Ha.
    destruct Ha as [Hin Hv]. split; [exact Hin|]. split; [|now left].
    unfold officialTrailer in Hv.
    apply andb_prop in Hv. destruct Hv as [Hv _].
    apply andb_prop in Hv. tauto. }
  destruct (find anyTrailer videos) as [t|] eqn:Ht.
  { intros H; injection H as <-. apply find_some in Ht.
    destruct Ht as [Hin Hv]. split; [exact Hin|]. split.
    - unfold anyTrailer in Hv. apply andb_prop in Hv. tauto.
    - right; left. split; [exact Hv|].
      intros u Hu. exact (find_none _ _ Ha u Hu). }
  intros Hc. apply find_some in Hc. destruct Hc as [Hin Hv].
  split; [exact Hin|]. split.
  - unfold teaserOrClip in Hv. apply andb_prop in Hv. tauto.
  - right; right. split; [exact Hv|].
    intros u Hu. exact (find_none _ _ Ht u Hu).
Qed.

Lemma find_first {A} (test : A -> bool) l x :
  find test l = Some x ->
  exists before after,
    l = (before ++ x :: after)%list /\ test x = true /\
    forall y, In y before -> test y = false.
Proof.
  induction l as [|a l IH]; cbn [find]; [discriminate|].
  destruct (test a) eqn:Ha.
  - intros H; injection H as <-. exists [], l. repeat split; auto.
    intros y [].
  - intros H. destruct (IH H) as (before & after & -> & Hx & Hb).
    exists (a :: before), after. repeat split; auto.
    intros y [<-|Hy]; auto.
Qed.

Lemma find_before {A} (test : A -> bool) before x after :
  (forall y, In y before -> test y = false) -> test x = true ->
  find test (before ++ x :: after) = Some x.
Proof.
  intros Hb Hx. induction before as [|y before IH]; cbn [app find].
  - now rewrite Hx.
  - rewrite (Hb y (or_introl eq_refl)). apply IH.
    intros z Hz. apply Hb. now right.
Qed.

Lemma find_exists {A} (test : A -> bool) l x :
  In x l -> test x = true -> exists y, find test l = Some y.
Proof.
  intros Hin Hx. destruct (find test l) as [y|] eqn:Hf; [eauto|].
  rewrite (find_none _ _ Hf x Hin) in Hx. discriminate.
Qed.

Section Refines.
Variable getDetails : string -> Tmdb.AxiosOutcome (option DetailsData).
Variable getCredits : string -> Tmdb.AxiosOutcome (option (list Credit)).
Variable getVideos : string -> Tmdb.AxiosOutcome (list Video).

(** The model of the handler used for the status codes keeps the status,
    the title, the language and the cast of this one. *)
Lemma details_refines id apiKey :
  Tmdb.getTmdbMovieDetails
    (fun i => mapOutcome (option_map coarseDetails) (getDetails i))
    (fun i => mapOutcome coarseCredits (getCredits i))
    (fun i => mapOutcome (fun _ => tt) (getVideos i)) id apiKey
  = toResponse (getTmdbMovieDetails getDetails getCredits getVideos id apiKey).
Proof.
  unfold Tmdb.getTmdbMovieDetails, getTmdbMovieDetails.
  destruct (negb (truthy apiKey)); [reflexivity|].
  destruct (getDetails id) as [st d|msg]; cbn [mapOutcome]; [|reflexivity].
  destruct (getCredits id) as [st2 c|msg]; cbn [mapOutcome]; [|reflexivity].
  destruct (getVideos id) as [st3 v|msg]; cbn [mapOutcome]; [|reflexivity].
  destruct d as [d|]; cbn [option_map]; [|reflexivity].
  destruct (st =? 200); [|reflexivity].
  cbn [toResponse detailsJson jTitle jLanguage jCast coarseDetails
       Tmdb.dTitle Tmdb.dOriginalLanguage].
  unfold language.
  destruct (original_language d) as [l|];
    destruct c as [cs|]; cbn [coarseCredits castList orEmpty];
    rewrite ?firstn_map; reflexivity.
Qed.

End Refines.

End DetailsFacts.

(** X17.  Every 200 answer of [getTmdbMovieDetails]: the key was configured
    and the details request answered 200 with a body; the language is one of
    the eleven supported ones; the cast has at most ten members, each photo
    URL empty or a w185 image URL with a non-empty path; the release date is
    empty or TMDB's own text of ten characters; the trailer URL is empty or
    the YouTube watch URL of a video of the answer that is on YouTube and has
    a non-empty key. *)
Theorem details_answer_shape
        (getDetails : string -> Tmdb.AxiosOutcome (option TmdbDetails.DetailsData))
        (getCredits : string -> Tmdb.AxiosOutcome (option (list TmdbDetails.Credit)))
        (getVideos : string -> Tmdb.AxiosOutcome (list TmdbDetails.Video))
        (id : string) (apiKey : option string) (st : Z)
        (b : TmdbDetails.DetailsJson) :
  TmdbDetails.getTmdbMovieDetails getDetails getCredits getVideos id apiKey
  = TmdbDetails.Json st b ->
  st = 200 /\ JsStr.truthy apiKey = true /\
  (exists d, getDetails id = Tmdb.Response 200 (Some d) /\
     (TmdbDetails.jReleaseDate b = ""
      \/ (TmdbDetails.release_date d = Some (TmdbDetails.jReleaseDate b)
          /\ String.length (TmdbDetails.jReleaseDate b) = 10%nat))) /\
  In (TmdbDetails.jLanguage b) Tmdb.supportedLanguages /\
  (List.length (TmdbDetails.jCast b) <= 10)%nat /\
  Forall (fun c =>
            Model.castPhotoUrl c = ""
            \/ exists p, p <> "" /\
                 Model.castPhotoUrl c
                 = "https://image.tmdb.org/t/p/w185" ++ p)
         (TmdbDetails.jCast b) /\
  (TmdbDetails.jTrailerUrl b = ""
   \/ exists st' videos v k,
        getVideos id = Tmdb.Response st' videos /\ In v videos /\
        TmdbDetails.site v = Some "YouTube" /\
        TmdbDetails.key v = Some k /\ k <> "" /\
        TmdbDetails.jTrailerUrl b = "https://www.youtube.com/watch?v=" ++ k).
Proof.
  unfold TmdbDetails.getTmdbMovieDetails.
  destruct (JsStr.truthy apiKey); cbn [negb]; [|discriminate].
  destruct (getDetails id) as [st1 d|msg]; [|discriminate].
  destruct (getCredits id) as [st2 credits|msg]; [|discriminate].
  destruct (getVideos id) as [st3 videos|msg]; [|discriminate].
  destruct d as [d|]; [|discriminate].
  destruct (st1 =? 200) eqn:Hst; [|discriminate].
  apply Z.eqb_eq in Hst. subst st1.
  intros H; injection H as <- <-.
  cbn [TmdbDetails.detailsJson TmdbDetails.jReleaseDate TmdbDetails.jLanguage
       TmdbDetails.jCast TmdbDetails.jTrailerUrl].
  split; [reflexivity|]. split; [reflexivity|]. split.
  { exists d. split; [reflexivity|]. unfold TmdbDetails.releaseDate.
    destruct (TmdbDetails.release_date d) as [s|]; [|now left].
    destruct (TmdbDetails.isDay s) eqn:Hday; [|now left].
    right. split; [reflexivity|now apply isDay_length]. }
  split; [apply language_supported|].
  split; [apply castList_length|].
  split.
  { destruct credits as [cs|]; cbn [TmdbDetails.castList]; [|constructor].
    apply Forall_forall. intros c Hc. apply in_map_iff in Hc.
    destruct Hc as (x & <- & _). cbn [TmdbDetails.castOf Model.castPhotoUrl].
    destruct (prefixed_cases "https://image.tmdb.org/t/p/w185"
                (TmdbDetails.profile_path x)) as [He|(p & _ & Hp & He)];
      [now left|right; eauto]. }
  unfold TmdbDetails.trailerUrl.
  destruct (TmdbDetails.trailer videos) as [v|] eqn:Hv; [|now left].
  destruct (prefixed_cases "https://www.youtube.com/watch?v="
              (TmdbDetails.key v)) as [He|(k & Hk & Hne & He)]; [now left|].
  right. exists st3, videos, v, k.
  destruct (trailer_chosen videos v Hv) as (Hin & Hsite & _).
  repeat split; auto. now apply strIs_eq.
Qed.

Lemma details_answer_shape_witness :
  exists b,
    TmdbDetails.getTmdbMovieDetails DetailsExamples.details
      DetailsExamples.credits DetailsExamples.videos "872585" (Some "k")
    = TmdbDetails.Json 200 b /\
    (List.length (TmdbDetails.jCast b) <= 10)%nat /\
    TmdbDetails.jTrailerUrl b = "https://www.youtube.com/watch?v=bK6ldnjE3Y0" /\
    TmdbDetails.jGenre b = "Drama, History".
Proof.
  eexists. split; [reflexivity|]. split.
  - exact (proj1 (proj2 (proj2 (proj2 (proj2
             (details_answer_shape DetailsExamples.details
                DetailsExamples.credits DetailsExamples.videos "872585"
                (Some "k") 200 _ eq_refl)))))).
  - split; reflexivity.
Defined.

(** X18.  The trailer is chosen by rank, then by position.  A video is the
    one chosen exactly when it stands in the answer's list and is the first
    official YouTube trailer there; or the list has no official YouTube
    trailer and it is the first YouTube trailer; or the list has no YouTube
    trailer at all and it is the first YouTube teaser or clip.  None is
    chosen exactly when the list holds none of the three.  The choice does
    not look at the key: when the chosen video has none, the trailer URL is
    empty whatever the other videos are. *)
Theorem trailer_by_rank (videos : list TmdbDetails.Video) :
  (forall v,
     TmdbDetails.trailer videos = Some v <->
     exists before after,
       videos = (before ++ v :: after)%list /\
       ((TmdbDetails.officialTrailer v = true /\
         forall y, In y before -> TmdbDetails.officialTrailer y = false)
        \/ (TmdbDetails.anyTrailer v = true /\
            (forall y, In y videos -> TmdbDetails.officialTrailer y = false) /\
            forall y, In y before -> TmdbDetails.anyTrailer y = false)
        \/ (TmdbDetails.teaserOrClip v = true /\
            (forall y, In y videos -> TmdbDetails.anyTrailer y = false) /\
            forall y, In y before -> TmdbDetails.teaserOrClip y = false))) /\
  (TmdbDetails.trailer videos = None <->
   forall u, In u videos ->
     TmdbDetails.anyTrailer u = false /\ TmdbDetails.teaserOrClip u = false) /\
  (forall v, TmdbDetails.trailer videos = Some v ->
     JsStr.truthy (TmdbDetails.key v) = false ->
     TmdbDetails.trailerUrl videos = "").
Proof.
  assert (Hoff : forall u, TmdbDetails.anyTrailer u = false ->
                           TmdbDetails.officialTrailer u = false).
  { intros u Hu. unfold TmdbDetails.officialTrailer.
    unfold TmdbDetails.anyTrailer in Hu. now rewrite Hu. }
  split; [|split].
  - intros v. unfold TmdbDetails.trailer. split.
    + destruct (find TmdbDetails.officialTrailer videos) as [a|] eqn:Ha.
      { intros H; injection H as <-.
        destruct (find_first _ _ _ Ha) as (before & after & Heq & Hv & Hb).
        exists before, after. split; [exact Heq|]. left. now split. }
      destruct (find TmdbDetails.anyTrailer videos) as [t|] eqn:Ht.
      { intros H; injection H as <-.
        destruct (find_first _ _ _ Ht) as (before & after & Heq & Hv & Hb).
        exists before, after. split; [exact Heq|]. right; left.
        split; [exact Hv|]. split; [|exact Hb].
        intros y Hy. exact (find_none _ _ Ha y Hy). }
      intros Hc.
      destruct (find_first _ _ _ Hc) as (before & after & Heq & Hv & Hb).
      exists before, after. split; [exact Heq|]. right; right.
      split; [exact Hv|]. split; [|exact Hb].
      intros y Hy. exact (find_none _ _ Ht y Hy).
    + intros (before & after & Heq & Hrank).
      assert (Hnone : forall test : TmdbDetails.Video -> bool,
                (forall y, In y videos -> test y = false) ->
                find test videos = None).
      { intros test Hall. destruct (find test videos) as [x|] eqn:Hx;
          [|reflexivity].
        apply find_some in Hx. destruct Hx as [Hin Hx].
        rewrite (Hall x Hin) in Hx. discriminate. }
      destruct Hrank as [[Hv Hb]|[(Hv & Hno & Hb)|(Hv & Hno & Hb)]].
      * rewrite Heq, (find_before _ _ _ _ Hb Hv). reflexivity.
      * rewrite (Hnone _ Hno).
        rewrite Heq, (find_before _ _ _ _ Hb Hv). reflexivity.
      * rewrite (Hnone _ (fun y Hy => Hoff y (Hno y Hy))), (Hnone _ Hno).
        rewrite Heq. apply find_before; assumption.
  - unfold TmdbDetails.trailer. split.
    + destruct (find TmdbDetails.officialTrailer videos); [discriminate|].
      destruct (find TmdbDetails.anyTrailer videos) eqn:Ha; [discriminate|].
      intros Hc u Hu. split; [exact (find_none _ _ Ha u Hu)|].
      exact (find_none _ _ Hc u Hu).
    + intros Hnone.
      destruct (find TmdbDetails.officialTrailer videos) as [v|] eqn:Ho.
      { apply find_some in Ho. destruct Ho as [Hin Hv].
        rewrite (Hoff v (proj1 (Hnone v Hin))) in Hv. discriminate. }
      destruct (find TmdbDetails.anyTrailer videos) as [v|] eqn:Ha.
      { apply find_some in Ha. destruct Ha as [Hin Hv].
        destruct (Hnone v Hin) as [Hany _]. congruence. }
      destruct (find TmdbDetails.teaserOrClip videos) as [v|] eqn:Hc;
        [|reflexivity].
      apply find_some in Hc. destruct Hc as [Hin Hv].
      destruct (Hnone v Hin) as [_ Hno]. congruence.
  - intros v Hv Hkey. unfold TmdbDetails.trailerUrl. rewrite Hv.
    destruct (TmdbDetails.key v) as [[|c k]|]; try reflexivity.
    discriminate.
Qed.

Lemma trailer_by_rank_witness :
  TmdbDetails.trailerUrl
    [DetailsExamples.teaser; DetailsExamples.officialNoKey;
     DetailsExamples.fanTrailer] = "".
Proof.
  exact (proj2 (proj2
           (trailer_by_rank
              [DetailsExamples.teaser; DetailsExamples.officialNoKey;
               DetailsExamples.fanTrailer]))
           DetailsExamples.officialNoKey eq_refl eq_refl).
Defined.


(** ** Sorted listings                                                     *)

Section SortFacts.
Import Model Env Mongoose Http Order.
Variable env : JsEnv.













End SortFacts.






(** ** Bulk creation                                                       *)

Section BulkFacts.
Import Model Env Mongoose Http.
Variable env : JsEnv.




End BulkFacts.




(** ** The public [getMovieById]: what a 200 carries                      *)

Section ViewFacts.
Import Model Env Mongoose Http Views.
Local Open Scope m_scope.
Variable env : JsEnv.

Lemma isoOf_ok d w s w' :
  Public.isoOf env d w = (Ok s, w') ->
  w' = w /\ exists ms, d = ValidDate ms /\ s = toISOString env ms.
Proof.
  destruct d as [ms|]; cbn; [|discriminate].
  intros H; injection H as <- <-. eauto.
Qed.

(** A sequential map whose callbacks leave the world alone. *)
Lemma mapM_pure {A B} (f : A -> M B) (R : A -> B -> Prop) :
  (forall x w y w', f x w = (Ok y, w') -> w' = w /\ R x y) ->
  forall xs w ys w',
    mapM f xs w = (Ok ys, w') -> w' = w /\ Forall2 R xs ys.
Proof.
  intros Hf. induction xs as [|x xs IH]; intros w ys w' H; cbn [mapM] in H.
  - injection H as <- <-. split; [reflexivity|constructor].
  - apply bind_ok in H. destruct H as (y & w1 & Hx & H).
    apply bind_ok in H. destruct H as (ys' & w2 & Hxs & H).
    injection H as <- <-.
    destruct (Hf _ _ _ _ Hx) as [-> Hy].
    destruct (IH _ _ _ Hxs) as [-> Hys].
    split; [reflexivity|now constructor].
Qed.

Lemma viewShowtime_ok s w sv w' :
  Public.viewShowtime env s w = (Ok sv, w') ->
  w' = w /\ showtimeViewed env s sv.
Proof.
  unfold Public.viewShowtime. intros H.
  apply bind_ok in H. destruct H as (iso & w1 & Hiso & H).
  injection H as <- <-.
  destruct (isoOf_ok _ _ _ _ Hiso) as (-> & ms & Hd & ->).
  split; [reflexivity|]. exists ms. split; [exact Hd|reflexivity].
Qed.

Lemma viewTheater_ok e w v w' :
  Public.viewTheater env e w = (Ok v, w') ->
  w' = w /\ theaterViewed env e v.
Proof.
  unfold Public.viewTheater. intros H.
  apply bind_ok in H. destruct H as (sts & w1 & Hsts & H).
  injection H as <- <-.
  destruct (mapM_pure _ _ viewShowtime_ok _ _ _ _ Hsts) as [-> Hall].
  split; [reflexivity|]. repeat split. exact Hall.
Qed.

End ViewFacts.

(** X22.  A 200 answer of the public [getMovieById]: the id is a valid
    ObjectId and the movie sent is the one the collection holds under it;
    [theaters] has one entry per embedded theater, in order, with the same
    name and location and the same showtimes, each start time sent as the
    ISO text of its date; the release date is sent as ISO text, or as null
    when the movie has none; every date involved is a valid one; and the
    database is as before. *)
Theorem getMovieById_views
        (env : Env.JsEnv) (id : string) (w w' : Model.World)
        (m : Model.Movie) (iso : option string)
        (views : list Http.TheaterView) :
  Public.getMovieById env id w
  = (Model.Ok (Http.mkResponse 200 (Http.BMovieDetail m iso views)), w') ->
  Env.objectIdIsValid env id = true /\
  (exists oid, Env.castObjectId env id = Some oid /\
     Mongoose.findMovie oid (Model.movies (Model.db w)) = Some m) /\
  Forall2 (Views.theaterViewed env) (Model.embeddedTheaters m) views /\
  match Model.releaseDate m with
  | Some d => exists ms, d = Model.ValidDate ms /\
                         iso = Some (Env.toISOString env ms)
  | None => iso = None
  end /\
  Model.db w' = Model.db w.
Proof.
  unfold Public.getMovieById.
  destruct (Env.objectIdIsValid env id); cbn [negb]; [|discriminate].
  unfold Model.tryCatch.
  match goal with
  | |- (match ?body w with _ => _ end) = _ -> _ =>
      destruct (body w) as [[resp|e] w2] eqn:Hbody
  end; [|discriminate].
  intros H; injection H as -> ->.
  apply bind_ok in Hbody. destruct Hbody as (found & w1 & Hfind & Hbody).
  apply dbCall_returns in Hfind. destruct Hfind as (Hop & _ & _).
  destruct (Env.castObjectId env id) as [oid|]; [|discriminate].
  injection Hop as Hfound Hdb.
  destruct found as [movie|]; [|discriminate].
  apply bind_ok in Hbody. destruct Hbody as (vs & w2 & Hviews & Hbody).
  destruct (mapM_pure _ _ (viewTheater_ok env) _ _ _ _ Hviews) as [-> Hall].
  apply bind_ok in Hbody. destruct Hbody as (iso' & w3 & Hiso & Hbody).
  injection Hbody as <- <- <- <-.
  split; [reflexivity|].
  split; [exists oid; split; [reflexivity|now symmetry]|].
  split; [exact Hall|].
  destruct (Model.releaseDate movie) as [d|].
  - apply bind_ok in Hiso. destruct Hiso as (s & w4 & Hs & Hiso).
    injection Hiso as <- <-.
    destruct (isoOf_ok _ _ _ _ _ Hs) as (-> & ms & Hd & ->).
    split; [eauto|]. now symmetry.
  - injection Hiso as <- <-. split; [reflexivity|now symmetry].
Qed.

Lemma getMovieById_views_witness :
  exists m iso views,
    fst (Public.getMovieById Demo.env Examples.dashavatarId Examples.world1)
    = Model.Ok (Http.mkResponse 200 (Http.BMovieDetail m iso views)) /\
    Forall2 (Views.theaterViewed Demo.env) (Model.embeddedTheaters m) views.
Proof.
  destruct (Public.getMovieById Demo.env Examples.dashavatarId
              Examples.world1) as [r w'] eqn:Hrun.
  assert (Hr : exists m iso views,
             r = Model.Ok (Http.mkResponse 200
                             (Http.BMovieDetail m iso views))).
  { vm_compute in Hrun. injection Hrun as <- _. eauto. }
  destruct Hr as (m & iso & views & ->).
  exists m, iso, views. split; [reflexivity|].
  exact (proj1 (proj2 (proj2
           (getMovieById_views Demo.env Examples.dashavatarId
              Examples.world1 w' m iso views Hrun)))).
Defined.


(** ** The admin's listings of bookings and users                          *)

Section ListingFacts.
Import JsNum Model Env Mongoose Http.
Variable env : JsEnv.



End ListingFacts.






(** ** Exceptions that leave a handler                                     *)

(** X25.  Of all handlers only [pingAdmin] can throw, and only for a request
    without a signed-in user: reading the role of [undefined] is a
    TypeError, raised before anything is answered or changed.  [pingAdmin]
    is not [async], so Express hands the exception to the global error
    handler of [server.js], which answers an error without a [status] with
    500 and the error's message. *)
Theorem only_pingAdmin_throws
        (env : Env.JsEnv) (E : Js.SortEngine) (c : App.Call)
        (w w' : Model.World) (err : Model.Exn) :
  App.handle env c w = (Model.Throw err, w') ->
  c = App.AdminPingAdmin None /\ w' = w /\
  Model.exnName err = "TypeError" /\
  Server.errorHandler (Server.ofExn err)
  = Http.jsonError 500 (Model.exnMessage err) /\
  Http.status (Server.errorHandler (Server.ofExn err)) = 500.
Proof.
  intros Hrun.
  destruct (App.hasTryCatch c) eqn:Htry.
  - destruct (handle_responds env c w Htry) as (resp & w1 & Hok & _).
    rewrite Hok in Hrun. discriminate.
  - destruct c; try discriminate.
    destruct user as [u|]; cbn in Hrun.
    + destruct (negb (String.eqb (Model.userRole u) "admin"));
        discriminate.
    + injection Hrun as <- <-. repeat split.
Qed.

Lemma only_pingAdmin_throws_witness :
  Server.errorHandler
    (Server.ofExn
       (Model.mkExn "TypeError"
          "Cannot read properties of undefined (reading 'role')"))
  = Http.jsonError 500 "Cannot read properties of undefined (reading 'role')".
Proof.
  exact (proj1 (proj2 (proj2 (proj2
           (only_pingAdmin_throws Demo.env Js.insertionEngine
              (App.AdminPingAdmin None) Examples.world1 Examples.world1
              (Model.mkExn "TypeError"
                 "Cannot read properties of undefined (reading 'role')")
              eq_refl))))).
Defined.

(* ===================================================================== *)
(** * Rounding to a double

    Facts about [JsNum.roundToDouble] that justify the exact quotient of
    [JsNum.div] where the handlers use it. *)

Section RoundingFacts.
Import JsNum.
Local Open Scope Q_scope.

Lemma nearestEven_near x :
  inject_Z (nearestEven x) - x <= 1 # 2 /\ x - inject_Z (nearestEven x) <= 1 # 2.
Proof.
  unfold nearestEven.
  pose proof (Qfloor_le x) as Hlo. pose proof (Qlt_floor x) as Hhi.
  rewrite inject_Z_plus in Hhi. change (inject_Z 1) with 1 in Hhi.
  destruct (x - inject_Z (Qfloor x) ?= 1 # 2) eqn:C;
    [apply Qeq_alt in C; destruct (Z.even (Qfloor x))
    |apply Qlt_alt in C|apply Qgt_alt in C];
    rewrite ?inject_Z_plus; change (inject_Z 1) with 1;
    set (f := inject_Z (Qfloor x)) in *; clearbody f; split; lra.
Qed.

Lemma nearestEven_integer x z : x == inject_Z z -> nearestEven x = z.
Proof.
  intros Hx. unfold nearestEven.
  assert (Hf : Qfloor x = z) by (rewrite Hx; apply Qfloor_Z).
  rewrite Hf.
  assert (C : (x - inject_Z z ?= 1 # 2) = Lt).
  { apply Qlt_alt. rewrite Hx. unfold Qminus. rewrite Qplus_opp_r. reflexivity. }
  now rewrite C.
Qed.

Lemma pow2_pos e : 0 < pow2 e.
Proof. unfold pow2. apply Qpower_0_lt. reflexivity. Qed.

Lemma pow2_plus a b : pow2 (a + b) == pow2 a * pow2 b.
Proof. unfold pow2. apply Qpower_plus. discriminate. Qed.

Lemma pow2_lt_inv a b : pow2 a < pow2 b -> (a < b)%Z.
Proof. unfold pow2. intros H. apply (Qpower_lt_compat_l_inv 2); [exact H|reflexivity]. Qed.

Lemma pow2_le a b : (a <= b)%Z -> pow2 a <= pow2 b.
Proof. unfold pow2. intros H. apply Qpower_le_compat_l; [exact H|discriminate]. Qed.

Lemma pow2_Z e : (0 <= e)%Z -> pow2 e == inject_Z (2 ^ e).
Proof. intros H. unfold pow2. now rewrite Zpower_Qpower. Qed.

(** [log2floor a] is not above the binary logarithm of [a]. *)
Lemma log2floor_le a : 0 < a -> pow2 (log2floor a) <= a.
Proof.
  intros Ha. unfold log2floor.
  set (l := (Z.log2 (Qnum a) - Z.log2 (Z.pos (Qden a)))%Z).
  destruct (Qle_bool (pow2 l) a) eqn:Ht; [now apply Qle_bool_iff|].
  destruct a as [n d]. cbn [Qnum Qden] in *.
  assert (Hn : (0 < n)%Z).
  { unfold Qlt in Ha. cbn in Ha. lia. }
  pose proof (Z.log2_spec n Hn) as [Hn1 _].
  pose proof (Z.log2_spec (Z.pos d) (Pos2Z.is_pos d)) as [_ Hd2].
  pose proof (Z.log2_nonneg n) as Hln.
  pose proof (Z.log2_nonneg (Z.pos d)) as Hld.
  replace (l - 1)%Z with (Z.log2 n + - (Z.log2 (Z.pos d) + 1))%Z by (unfold l; lia).
  rewrite pow2_plus. unfold pow2 at 2. rewrite Qpower_opp.
  fold (pow2 (Z.log2 (Z.pos d) + 1)).
  rewrite !pow2_Z by lia.
  rewrite (Qmake_Qdiv n d).
  unfold Qdiv.
  apply Qle_trans with (inject_Z n * / inject_Z (2 ^ (Z.log2 (Z.pos d) + 1))).
  - apply Qmult_le_compat_r; [now rewrite <- Zle_Qle|].
    apply Qinv_le_0_compat. rewrite <- (Zle_Qle 0). lia.
  - assert (H0n : 0 <= inject_Z n) by (rewrite <- (Zle_Qle 0); lia).
    assert (Hdpos : 0 < inject_Z (Z.pos d)) by (now rewrite <- (Zlt_Qlt 0)).
    assert (Hle : inject_Z (Z.pos d) <= inject_Z (2 ^ (Z.log2 (Z.pos d) + 1)))
      by (rewrite <- Zle_Qle; lia).
    rewrite (Qmult_comm (inject_Z n)), (Qmult_comm (inject_Z n)).
    apply Qmult_le_compat_r; [|exact H0n].
    apply Qle_shift_inv_l; [exact Hdpos|].
    rewrite Qmult_comm.
    apply Qle_shift_div_r; [|now rewrite Qmult_1_l].
    apply Qlt_le_trans with (inject_Z (Z.pos d)); assumption.
Qed.


Lemma Qceiling_unique r k :
  inject_Z (k - 1) < r -> r <= inject_Z k -> Qceiling r = k.
Proof.
  intros Hlo Hhi.
  pose proof (Qle_ceiling r) as H1. pose proof (Qceiling_lt r) as H2.
  assert (Ha : inject_Z (k - 1) < inject_Z (Qceiling r))
    by (eapply Qlt_le_trans; eassumption).
  assert (Hb : inject_Z (Qceiling r - 1) < inject_Z k)
    by (eapply Qlt_le_trans; eassumption).
  rewrite <- Zlt_Qlt in Ha, Hb. lia.
Qed.

(** Rounding a positive number. *)
Lemma roundToDouble_positive a :
  0 < a ->
  roundToDouble a
  = let u := Z.max (log2floor a - 52) (-1074) in
    let r := Qred (inject_Z (nearestEven (a / pow2 u)) * pow2 u) in
    if Qle_bool (pow2 1024) r then PosInf else Fin r.
Proof.
  intros Ha. unfold roundToDouble, sign.
  destruct a as [n d]. unfold Qlt in Ha. cbn in Ha.
  assert (Hn : (0 < n)%Z) by lia.
  cbn [Qnum]. rewrite (proj2 (Z.compare_gt_iff n 0) Hn).
  unfold Qabs. rewrite (Z.abs_eq n) by lia. reflexivity.
Qed.

(** The nearest double of a number is within half a spacing of it. *)
Lemma scaled_near a u :
  let r := inject_Z (nearestEven (a / pow2 u)) * pow2 u in
  r - a <= pow2 u * (1 # 2) /\ a - r <= pow2 u * (1 # 2).
Proof.
  cbv zeta. pose proof (pow2_pos u) as HP.
  destruct (nearestEven_near (a / pow2 u)) as [H1 H2].
  set (m := inject_Z (nearestEven (a / pow2 u))) in *. clearbody m.
  assert (Hx : a / pow2 u * pow2 u == a).
  { unfold Qdiv. rewrite <- Qmult_assoc, (Qmult_comm (/ pow2 u)),
      Qmult_inv_r, Qmult_1_r; [reflexivity|]. lra. }
  set (x := a / pow2 u) in *. clearbody x.
  set (P := pow2 u) in *. clearbody P.
  split.
  - apply (Qmult_le_compat_r _ _ P) in H1; [|lra].
    rewrite <- Hx. lra.
  - apply (Qmult_le_compat_r _ _ P) in H2; [|lra].
    rewrite <- Hx. lra.
Qed.

(** For a count below [2^53] and a whole divisor below [2^53], the quotient
    as JavaScript computes it, rounded to a double, has the ceiling of the
    exact quotient. *)
Lemma ceil_of_rounded_quotient (n s : Z) :
  (0 <= n < 2 ^ 53)%Z -> (1 <= s < 2 ^ 53)%Z ->
  Math_ceil (roundToDouble (inject_Z n / inject_Z s))
  = Math_ceil (div (ofZ n) (ofZ s)).
Proof.
  intros Hn Hs.
  assert (Hspos : 0 < inject_Z s) by (rewrite <- (Zlt_Qlt 0); lia).
  assert (Hdiv : div (ofZ n) (ofZ s) = Fin (inject_Z n / inject_Z s)).
  { unfold div, ofZ, sign. cbn [Qnum inject_Z].
    destruct (s ?= 0)%Z eqn:C; try reflexivity.
    apply Z.compare_eq in C. lia. }
  rewrite Hdiv. clear Hdiv.
  set (a := inject_Z n / inject_Z s).
  assert (Has : a * inject_Z s == inject_Z n).
  { unfold a, Qdiv. rewrite <- Qmult_assoc, (Qmult_comm (/ inject_Z s)),
      Qmult_inv_r, Qmult_1_r; [reflexivity|]. lra. }
  destruct (Z.eq_dec n 0) as [->|Hn0].
  { unfold a. cbn. reflexivity. }
  assert (Hnpos : 0 < inject_Z n) by (rewrite <- (Zlt_Qlt 0); lia).
  assert (Ha : 0 < a).
  { unfold a. apply Qlt_shift_div_l; [exact Hspos|]. lra. }
  rewrite (roundToDouble_positive a Ha). cbv zeta.
  set (e := log2floor a).
  set (u := Z.max (e - 52) (-1074)).
  set (r := Qred (inject_Z (nearestEven (a / pow2 u)) * pow2 u)).
  assert (Hr : r == inject_Z (nearestEven (a / pow2 u)) * pow2 u)
    by apply Qred_correct.
  pose proof (pow2_pos u) as HP.
  (* the number is below 2^53 *)
  assert (Han : a <= inject_Z n).
  { unfold a. apply Qle_shift_div_r; [exact Hspos|].
    assert (Hs1 : 1 <= inject_Z s) by (rewrite <- (Zle_Qle 1); lia).
    rewrite <- (Qmult_1_r (inject_Z n)) at 1.
    rewrite (Qmult_comm (inject_Z n) 1), (Qmult_comm (inject_Z n)).
    apply Qmult_le_compat_r; lra. }
  assert (Hn53 : inject_Z n < pow2 53).
  { rewrite (pow2_Z 53) by lia. rewrite <- Zlt_Qlt. lia. }
  assert (He : (e < 53)%Z).
  { apply pow2_lt_inv. apply Qle_lt_trans with a; [apply log2floor_le; exact Ha|].
    lra. }
  assert (Hu0 : (u <= 0)%Z) by (unfold u; lia).
  (* the spacing, times the divisor, is below 2 *)
  assert (HPs : pow2 u * inject_Z s < 2).
  { unfold u. destruct (Z.max_spec (e - 52) (-1074)) as [[_ ->]|[_ ->]].
    - assert (Hs53 : inject_Z s < inject_Z (2 ^ 53)) by (rewrite <- Zlt_Qlt; lia).
      apply Qlt_le_trans with (pow2 (-1074) * inject_Z (2 ^ 53)).
      + rewrite (Qmult_comm (pow2 (-1074))), (Qmult_comm (pow2 (-1074))).
        apply Qmult_lt_compat_r; [apply pow2_pos|exact Hs53].
      + vm_compute. discriminate.
    - replace (e - 52)%Z with (e + -52)%Z by lia. rewrite pow2_plus.
      pose proof (log2floor_le a Ha) as Hle. fold e in Hle.
      assert (H52 : pow2 (-52) * pow2 53 == 2) by (vm_compute; reflexivity).
      assert (Hp52 : 0 < pow2 (-52)) by apply pow2_pos.
      apply Qle_lt_trans with (a * inject_Z s * pow2 (-52)).
      + rewrite <- (Qmult_assoc (pow2 e)), (Qmult_comm (pow2 (-52))),
          Qmult_assoc.
        apply Qmult_le_compat_r; [|lra].
        apply Qmult_le_compat_r; lra.
      + rewrite Has. rewrite <- H52. rewrite (Qmult_comm (pow2 (-52))).
        apply Qmult_lt_compat_r; lra. }
  destruct (scaled_near a u) as [Hup Hdown]. rewrite <- Hr in Hup, Hdown.
  (* scaled by the divisor, the rounded number is within 1 of the count *)
  assert (HR : r * inject_Z s - inject_Z n < 1 /\
               inject_Z n - r * inject_Z s < 1).
  { apply (Qmult_le_compat_r _ _ (inject_Z s)) in Hup; [|lra].
    apply (Qmult_le_compat_r _ _ (inject_Z s)) in Hdown; [|lra].
    set (R := r * inject_Z s) in *.
    assert (E1 : (r - a) * inject_Z s == R - inject_Z n)
      by (unfold R; rewrite <- Has; ring).
    assert (E2 : (a - r) * inject_Z s == inject_Z n - R)
      by (unfold R; rewrite <- Has; ring).
    assert (E3 : pow2 u * (1 # 2) * inject_Z s == (pow2 u * inject_Z s) * (1 # 2))
      by ring.
    rewrite E1, E3 in Hup. rewrite E2, E3 in Hdown.
    assert (L : forall X P : Q, P < 2 -> X <= P * (1 # 2) -> X < 1)
      by (intros; lra).
    split; eapply L; eassumption. }
  set (k := Qceiling a).
  pose proof (Qle_ceiling a) as Hk1. pose proof (Qceiling_lt a) as Hk2.
  fold k in Hk1, Hk2.
  assert (Hkn : (k <= n)%Z).
  { unfold k. rewrite <- (Qceiling_Z n). apply Qceiling_resp_le. exact Han. }
  assert (Hceil : r <= inject_Z k /\ Qceiling r = k).
  { destruct (Z.eq_dec n (k * s)) as [Hns|Hns].
    - (* a whole quotient is a double *)
      assert (Hak : a == inject_Z k).
      { apply (Qmult_inj_r _ _ (inject_Z s)); [lra|].
        rewrite Has, Hns, inject_Z_mult. reflexivity. }
      assert (Hx : a / pow2 u == inject_Z (k * 2 ^ (- u))).
      { rewrite inject_Z_mult, <- (pow2_Z (- u)) by lia.
        unfold Qdiv. rewrite Hak. apply Qmult_comp; [reflexivity|].
        unfold pow2. rewrite Qpower_opp. reflexivity. }
      assert (Hrk : r == inject_Z k).
      { rewrite Hr, (nearestEven_integer _ _ Hx), inject_Z_mult,
          <- (pow2_Z (- u)) by lia.
        rewrite <- Qmult_assoc, <- pow2_plus.
        replace (- u + u)%Z with 0%Z by lia.
        change (pow2 0) with 1. apply Qmult_1_r. }
      split; [rewrite Hrk; apply Qle_refl|].
      rewrite (Qceiling_comp _ _ Hrk). apply Qceiling_Z.
    - (* otherwise the count is at least 1 from both multiples *)
      assert (Hlow : ((k - 1) * s < n)%Z).
      { rewrite Zlt_Qlt. rewrite inject_Z_mult, <- Has.
        apply Qmult_lt_compat_r; assumption. }
      assert (Hhigh : (n <= k * s)%Z).
      { rewrite Zle_Qle. rewrite inject_Z_mult, <- Has.
        apply Qmult_le_compat_r; [assumption|lra]. }
      assert (Hlow' : inject_Z ((k - 1) * s) + 1 <= inject_Z n).
      { change 1 with (inject_Z 1). rewrite <- inject_Z_plus, <- Zle_Qle. lia. }
      assert (Hhigh' : inject_Z n + 1 <= inject_Z (k * s)).
      { change 1 with (inject_Z 1). rewrite <- inject_Z_plus, <- Zle_Qle. lia. }
      destruct HR as [HR1 HR2].
      assert (Hrk : r < inject_Z k).
      { apply (Qmult_lt_r _ _ (inject_Z s)); [exact Hspos|].
        rewrite <- inject_Z_mult.
        assert (L : forall R N K : Q, R - N < 1 -> N + 1 <= K -> R < K)
          by (intros; lra).
        apply (L _ (inject_Z n)); assumption. }
      assert (Hrk' : inject_Z (k - 1) < r).
      { apply (Qmult_lt_r _ _ (inject_Z s)); [exact Hspos|].
        rewrite <- inject_Z_mult.
        assert (L : forall R N K : Q, N - R < 1 -> K + 1 <= N -> K < R)
          by (intros; lra).
        apply (L _ (inject_Z n)); assumption. }
      split; [now apply Qlt_le_weak|].
      apply Qceiling_unique; [exact Hrk'|now apply Qlt_le_weak]. }
  destruct Hceil as [Hrk Hceil].
  assert (Hfin : Qle_bool (pow2 1024) r = false).
  { destruct (Qle_bool (pow2 1024) r) eqn:Hb; [|reflexivity].
    apply Qle_bool_iff in Hb.
    assert (Hbig : inject_Z (2 ^ 53) < pow2 1024) by (vm_compute; reflexivity).
    assert (Hk53 : inject_Z k <= inject_Z (2 ^ 53)) by (rewrite <- Zle_Qle; lia).
    exfalso. apply (Qlt_irrefl r).
    apply Qle_lt_trans with (inject_Z k); [exact Hrk|].
    apply Qle_lt_trans with (inject_Z (2 ^ 53)); [exact Hk53|].
    apply Qlt_le_trans with (pow2 1024); assumption. }
  rewrite Hfin. unfold Math_ceil. now rewrite Hceil.
Qed.

End RoundingFacts.
